(** * ib_insync decoders: field cursor, registry, dispatcher, order grammars

    A shallow embedding of the decoder package of ib_insync
    ([ib_insync/decoders] and [ib_insync/contract]) and the properties its
    specification states about it.

    Layout: Part I holds the definitions, one module per Python class or
    module; Part II holds the theorems, one module per component. *)

From stdpp Require Import gmap strings list.
From Stdlib Require Import ZArith QArith Lia Ascii String DecimalString.

Set Default Proof Using "Type".
Local Open Scope Z_scope.

(* ===================================================================== *)
(** * Part I: definitions *)
(* ===================================================================== *)

(** ** Python preliminaries *)

(** Instances of [Exception] that the modelled code raises or catches.
    [OtherError] stands for any other subclass of [Exception]. *)
Inductive exn : Type :=
  | ValueError
  | TypeError
  | IndexError
  | KeyError
  | AttributeError
  | ValidationError
  | OtherError (name : string).

(** What evaluating a Python expression gives: a value or a raised
    exception. *)
Inductive outcome (A : Type) : Type :=
  | Ok (a : A)
  | Raise (e : exn).
Arguments Ok {A} a.
Arguments Raise {A} e.

(** Code that mutates an object of type [S]: the object survives an
    exception, as it does in Python. *)
Definition M (S A : Type) : Type := S → outcome A * S.

#[global] Instance M_ret {S} : MRet (M S) := λ A a s, (Ok a, s).
#[global] Instance M_bind {S} : MBind (M S) := λ A B f m s,
  match m s with
  | (Ok a, s') => f a s'
  | (Raise e, s') => (Raise e, s')
  end.

#[global] Instance M_fmap {S} : FMap (M S) := λ A B f m s,
  match m s with
  | (Ok a, s') => (Ok (f a), s')
  | (Raise e, s') => (Raise e, s')
  end.

Definition raise {S A} (e : exn) : M S A := λ s, (Raise e, s).
Definition gets {S A} (f : S → A) : M S A := λ s, (Ok (f s), s).
Definition modify {S} (f : S → S) : M S unit := λ s, (Ok tt, f s).

(** [for _ in range(n): body]; [range] of a non-positive number is empty. *)
Fixpoint repeat_m {S} (n : nat) (body : M S unit) : M S unit :=
  match n with
  | O => mret tt
  | S n' => body ;; repeat_m n' body
  end.
Definition for_range {S} (n : Z) (body : M S unit) : M S unit :=
  repeat_m (Z.to_nat n) body.

(** [l[i]] on a list: negative indices count from the end, anything
    outside [-len, len) raises [IndexError]. *)
Definition py_getitem {A} (l : list A) (i : Z) : outcome A :=
  let n := Z.of_nat (List.length l) in
  let j := if i <? 0 then i + n else i in
  if (0 <=? j) && (j <? n)
  then match l !! Z.to_nat j with Some x => Ok x | None => Raise IndexError end
  else Raise IndexError.

(** [l[i:]]: a negative start counts from the end, and the start is
    clamped to [0, len]. *)
Definition py_slice_from {A} (l : list A) (i : Z) : list A :=
  let n := Z.of_nat (List.length l) in
  let j := if i <? 0 then Z.max (i + n) 0 else Z.min i n in
  drop (Z.to_nat j) l.

(** [str.lower] on the ASCII letters, which is all that a comparison with
    an ASCII literal can observe. *)
Definition lower_ascii (c : ascii) : ascii :=
  let n := nat_of_ascii c in
  if ((65 <=? n) && (n <=? 90))%nat then ascii_of_nat (n + 32) else c.

Fixpoint py_lower (s : string) : string :=
  match s with
  | EmptyString => EmptyString
  | String c s' => String (lower_ascii c) (py_lower s')
  end.

(** Equality of strings up to the case of ASCII letters, stated on the
    characters rather than through [py_lower]. *)
Definition same_letter (a b : ascii) : Prop :=
  a = b ∨
  let x := nat_of_ascii a in
  let y := nat_of_ascii b in
  ((65 ≤ x ≤ 90)%nat ∧ y = (x + 32)%nat) ∨ ((65 ≤ y ≤ 90)%nat ∧ x = (y + 32)%nat).

Fixpoint eq_ignore_case (s t : string) : Prop :=
  match s, t with
  | EmptyString, EmptyString => True
  | String a s', String b t' => same_letter a b ∧ eq_ignore_case s' t'
  | _, _ => False
  end.

(** The parts of the interpreter and of [ib_insync.util] that the decoders
    call and that have no finite description here: the float type and the
    text-to-number conversions.  Every definition and theorem below is
    parametric in them. *)
Class PyEnv : Type := {
  (** Python's [float] *)
  float : Type;
  (** [0.0] *)
  float_zero : float;
  (** [a < b] on floats *)
  float_lt : float → float → bool;
  (** [a + b] on floats *)
  float_add : float → float → float;
  (** [a == b] on floats *)
  float_eqb : float → float → bool;
  (** [int(s)] on a [str]; [None] is [ValueError] *)
  int_of_str : string → option Z;
  (** [float(s)] on a [str]; [None] is [ValueError] *)
  float_of_str : string → option float;
  (** [ib_insync.util.UNSET_DOUBLE] *)
  UNSET_DOUBLE : float;
  (** [datetime.datetime] *)
  datetime : Type;
  (** [ib_insync.util.parseIBDatetime] *)
  parseIBDatetime : string → outcome datetime;
}.

(** ** [decoders/parsers/field_parser.py]: class [FieldIterator] *)

Module FieldIterator.

Record t : Type := mk {
  fields : list string;
  index : Z;
  length : Z;
}.

(** What [next] hands back: a token of the record, [None] (for an empty
    token when [empty_to_none] is set), or the caller's default. *)
Inductive read (D : Type) : Type :=
  | Tok (s : string)
  | PyNone
  | Dflt (d : D).
Arguments Tok {D} s.
Arguments PyNone {D}.
Arguments Dflt {D} d.

(** The [str | None] that [self.next()] is inside the typed accessors,
    where the default is the [str] [''] . *)
Definition as_str (r : read string) : option string :=
  match r with
  | Tok s => Some s
  | PyNone => None
  | Dflt d => Some d
  end.

Definition __init__ (fields : list string) (start_index : Z) : t :=
  mk fields start_index (Z.of_nat (List.length fields)).

Definition set_index (i : Z) (it : t) : t :=
  mk (fields it) i (length it).

Definition next {D} (default : D) (empty_to_none : bool) : M t (read D) :=
  λ it,
    if index it <? length it then
      match py_getitem (fields it) (index it) with
      | Ok value =>
          let it' := set_index (index it + 1) it in
          if empty_to_none && bool_decide (value = "")
          then (Ok PyNone, it')
          else (Ok (Tok value), it')
      | Raise e => (Raise e, it)
      end
    else (Ok (Dflt default), it).

Section accessors.
Context `{PyEnv}.

(** [int(value)] for the [str | None] held in [value] *)
Definition py_int (value : option string) : outcome Z :=
  match value with
  | Some s => match int_of_str s with Some n => Ok n | None => Raise ValueError end
  | None => Raise TypeError
  end.

(** [float(value)] *)
Definition py_float (value : option string) : outcome float :=
  match value with
  | Some s => match float_of_str s with Some x => Ok x | None => Raise ValueError end
  | None => Raise TypeError
  end.

(** [except (ValueError, TypeError)] *)
Definition is_value_or_type_error (e : exn) : bool :=
  match e with
  | ValueError | TypeError => true
  | _ => false
  end.

Definition next_int (default : Z) : M t Z :=
  value ← as_str <$> next "" false;
  if bool_decide (value = Some "") then mret default
  else match py_int value with
       | Ok n => mret n
       | Raise e => if is_value_or_type_error e then mret default else raise e
       end.

Definition next_float (default : float) : M t float :=
  value ← as_str <$> next "" false;
  if bool_decide (value = Some "") then mret default
  else match py_float value with
       | Ok x => mret x
       | Raise e => if is_value_or_type_error e then mret default else raise e
       end.

Definition next_bool (default : bool) : M t bool :=
  value ← as_str <$> next "" false;
  if bool_decide (value = Some "") then mret default
  else match value with
       | Some s => mret (bool_decide (s = "1") || bool_decide (py_lower s = "true"))
       | None => raise AttributeError
       end.

Definition next_datetime (default : option datetime) : M t (option datetime) :=
  value ← as_str <$> next "" false;
  if bool_decide (value = Some "") then mret default
  else match value with
       | Some s => match parseIBDatetime s with
                   | Ok d => mret (Some d)
                   | Raise _ => mret default
                   end
       | None => mret default
       end.
End accessors.

Definition peek (offset : Z) : M t (option string) :=
  λ it,
    let index := index it + offset in
    if index <? length it then
      match py_getitem (fields it) index with
      | Ok v => (Ok (Some v), it)
      | Raise e => (Raise e, it)
      end
    else (Ok None, it).

Definition skip (count : Z) : M t unit :=
  modify (λ it, set_index (Z.min (index it + count) (length it)) it).

Definition has_more : M t bool :=
  gets (λ it, bool_decide (index it < length it)).

Definition remaining : M t Z :=
  gets (λ it, Z.max 0 (length it - index it)).

Definition consume_rest : M t (list string) :=
  λ it, (Ok (py_slice_from (fields it) (index it)), set_index (length it) it).

(** The cursor's [length] is the length of its token list, as [__init__]
    sets it. *)
Definition wf (it : t) : Prop := length it = Z.of_nat (List.length (fields it)).

(** The data-model invariant: the position never exceeds the length. *)
Definition inv (it : t) : Prop := wf it ∧ index it ≤ length it.

(** A cursor in order: its position is between 0 and its length. *)
Definition in_order (it : t) : Prop := wf it ∧ 0 ≤ index it ≤ length it.

(** The cursor one token further, or where it was when it is exhausted. *)
Definition moved (it : t) : t := set_index (Z.min (index it + 1) (length it)) it.

(** One call of a method of the cursor, with its arguments, and the
    cursor it leaves behind (whatever it returns or raises). *)
Section calls.
Context `{PyEnv}.

Inductive call : Type :=
  | CallNext (empty_to_none : bool)
  | CallNextInt (default : Z)
  | CallNextFloat (default : float)
  | CallNextBool (default : bool)
  | CallNextDatetime (default : option datetime)
  | CallPeek (offset : Z)
  | CallSkip (count : Z)
  | CallHasMore
  | CallRemaining
  | CallConsumeRest.

Definition after (c : call) (it : t) : t :=
  match c with
  | CallNext e => (next tt e it).2
  | CallNextInt d => (next_int d it).2
  | CallNextFloat d => (next_float d it).2
  | CallNextBool d => (next_bool d it).2
  | CallNextDatetime d => (next_datetime d it).2
  | CallPeek o => (peek o it).2
  | CallSkip n => (skip n it).2
  | CallHasMore => (has_more it).2
  | CallRemaining => (remaining it).2
  | CallConsumeRest => (consume_rest it).2
  end.

Definition after_all (cs : list call) (it : t) : t :=
  foldl (λ it c, after c it) it cs.
End calls.

End FieldIterator.

(** ** [decoders/base.py]: class [MessageRegistry] *)

Module MessageRegistry.
Section registry.
(** [Msg]: the decoded message objects; [W]: the consumer's wrapper
    object, which handlers act on. *)
Context {Msg W : Type}.

(** A message class, as far as the registry and the dispatcher use it:
    its name, its [MESSAGE_ID] class attribute and its [from_fields]
    class method, which returns a message, [None], or raises. *)
Record msg_class : Type := {
  __name__ : string;
  MESSAGE_ID : option Z;
  from_fields : list string → Z → outcome (option Msg);
}.

(** A handler function: it acts on the wrapper and may raise. *)
Record handler : Type := {
  func_name : string;
  call : Msg → M W unit;
}.

(** [_handlers] is keyed by the class object; a class is identified
    here by its name (the message classes of the package have distinct
    names). *)
Record t : Type := mk {
  _message_classes : gmap Z msg_class;
  _handlers : gmap string handler;
}.

Definition __init__ : t := mk ∅ ∅.

(** [@registry.register_message(msg_id)] applied to [cls] *)
Definition register_message (msg_id : Z) (cls : msg_class) : M t msg_class :=
  λ self,
    let cls := {| __name__ := __name__ cls;
                  MESSAGE_ID := Some msg_id;
                  from_fields := from_fields cls |} in
    (Ok cls, mk (<[msg_id := cls]> (_message_classes self)) (_handlers self)).

(** [@registry.register_handler(message_cls)] applied to [func] *)
Definition register_handler (message_cls : msg_class) (func : handler) : M t handler :=
  λ self,
    (Ok func,
     mk (_message_classes self) (<[__name__ message_cls := func]> (_handlers self))).

Definition get_message_class (msg_id : Z) (self : t) : option msg_class :=
  _message_classes self !! msg_id.

Definition get_handler (message_cls : msg_class) (self : t) : option handler :=
  _handlers self !! __name__ message_cls.

Definition list_registered_messages (self : t) : gmap Z string :=
  __name__ <$> _message_classes self.

Definition list_registered_handlers (self : t) : gmap string string :=
  func_name <$> _handlers self.
End registry.
Arguments msg_class : clear implicits.
Arguments handler : clear implicits.
Arguments t : clear implicits.
End MessageRegistry.

(** ** [decoders/dispatcher.py]: class [MessageDispatcher] *)

Module MessageDispatcher.
Import MessageRegistry.

Section dispatcher.
Context `{PyEnv} {Msg W : Type}.

(** An argument passed to a method of the wrapper. *)
Inductive arg : Type :=
  | ArgInt (n : Z)
  | ArgMsg (m : Msg).

(** A call made on the consumer's side while a record is dispatched:
    a registered handler, or a method of the wrapper. *)
Inductive invocation : Type :=
  | Handler (func_name : string) (m : Msg)
  | WrapperMethod (method_name : string) (args : list arg).

(** What the dispatcher needs from the outside:
    - [req_id]: [message.req_id] when [hasattr(message, 'req_id')];
    - [wrapper_getattr]: [getattr(wrapper, name, None)] when the
      attribute exists and is truthy, as a method that acts on the
      wrapper and may raise. *)
Context (req_id : Msg → option Z).
Context (wrapper_getattr : W → string → option (list arg → M W unit)).

Record statistics : Type := {
  messages_processed : Z;
  messages_failed : Z;
  validation_errors : Z;
  unknown_messages : Z;
  processing_time : float;
}.

Definition no_statistics : statistics := {|
  messages_processed := 0;
  messages_failed := 0;
  validation_errors := 0;
  unknown_messages := 0;
  processing_time := float_zero;
|}.

(** The dispatcher object.  [invoked] is not an attribute of the Python
    object: it logs, oldest first, the handler and wrapper-method calls
    made so far, so that statements can count them. *)
Record t : Type := mk {
  wrapper : W;
  server_version : Z;
  registry : MessageRegistry.t Msg W;
  stats : statistics;
  message_counts : gmap Z Z;
  pre_processors : list (list string → outcome (list string));
  post_processors : list (Msg → outcome unit);
  invoked : list invocation;
}.

Definition __init__ (wrapper : W) (registry : MessageRegistry.t Msg W)
    (server_version : Z) : t :=
  mk wrapper server_version registry no_statistics ∅ [] [] [].

Definition set_stats (f : statistics → statistics) (self : t) : t :=
  mk (wrapper self) (server_version self) (registry self) (f (stats self))
     (message_counts self) (pre_processors self) (post_processors self)
     (invoked self).

Definition incr_processed (st : statistics) : statistics :=
  {| messages_processed := messages_processed st + 1;
     messages_failed := messages_failed st;
     validation_errors := validation_errors st;
     unknown_messages := unknown_messages st;
     processing_time := processing_time st |}.

Definition incr_failed (st : statistics) : statistics :=
  {| messages_processed := messages_processed st;
     messages_failed := messages_failed st + 1;
     validation_errors := validation_errors st;
     unknown_messages := unknown_messages st;
     processing_time := processing_time st |}.

Definition incr_unknown (st : statistics) : statistics :=
  {| messages_processed := messages_processed st;
     messages_failed := messages_failed st;
     validation_errors := validation_errors st;
     unknown_messages := unknown_messages st + 1;
     processing_time := processing_time st |}.

Definition add_time (elapsed : float) (st : statistics) : statistics :=
  {| messages_processed := messages_processed st;
     messages_failed := messages_failed st;
     validation_errors := validation_errors st;
     unknown_messages := unknown_messages st;
     processing_time := float_add (processing_time st) elapsed |}.

(** [self.message_counts[msg_id] = self.message_counts.get(msg_id, 0) + 1] *)
Definition count_message (msg_id : Z) (self : t) : t :=
  mk (wrapper self) (server_version self) (registry self) (stats self)
     (<[msg_id := default 0 (message_counts self !! msg_id) + 1]> (message_counts self))
     (pre_processors self) (post_processors self) (invoked self).

Definition log_invocation (i : invocation) (self : t) : t :=
  mk (wrapper self) (server_version self) (registry self) (stats self)
     (message_counts self) (pre_processors self) (post_processors self)
     (invoked self ++ [i]).

(** Run code that acts on the wrapper. *)
Definition on_wrapper {A} (m : M W A) : M t A :=
  λ self,
    let '(r, w) := m (wrapper self) in
    (r, mk w (server_version self) (registry self) (stats self)
           (message_counts self) (pre_processors self) (post_processors self)
           (invoked self)).

(** [try: body except Exception as e: handler] *)
Definition try_except {S A} (body : M S A) (handler : exn → M S A) : M S A :=
  λ s,
    match body s with
    | (Ok a, s') => (Ok a, s')
    | (Raise e, s') => handler e s'
    end.

(** [message_name[0].lower() + message_name[1:]], then without a
    trailing ['Message'] *)
Definition ends_with (suffix s : string) : bool :=
  let n := String.length s in
  let k := String.length suffix in
  (k <=? n)%nat && bool_decide (substring (n - k) k s = suffix).

Definition wrapper_method_name (message_name : string) : outcome string :=
  match message_name with
  | EmptyString => Raise IndexError
  | String c rest =>
      let method_name := String (lower_ascii c) rest in
      Ok (if ends_with "Message" method_name
          then substring 0 (String.length method_name - 7) method_name
          else method_name)
  end.

Definition _call_legacy_handler (msg_id : Z) (fields : list string) : M t unit :=
  mret tt.

Definition _call_wrapper_with_message (method_name : string)
    (method : list arg → M W unit) (message : Msg) : M t unit :=
  let args :=
    match req_id message with
    | Some r => [ArgInt r; ArgMsg message]
    | None => [ArgMsg message]
    end in
  modify (log_invocation (WrapperMethod method_name args)) ;;
  on_wrapper (method args).

Definition _call_wrapper_method (message_name : string) (message : Msg) : M t unit :=
  λ self,
    match wrapper_method_name message_name with
    | Raise e => (Raise e, self)
    | Ok method_name =>
        match wrapper_getattr (wrapper self) method_name with
        | Some method =>
            try_except (_call_wrapper_with_message method_name method message)
              (λ _, mret tt) self
        | None => (Ok tt, self)
        end
    end.

(** [for processor in self.pre_processors: fields = processor(fields)] *)
Fixpoint run_pre_processors (ps : list (list string → outcome (list string)))
    (fields : list string) : outcome (list string) :=
  match ps with
  | [] => Ok fields
  | p :: ps' =>
      match p fields with
      | Ok fields' => run_pre_processors ps' fields'
      | Raise e => Raise e
      end
  end.

(** [for processor in self.post_processors: processor(message)] *)
Fixpoint run_post_processors (ps : list (Msg → outcome unit)) (message : Msg)
    : outcome unit :=
  match ps with
  | [] => Ok tt
  | p :: ps' =>
      match p message with
      | Ok _ => run_post_processors ps' message
      | Raise e => Raise e
      end
  end.

Definition lift_outcome {S A} (o : outcome A) : M S A := λ s, (o, s).

(** The body of the [try] block of [dispatch]. *)
Definition dispatch_record (fields : list string) : M t (option Msg) :=
  match fields with
  | [] => modify (set_stats incr_failed) ;; mret None
  | field0 :: _ =>
      if bool_decide (field0 = "") then
        modify (set_stats incr_failed) ;; mret None
      else
        match int_of_str field0 with
        | None => modify (set_stats incr_failed) ;; mret None
        | Some msg_id =>
            modify (set_stats incr_processed) ;;
            modify (count_message msg_id) ;;
            ps ← gets pre_processors;
            fields ← lift_outcome (run_pre_processors ps fields);
            reg ← gets registry;
            match get_message_class msg_id reg with
            | None =>
                modify (set_stats incr_unknown) ;;
                _call_legacy_handler msg_id fields ;;
                mret None
            | Some message_cls =>
                sv ← gets server_version;
                match from_fields message_cls fields sv with
                | Raise e => modify (set_stats incr_failed) ;; mret None
                | Ok None => mret None
                | Ok (Some message) =>
                    match get_handler message_cls reg with
                    | Some handler =>
                        try_except
                          (modify (log_invocation (Handler (func_name handler) message)) ;;
                           on_wrapper (call handler message))
                          (λ e, modify (set_stats incr_failed))
                    | None =>
                        _call_wrapper_method (__name__ message_cls) message
                    end ;;
                    qs ← gets post_processors;
                    lift_outcome (run_post_processors qs message) ;;
                    mret (Some message)
                end
            end
        end
  end.

(** [dispatch]: the [finally] clause adds the elapsed time on every
    path.  [elapsed] is the difference of the two clock readings. *)
Definition dispatch (elapsed : float) (fields : list string) : M t (option Msg) :=
  λ self,
    let '(r, self') := dispatch_record fields self in
    (r, set_stats (add_time elapsed) self').

Definition add_pre_processor (processor : list string → outcome (list string)) : M t unit :=
  modify (λ self,
    mk (wrapper self) (server_version self) (registry self) (stats self)
       (message_counts self) (pre_processors self ++ [processor])
       (post_processors self) (invoked self)).

Definition add_post_processor (processor : Msg → outcome unit) : M t unit :=
  modify (λ self,
    mk (wrapper self) (server_version self) (registry self) (stats self)
       (message_counts self) (pre_processors self)
       (post_processors self ++ [processor]) (invoked self)).

Definition reset_statistics : M t unit :=
  modify (λ self,
    mk (wrapper self) (server_version self) (registry self) no_statistics
       ∅ (pre_processors self) (post_processors self) (invoked self)).

(** [sum(self.message_counts.values())] *)
Definition total_count (self : t) : Z :=
  map_fold (λ _ n acc, n + acc) 0 (message_counts self).

(** The tag of a record, when [dispatch] accepts its first token: the
    record is not empty, the token is not empty and [int] parses it. *)
Definition tag_of (fields : list string) : option Z :=
  match fields with
  | [] => None
  | field0 :: _ => if bool_decide (field0 = "") then None else int_of_str field0
  end.

(** What a caller can do with a dispatcher, one step at a time. *)
Inductive action : Type :=
  | Dispatch (elapsed : float) (fields : list string)
  | AddPreProcessor (processor : list string → outcome (list string))
  | AddPostProcessor (processor : Msg → outcome unit)
  | ResetStatistics.

Definition perform (a : action) (self : t) : t :=
  match a with
  | Dispatch elapsed fields => (dispatch elapsed fields self).2
  | AddPreProcessor p => (add_pre_processor p self).2
  | AddPostProcessor p => (add_post_processor p self).2
  | ResetStatistics => (reset_statistics self).2
  end.

Definition perform_all (acts : list action) (self : t) : t :=
  foldl (λ self a, perform a self) self acts.


(** The calls made by one operation: what [invoked] gained. *)
Definition new_invocations (before after : t) : list invocation :=
  drop (List.length (invoked before)) (invoked after).
End dispatcher.
Arguments t {_} Msg W.
Arguments arg : clear implicits.
Arguments invocation : clear implicits.
End MessageDispatcher.

(** ** Python objects

    Values as the decoders handle them.  An object is its class name and
    its attribute dictionary; a [NamedTuple] is a tuple. *)

Section values.
Context `{PyEnv}.

#[warnings="-register-all"]
Inductive pyval : Type :=
  | VNone
  | VBool (b : bool)
  | VInt (n : Z)
  | VFloat (x : float)
  | VStr (s : string)
  | VDecimal (q : Q)
  | VTuple (items : list pyval)
  | VList (items : list pyval)
  | VDict (items : gmap string pyval)
  | VObj (cls : string) (attrs : gmap string pyval).

(** [bool(v)] *)
Definition truthy (v : pyval) : bool :=
  match v with
  | VNone => false
  | VBool b => b
  | VInt n => negb (n =? 0)
  | VFloat x => negb (float_eqb x float_zero)
  | VStr s => negb (bool_decide (s = ""))
  | VDecimal q => negb (Qeq_bool q 0)
  | VTuple items | VList items => negb (bool_decide (List.length items = 0%nat))
  | VDict items => negb (bool_decide (size items = 0%nat))
  | VObj _ _ => true
  end.

(** [v == s] for a [str] literal [s] *)
Definition is_str (s : string) (v : pyval) : bool :=
  match v with
  | VStr s' => bool_decide (s' = s)
  | _ => false
  end.

(** The [str | None] returned by [it.next()] as a value *)
Definition of_str (o : option string) : pyval :=
  match o with
  | Some s => VStr s
  | None => VNone
  end.
End values.

(** What the decoders need from the classes they instantiate and assign
    to.  Most of these classes ([Order], [OrderState], [OrderComboLeg],
    [OrderCondition] of [ib_insync.order]) are not part of the decoder
    package, so their behaviour is a parameter:
    - [new_object cls args]: the object [cls(args...)], or the exception the
      constructor raises;
    - [setattr_check cls name v]: whether [obj.name = v] on an instance of
      [cls] is accepted (the value is then stored as given) or raises, as
      a class that validates assignments may. *)
Class ObjEnv `{PyEnv} : Type := {
  new_object : string → list pyval → outcome pyval;
  setattr_check : string → string → pyval → outcome unit;
}.

(** ** Decoding: a cursor and local variables *)

Module Decode.
Section decode.
Context `{ObjEnv}.

(** The state of a decoder while it runs: its cursor [it] and its other
    local variables. *)
Record frame : Type := mk {
  it : FieldIterator.t;
  vars : gmap string pyval;
}.

(** [it = FieldIterator(fields)] *)
Definition start (fields : list string) : frame :=
  mk (FieldIterator.__init__ fields 0) ∅.

Definition lift {A} (o : outcome A) : M frame A := λ fr, (o, fr).

(** A method call on [it] *)
Definition on_it {A} (m : M FieldIterator.t A) : M frame A :=
  λ fr, let '(r, it') := m (it fr) in (r, mk it' (vars fr)).

(** [it.next()], [it.next_int()], [it.next_float()], [it.next_bool()],
    [it.skip(n)] with the default arguments, as values *)
Definition next : M frame pyval :=
  on_it ((of_str ∘ FieldIterator.as_str) <$> FieldIterator.next "" false).
Definition next_int_z : M frame Z :=
  on_it (FieldIterator.next_int 0).
Definition next_int : M frame pyval :=
  VInt <$> next_int_z.
Definition next_float : M frame pyval :=
  on_it (VFloat <$> FieldIterator.next_float float_zero).
Definition next_bool_b : M frame bool :=
  on_it (FieldIterator.next_bool false).
Definition next_bool : M frame pyval :=
  VBool <$> next_bool_b.
Definition skip (count : Z) : M frame unit :=
  on_it (FieldIterator.skip count).

(** [var = value] *)
Definition set_var (var : string) (v : pyval) : M frame unit :=
  modify (λ fr, mk (it fr) (<[var := v]> (vars fr))).

(** the value of the local variable [var] *)
Definition get_var (var : string) : M frame pyval :=
  λ fr, match vars fr !! var with
        | Some v => (Ok v, fr)
        | None => (Raise (OtherError "UnboundLocalError"), fr)
        end.

(** [var = cls(args...)] *)
Definition new (var cls : string) (args : list pyval) : M frame unit :=
  o ← lift (new_object cls args); set_var var o.

(** [var.name] *)
Definition getattr (var name : string) : M frame pyval :=
  o ← get_var var;
  match o with
  | VObj _ attrs =>
      match attrs !! name with
      | Some v => mret v
      | None => raise AttributeError
      end
  | _ => raise AttributeError
  end.

(** [var.name = v] *)
Definition setattr (var name : string) (v : pyval) : M frame unit :=
  o ← get_var var;
  match o with
  | VObj cls attrs =>
      lift (setattr_check cls name v) ;;
      set_var var (VObj cls (<[name := v]> attrs))
  | _ => raise AttributeError
  end.

(** [var.name = <expression>], the expression being evaluated first *)
Definition store (var name : string) (rhs : M frame pyval) : M frame unit :=
  v ← rhs; setattr var name v.

(** [var.name.append(v)]: the list is changed in place *)
Definition append_to (var name : string) (v : pyval) : M frame unit :=
  o ← get_var var;
  match o with
  | VObj cls attrs =>
      match attrs !! name with
      | Some (VList items) => set_var var (VObj cls (<[name := VList (items ++ [v])]> attrs))
      | _ => raise AttributeError
      end
  | _ => raise AttributeError
  end.

(** [var.name.sub = <expression>]: the object held in [var.name] is
    changed in place *)
Definition store_in (var name sub : string) (rhs : M frame pyval) : M frame unit :=
  v ← rhs;
  o ← get_var var;
  match o with
  | VObj cls attrs =>
      match attrs !! name with
      | Some (VObj cls' attrs') =>
          lift (setattr_check cls' sub v) ;;
          set_var var (VObj cls (<[name := VObj cls' (<[sub := v]> attrs')]> attrs))
      | _ => raise AttributeError
      end
  | _ => raise AttributeError
  end.

(** [if cond: body] *)
Definition when (cond : bool) (body : M frame unit) : M frame unit :=
  if cond then body else mret tt.

(** [TagValue(tag, value)] read from the next two tokens *)
Definition next_tag_value : M frame pyval :=
  tag ← next; value ← next; mret (VTuple [tag; value]).

(** Run a decoder body on a record and keep what it returns or raises. *)
Definition run {A} (body : M frame A) (fields : list string) : outcome A :=
  (body (start fields)).1.

(** The number of tokens the cursor has moved past. *)
Definition position (fr : frame) : Z := FieldIterator.index (it fr).

(** The cursor of a running decoder: it ranges over the record [fields]
    and its position is between 0 and the length of the record. *)
Definition cursor_ok (fields : list string) (fr : frame) : Prop :=
  FieldIterator.fields (it fr) = fields
  ∧ FieldIterator.length (it fr) = Z.of_nat (List.length fields)
  ∧ 0 ≤ position fr ≤ Z.of_nat (List.length fields).

(** The frame after one read at the cursor: one token further, or where
    it was when the record is exhausted. *)
Definition advance (fr : frame) : frame :=
  mk (FieldIterator.set_index
        (Z.min (position fr + 1) (FieldIterator.length (it fr))) (it fr))
     (vars fr).

(** The token at the cursor, or [''] when the record is exhausted. *)
Definition current_token (fr : frame) : string :=
  default "" (FieldIterator.fields (it fr) !! Z.to_nat (position fr)).

(** A read of one token: on a cursor in order it returns normally and
    the cursor has moved by one token, up to the end of the record. *)
Definition reader {A} (rdr : M frame A) : Prop :=
  ∀ fields fr, cursor_ok fields fr → ∃ a, rdr fr = (Ok a, advance fr).

(** [keeps fields m]: [m] leaves a cursor that is in order in order,
    whether it returns or raises. *)
Definition keeps (fields : list string) {A} (m : M frame A) : Prop :=
  ∀ fr r fr', cursor_ok fields fr → m fr = (r, fr') → cursor_ok fields fr'.
End decode.
End Decode.

(** ** [decoders/models/market_data.py] *)

Module PriceSizeTickMessage.
Import Decode.
Section cls.
Context `{ObjEnv}.

(** [float(price)] on a token *)
Definition to_float (v : pyval) : M frame pyval :=
  match v with
  | VStr s =>
      match float_of_str s with
      | Some x => mret (VFloat x)
      | None => raise ValueError
      end
  | _ => raise TypeError
  end.

Definition body (server_version : Z) : M frame (option pyval) :=
  skip 2 ;;
  req_id ← next_int;
  tick_type ← next_int;
  price ← next;
  size ← next;
  if negb (truthy price) then mret None
  else
    price ← to_float price;
    size ← (if truthy size then to_float size else mret (VFloat float_zero));
    mret (Some (VObj "PriceSizeTickMessage"
                  (<["req_id" := req_id]> (<["tick_type" := tick_type]>
                  (<["price" := price]> (<["size" := size]> ∅)))))).

Definition from_fields (fields : list string) (server_version : Z)
    : outcome (option pyval) :=
  run (body server_version) fields.

Definition cls : MessageRegistry.msg_class pyval :=
  {| MessageRegistry.__name__ := "PriceSizeTickMessage";
     MessageRegistry.MESSAGE_ID := Some 1;
     MessageRegistry.from_fields := from_fields |}.
End cls.
End PriceSizeTickMessage.

Module TickSizeMessage.
Import Decode.
Section cls.
Context `{ObjEnv}.

Definition body (server_version : Z) : M frame (option pyval) :=
  skip 1 ;;
  req_id ← next_int;
  tick_type ← next_int;
  size ← next_float;
  mret (Some (VObj "TickSizeMessage"
                (<["req_id" := req_id]> (<["tick_type" := tick_type]>
                (<["size" := size]> ∅))))).

Definition from_fields (fields : list string) (server_version : Z)
    : outcome (option pyval) :=
  run (body server_version) fields.

Definition cls : MessageRegistry.msg_class pyval :=
  {| MessageRegistry.__name__ := "TickSizeMessage";
     MessageRegistry.MESSAGE_ID := Some 2;
     MessageRegistry.from_fields := from_fields |}.
End cls.
End TickSizeMessage.

(** ** [decoders/models/orders.py] *)

(** The statement groups that [OpenOrderMessage.from_fields] and
    [CompletedOrderMessage.from_fields] have in common, word for word. *)
Module OrderGrammar.
Import Decode.
Section blocks.
Context `{ObjEnv}.

(** [order = Order()], [contract = Contract()],
    [order_state = OrderState()] *)
Definition new_order : M frame unit := new "order" "Order" [].
Definition new_contract : M frame unit := new "contract" "Contract" [].
Definition new_order_state : M frame unit := new "order_state" "OrderState" [].

(** [contract.conId] ... [contract.tradingClass] *)
Definition contract_fields : M frame unit :=
  store "contract" "conId" next_int ;;
  store "contract" "symbol" next ;;
  store "contract" "secType" next ;;
  store "contract" "lastTradeDateOrContractMonth" next ;;
  store "contract" "strike" next_float ;;
  store "contract" "right" next ;;
  store "contract" "multiplier" next ;;
  store "contract" "exchange" next ;;
  store "contract" "currency" next ;;
  store "contract" "localSymbol" next ;;
  store "contract" "tradingClass" next.

(** [if server_version < 177: order.faProfile = it.next()] *)
Definition fa_profile (server_version : Z) : M frame unit :=
  when (server_version <? 177) (store "order" "faProfile" next).

(** [# Parse combo legs] *)
Definition combo_legs : M frame unit :=
  num_legs ← next_int_z;
  setattr "contract" "comboLegs" (VList []) ;;
  for_range num_legs (
    new "leg" "ComboLeg" [] ;;
    store "leg" "conId" next_int ;;
    store "leg" "ratio" next_int ;;
    store "leg" "action" next ;;
    store "leg" "exchange" next ;;
    store "leg" "openClose" next_int ;;
    store "leg" "shortSaleSlot" next_int ;;
    store "leg" "designatedLocation" next ;;
    store "leg" "exemptCode" next_int ;;
    leg ← get_var "leg";
    append_to "contract" "comboLegs" leg).

(** [# Parse order combo legs] *)
Definition order_combo_legs : M frame unit :=
  num_order_legs ← next_int_z;
  setattr "order" "orderComboLegs" (VList []) ;;
  for_range num_order_legs (
    new "leg" "OrderComboLeg" [] ;;
    store "leg" "price" next_float ;;
    leg ← get_var "leg";
    append_to "order" "orderComboLegs" leg).

(** [# Parse smart combo routing params] *)
Definition smart_combo_routing_params : M frame unit :=
  num_params ← next_int_z;
  when (0 <? num_params) (
    setattr "order" "smartComboRoutingParams" (VList []) ;;
    for_range num_params (
      tv ← next_tag_value;
      append_to "order" "smartComboRoutingParams" tv)).

(** [0 < v < UNSET_DOUBLE] *)
Definition is_set_positive (v : pyval) : M frame bool :=
  match v with
  | VFloat x => mret (float_lt float_zero x && float_lt x UNSET_DOUBLE)
  | _ => raise TypeError
  end.

(** [# Parse scale order fields] *)
Definition scale_fields : M frame unit :=
  store "order" "scaleInitLevelSize" next_int ;;
  store "order" "scaleSubsLevelSize" next_int ;;
  increment ← next;
  store "order" "scalePriceIncrement"
    (if truthy increment then PriceSizeTickMessage.to_float increment
     else mret (VFloat UNSET_DOUBLE)) ;;
  spi ← getattr "order" "scalePriceIncrement";
  gate ← is_set_positive spi;
  when gate (
    store "order" "scalePriceAdjustValue" next_float ;;
    store "order" "scalePriceAdjustInterval" next_int ;;
    store "order" "scaleProfitOffset" next_float ;;
    store "order" "scaleAutoReset" next_bool ;;
    store "order" "scaleInitPosition" next_int ;;
    store "order" "scaleInitFillQty" next_int ;;
    store "order" "scaleRandomPercent" next_bool).

(** [# Parse hedge fields] *)
Definition hedge_fields : M frame unit :=
  store "order" "hedgeType" next ;;
  hedge_type ← getattr "order" "hedgeType";
  when (truthy hedge_type) (store "order" "hedgeParam" next).

(** [# Parse delta neutral contract] *)
Definition delta_neutral_contract : M frame unit :=
  dnc_present ← next_bool_b;
  when dnc_present (
    con_id ← next_int;
    delta ← next_float;
    price ← next_float;
    dnc ← lift (new_object "DeltaNeutralContract" [con_id; delta; price]);
    setattr "contract" "deltaNeutralContract" dnc).

(** [# Parse algo strategy] *)
Definition algo_strategy : M frame unit :=
  store "order" "algoStrategy" next ;;
  algo ← getattr "order" "algoStrategy";
  when (truthy algo) (
    num_algo_params ← next_int_z;
    when (0 <? num_algo_params) (
      setattr "order" "algoParams" (VList []) ;;
      for_range num_algo_params (
        tv ← next_tag_value;
        append_to "order" "algoParams" tv))).

(** [# Parse PEG BENCH fields] *)
Definition peg_bench_fields : M frame unit :=
  order_type ← getattr "order" "orderType";
  when (is_str "PEG BENCH" order_type || is_str "PEGBENCH" order_type) (
    store "order" "referenceContractId" next_int ;;
    store "order" "isPeggedChangeAmountDecrease" next_bool ;;
    store "order" "peggedChangeAmount" next_float ;;
    store "order" "referenceChangeAmount" next_float ;;
    store "order" "referenceExchangeId" next).

(** [# Parse conditions]: [OrderCondition.createClass(cond_type)(cond_type)]
    is the object [new_object "OrderCondition" [cond_type]]. *)
Definition conditions : M frame unit :=
  num_conditions ← next_int_z;
  when (0 <? num_conditions) (
    for_range num_conditions (
      cond_type ← next_int;
      condition ← lift (new_object "OrderCondition" [cond_type]);
      append_to "order" "conditions" condition) ;;
    store "order" "conditionsIgnoreRth" next_bool ;;
    store "order" "conditionsCancelOrder" next_bool).

(** [if server_version >= 170:] the five fields from [minTradeQty] on *)
Definition min_trade_fields (server_version : Z) : M frame unit :=
  when (170 <=? server_version) (
    store "order" "minTradeQty" next_int ;;
    store "order" "minCompeteSize" next_int ;;
    store "order" "competeAgainstBestOffset" next_float ;;
    store "order" "midOffsetAtWhole" next_float ;;
    store "order" "midOffsetAtHalf" next_float).

(** [cls(order=order, contract=contract, order_state=order_state)] *)
Definition message (cls : string) : M frame (option pyval) :=
  order ← get_var "order";
  contract ← get_var "contract";
  order_state ← get_var "order_state";
  mret (Some (VObj cls
    (<["order" := order]> (<["contract" := contract]>
    (<["order_state" := order_state]> ∅))))).
End blocks.
End OrderGrammar.

Module OpenOrderMessage.
Import Decode OrderGrammar.
Section cls.
Context `{ObjEnv}.

(** Lines 70 to 210: everything before [# Parse hedge fields]. *)
Definition before_hedge (server_version : Z) : M frame unit :=
  skip 1 ;;
  new_order ;;
  new_contract ;;
  new_order_state ;;
  store "order" "orderId" next_int ;;
  contract_fields ;;
  store "order" "action" next ;;
  store "order" "totalQuantity" next_float ;;
  store "order" "orderType" next ;;
  store "order" "lmtPrice" next_float ;;
  store "order" "auxPrice" next_float ;;
  store "order" "tif" next ;;
  store "order" "ocaGroup" next ;;
  store "order" "account" next ;;
  store "order" "openClose" next ;;
  store "order" "origin" next_int ;;
  store "order" "orderRef" next ;;
  store "order" "clientId" next_int ;;
  store "order" "permId" next_int ;;
  store "order" "outsideRth" next_bool ;;
  store "order" "hidden" next_bool ;;
  store "order" "discretionaryAmt" next_float ;;
  store "order" "goodAfterTime" next ;;
  skip 1 ;;
  store "order" "faGroup" next ;;
  store "order" "faMethod" next ;;
  store "order" "faPercentage" next ;;
  fa_profile server_version ;;
  store "order" "modelCode" next ;;
  store "order" "goodTillDate" next ;;
  store "order" "rule80A" next ;;
  store "order" "percentOffset" next_float ;;
  store "order" "settlingFirm" next ;;
  store "order" "shortSaleSlot" next_int ;;
  store "order" "designatedLocation" next ;;
  store "order" "exemptCode" next_int ;;
  store "order" "auctionStrategy" next_int ;;
  store "order" "startingPrice" next_float ;;
  store "order" "stockRefPrice" next_float ;;
  store "order" "delta" next_float ;;
  store "order" "stockRangeLower" next_float ;;
  store "order" "stockRangeUpper" next_float ;;
  store "order" "displaySize" next_int ;;
  store "order" "blockOrder" next_bool ;;
  store "order" "sweepToFill" next_bool ;;
  store "order" "allOrNone" next_bool ;;
  store "order" "minQty" next_int ;;
  store "order" "ocaType" next_int ;;
  store "order" "eTradeOnly" next_bool ;;
  store "order" "firmQuoteOnly" next_bool ;;
  store "order" "nbboPriceCap" next_float ;;
  store "order" "parentId" next_int ;;
  store "order" "triggerMethod" next_int ;;
  store "order" "volatility" next_float ;;
  store "order" "volatilityType" next_int ;;
  store "order" "deltaNeutralOrderType" next ;;
  store "order" "deltaNeutralAuxPrice" next_float ;;
  dn ← getattr "order" "deltaNeutralOrderType";
  when (truthy dn) (
    store "order" "deltaNeutralConId" next_int ;;
    store "order" "deltaNeutralSettlingFirm" next ;;
    store "order" "deltaNeutralClearingAccount" next ;;
    store "order" "deltaNeutralClearingIntent" next ;;
    store "order" "deltaNeutralOpenClose" next ;;
    store "order" "deltaNeutralShortSale" next_bool ;;
    store "order" "deltaNeutralShortSaleSlot" next_int ;;
    store "order" "deltaNeutralDesignatedLocation" next) ;;
  store "order" "continuousUpdate" next_bool ;;
  store "order" "referencePriceType" next_int ;;
  store "order" "trailStopPrice" next_float ;;
  store "order" "trailingPercent" next_float ;;
  store "order" "basisPoints" next_float ;;
  store "order" "basisPointsType" next_int ;;
  store "contract" "comboLegsDescrip" next ;;
  combo_legs ;;
  order_combo_legs ;;
  smart_combo_routing_params ;;
  scale_fields.

(** Lines 217 to 299: from [optOutSmartRouting] to [usePriceMgmtAlgo]. *)
Definition after_hedge : M frame unit :=
  store "order" "optOutSmartRouting" next_bool ;;
  store "order" "clearingAccount" next ;;
  store "order" "clearingIntent" next ;;
  store "order" "notHeld" next_bool ;;
  delta_neutral_contract ;;
  algo_strategy ;;
  store "order" "solicited" next_bool ;;
  store "order" "whatIf" next_bool ;;
  store "order_state" "status" next ;;
  store "order_state" "initMarginBefore" next ;;
  store "order_state" "maintMarginBefore" next ;;
  store "order_state" "equityWithLoanBefore" next ;;
  store "order_state" "initMarginChange" next ;;
  store "order_state" "maintMarginChange" next ;;
  store "order_state" "equityWithLoanChange" next ;;
  store "order_state" "initMarginAfter" next ;;
  store "order_state" "maintMarginAfter" next ;;
  store "order_state" "equityWithLoanAfter" next ;;
  store "order_state" "commission" next_float ;;
  store "order_state" "minCommission" next_float ;;
  store "order_state" "maxCommission" next_float ;;
  store "order_state" "commissionCurrency" next ;;
  store "order_state" "warningText" next ;;
  store "order" "randomizeSize" next_bool ;;
  store "order" "randomizePrice" next_bool ;;
  peg_bench_fields ;;
  conditions ;;
  store "order" "adjustedOrderType" next ;;
  store "order" "triggerPrice" next_float ;;
  store "order" "trailStopPrice" next_float ;;
  store "order" "lmtPriceOffset" next_float ;;
  store "order" "adjustedStopPrice" next_float ;;
  store "order" "adjustedStopLimitPrice" next_float ;;
  store "order" "adjustedTrailingAmount" next_float ;;
  store "order" "adjustableTrailingUnit" next_int ;;
  store_in "order" "softDollarTier" "name" next ;;
  store_in "order" "softDollarTier" "val" next ;;
  store_in "order" "softDollarTier" "displayName" next ;;
  store "order" "cashQty" next_float ;;
  store "order" "dontUseAutoPriceForHedge" next_bool ;;
  store "order" "isOmsContainer" next_bool ;;
  store "order" "discretionaryUpToLimitPrice" next_bool ;;
  store "order" "usePriceMgmtAlgo" next_bool.

(** Lines 301 to 307: [duration], [postToAts], [autoCancelParent]. *)
Definition early_version_fields (server_version : Z) : M frame unit :=
  when (159 <=? server_version) (store "order" "duration" next_int) ;;
  when (160 <=? server_version) (store "order" "postToAts" next_int) ;;
  when (162 <=? server_version) (store "order" "autoCancelParent" next_bool).

(** Everything before [if server_version >= 170]. *)
Definition before_min_trade (server_version : Z) : M frame unit :=
  before_hedge server_version ;;
  hedge_fields ;;
  after_hedge ;;
  early_version_fields server_version.

Definition body (server_version : Z) : M frame (option pyval) :=
  before_min_trade server_version ;;
  min_trade_fields server_version ;;
  message "OpenOrderMessage".

Definition from_fields (fields : list string) (server_version : Z)
    : outcome (option pyval) :=
  run (body server_version) fields.

Definition cls : MessageRegistry.msg_class pyval :=
  {| MessageRegistry.__name__ := "OpenOrderMessage";
     MessageRegistry.MESSAGE_ID := Some 5;
     MessageRegistry.from_fields := from_fields |}.
End cls.
End OpenOrderMessage.

Module CompletedOrderMessage.
Import Decode OrderGrammar.
Section cls.
Context `{ObjEnv}.

(** Lines 450 to 576: everything before [# Parse hedge fields]. *)
Definition before_hedge (server_version : Z) : M frame unit :=
  skip 1 ;;
  new_contract ;;
  new_order ;;
  new_order_state ;;
  contract_fields ;;
  store "order" "action" next ;;
  store "order" "totalQuantity" next_float ;;
  store "order" "orderType" next ;;
  store "order" "lmtPrice" next_float ;;
  store "order" "auxPrice" next_float ;;
  store "order" "tif" next ;;
  store "order" "ocaGroup" next ;;
  store "order" "account" next ;;
  store "order" "openClose" next ;;
  store "order" "origin" next_int ;;
  store "order" "orderRef" next ;;
  store "order" "permId" next_int ;;
  store "order" "outsideRth" next_bool ;;
  store "order" "hidden" next_bool ;;
  store "order" "discretionaryAmt" next_float ;;
  store "order" "goodAfterTime" next ;;
  store "order" "faGroup" next ;;
  store "order" "faMethod" next ;;
  store "order" "faPercentage" next ;;
  fa_profile server_version ;;
  store "order" "modelCode" next ;;
  store "order" "goodTillDate" next ;;
  store "order" "rule80A" next ;;
  store "order" "percentOffset" next_float ;;
  store "order" "settlingFirm" next ;;
  store "order" "shortSaleSlot" next_int ;;
  store "order" "designatedLocation" next ;;
  store "order" "exemptCode" next_int ;;
  store "order" "startingPrice" next_float ;;
  store "order" "stockRefPrice" next_float ;;
  store "order" "delta" next_float ;;
  store "order" "stockRangeLower" next_float ;;
  store "order" "stockRangeUpper" next_float ;;
  store "order" "displaySize" next_int ;;
  store "order" "sweepToFill" next_bool ;;
  store "order" "allOrNone" next_bool ;;
  store "order" "minQty" next_int ;;
  store "order" "ocaType" next_int ;;
  store "order" "triggerMethod" next_int ;;
  store "order" "volatility" next_float ;;
  store "order" "volatilityType" next_int ;;
  store "order" "deltaNeutralOrderType" next ;;
  store "order" "deltaNeutralAuxPrice" next_float ;;
  dn ← getattr "order" "deltaNeutralOrderType";
  when (truthy dn) (
    store "order" "deltaNeutralConId" next_int ;;
    store "order" "deltaNeutralShortSale" next_bool ;;
    store "order" "deltaNeutralShortSaleSlot" next_int ;;
    store "order" "deltaNeutralDesignatedLocation" next) ;;
  store "order" "continuousUpdate" next_bool ;;
  store "order" "referencePriceType" next_int ;;
  store "order" "trailStopPrice" next_float ;;
  store "order" "trailingPercent" next_float ;;
  store "contract" "comboLegsDescrip" next ;;
  combo_legs ;;
  order_combo_legs ;;
  smart_combo_routing_params ;;
  scale_fields.

(** Lines 583 to 646: from [clearingAccount] to [completedStatus]. *)
Definition after_hedge : M frame unit :=
  store "order" "clearingAccount" next ;;
  store "order" "clearingIntent" next ;;
  store "order" "notHeld" next_bool ;;
  delta_neutral_contract ;;
  algo_strategy ;;
  store "order" "solicited" next_bool ;;
  store "order_state" "status" next ;;
  store "order" "randomizeSize" next_bool ;;
  store "order" "randomizePrice" next_bool ;;
  peg_bench_fields ;;
  conditions ;;
  store "order" "trailStopPrice" next_float ;;
  store "order" "lmtPriceOffset" next_float ;;
  store "order" "cashQty" next_float ;;
  store "order" "dontUseAutoPriceForHedge" next_bool ;;
  store "order" "isOmsContainer" next_bool ;;
  store "order" "autoCancelDate" next ;;
  store "order" "filledQuantity" next_float ;;
  store "order" "refFuturesConId" next_int ;;
  store "order" "autoCancelParent" next_bool ;;
  store "order" "shareholder" next ;;
  store "order" "imbalanceOnly" next_bool ;;
  store "order" "routeMarketableToBbo" next_bool ;;
  store "order" "parentPermId" next_int ;;
  store "order_state" "completedTime" next ;;
  store "order_state" "completedStatus" next.

(** Everything before [if server_version >= 170]. *)
Definition before_min_trade (server_version : Z) : M frame unit :=
  before_hedge server_version ;;
  hedge_fields ;;
  after_hedge.

Definition body (server_version : Z) : M frame (option pyval) :=
  before_min_trade server_version ;;
  min_trade_fields server_version ;;
  message "CompletedOrderMessage".

Definition from_fields (fields : list string) (server_version : Z)
    : outcome (option pyval) :=
  run (body server_version) fields.

Definition cls : MessageRegistry.msg_class pyval :=
  {| MessageRegistry.__name__ := "CompletedOrderMessage";
     MessageRegistry.MESSAGE_ID := Some 101;
     MessageRegistry.from_fields := from_fields |}.
End cls.
End CompletedOrderMessage.

(** The two order decoders side by side. *)
Module OrderDecoders.
Section decoders.
Context `{ObjEnv}.

Inductive order_decoder : Type := OpenOrder | CompletedOrder.

Definition before_hedge (d : order_decoder) : Z → M Decode.frame unit :=
  match d with
  | OpenOrder => OpenOrderMessage.before_hedge
  | CompletedOrder => CompletedOrderMessage.before_hedge
  end.

Definition before_min_trade (d : order_decoder) : Z → M Decode.frame unit :=
  match d with
  | OpenOrder => OpenOrderMessage.before_min_trade
  | CompletedOrder => CompletedOrderMessage.before_min_trade
  end.

Definition body (d : order_decoder) : Z → M Decode.frame (option pyval) :=
  match d with
  | OpenOrder => OpenOrderMessage.body
  | CompletedOrder => CompletedOrderMessage.body
  end.
End decoders.
End OrderDecoders.

(** ** pydantic validation, as far as the contract models use it

    [model_validate] and the discriminated-union [TypeAdapter] belong to
    the pydantic library.  They are modelled here from its documentation,
    in lax mode, on the field types the contract models declare.  The
    conversions between scalar types (a numeric string to [int], a float
    to [Decimal], ...) are parameters. *)

Class PydanticEnv `{PyEnv} : Type := {
  (** [int] from a value that is not an [int] *)
  lax_int : pyval → option Z;
  (** [bool] from a value that is not a [bool] *)
  lax_bool : pyval → option bool;
  (** [Decimal] from a value that is neither a [Decimal] nor an [int] *)
  lax_decimal : pyval → option Q;
  (** [Forex.handle_pair] on a truthy [pair] that is not a [str] *)
  handle_other_pair : pyval → gmap string pyval → outcome (gmap string pyval);
}.

Module Pydantic.
Section validation.
Context `{PydanticEnv}.

(** The annotation of a field.  An enum that mixes in [str] is given by
    its values, and so is one that mixes in [int].  [Exchange | str | None]
    and [Currency | str | None] accept exactly what [str | None] accepts. *)
Inductive ftype : Type :=
  | TStr
  | TInt
  | TBool
  | TDecimal (gt0 : bool)
  | TStrEnum (values : list string)
  | TIntEnum (values : list Z)
  | TLiteral (value : string)
  | TOptional (t : ftype).

Fixpoint validate (t : ftype) (v : pyval) : option pyval :=
  match t with
  | TStr => match v with VStr _ => Some v | _ => None end
  | TInt => match v with VInt _ => Some v | _ => VInt <$> lax_int v end
  | TBool => match v with VBool _ => Some v | _ => VBool <$> lax_bool v end
  | TDecimal gt0 =>
      q ← match v with
          | VDecimal q => Some q
          | VInt n => Some (inject_Z n)
          | _ => lax_decimal v
          end;
      if gt0 && Qle_bool q 0 then None else Some (VDecimal q)
  | TStrEnum values =>
      match v with
      | VStr s => if bool_decide (s ∈ values) then Some v else None
      | _ => None
      end
  | TIntEnum values =>
      n ← match v with VInt n => Some n | _ => lax_int v end;
      if bool_decide (n ∈ values) then Some (VInt n) else None
  | TLiteral value =>
      match v with
      | VStr s => if bool_decide (s = value) then Some v else None
      | _ => None
      end
  | TOptional t' =>
      match v with
      | VNone => Some VNone
      | _ => validate t' v
      end
  end.

(** A field of a model without nested models: its name, its annotation,
    its default ([None] for a required field), and whether a [before]
    validator turns [''] into [None]. *)
Record field : Type := Field {
  fname : string;
  fty : ftype;
  fdefault : option pyval;
  blank_to_none : bool;
}.

Definition validate_field (f : field) (data : gmap string pyval) : option pyval :=
  match data !! fname f with
  | Some v =>
      validate (fty f)
        (if blank_to_none f && is_str "" v then VNone else v)
  | None => fdefault f
  end.

(** The validated attributes of a model, or [None] when a field is
    rejected or a required field is missing; keys that are not fields are
    ignored. *)
Fixpoint validate_fields (fs : list field) (data : gmap string pyval)
    : option (gmap string pyval) :=
  match fs with
  | [] => Some ∅
  | f :: fs' =>
      v ← validate_field f data;
      attrs ← validate_fields fs' data;
      Some (<[fname f := v]> attrs)
  end.

(** A field that holds a model: an instance is kept, a [dict] is
    validated. *)
Definition validate_model (cls : string) (fs : list field) (v : pyval) : option pyval :=
  match v with
  | VObj cls' _ => if bool_decide (cls' = cls) then Some v else None
  | VDict data => VObj cls <$> validate_fields fs data
  | _ => None
  end.

Fixpoint validate_all (cls : string) (fs : list field) (items : list pyval)
    : option (list pyval) :=
  match items with
  | [] => Some []
  | v :: items' =>
      v' ← validate_model cls fs v;
      rest ← validate_all cls fs items';
      Some (v' :: rest)
  end.
End validation.
End Pydantic.

(** ** [contract/enums.py], [contract/base.py], [contract/specialized.py] *)

Module ContractModels.
Import Pydantic.
Section models.
Context `{PydanticEnv}.

Definition SecurityType : list string :=
  ["STK"; "OPT"; "FUT"; "CONTFUT"; "CASH"; "IND"; "CFD"; "BOND"; "CMDTY";
   "FOP"; "FUND"; "WAR"; "IOPT"; "BAG"; "CRYPTO"; "NEWS"; "EVENT"].
Definition OptionType : list string := ["C"; "P"].
Definition OrderAction : list string := ["BUY"; "SELL"].
Definition Exchange : list string :=
  ["SMART"; "NYSE"; "NASDAQ"; "AMEX"; "ARCA"; "ISLAND"; "BATS"; "IEX";
   "EDGEA"; "BYX"; "CBOE"; "ISE"; "PHLX"; "BOX"; "GLOBEX"; "ECBOT"; "NYMEX";
   "COMEX"; "CBOT"; "ICE"; "CFE"; "NYBOT"; "IBIS"; "LSE"; "SBF"; "AEB";
   "BVME"; "IBIS2"; "FWB"; "SWB"; "BATEEN"; "SEHK"; "HKFE"; "TSE"; "OSE.JPN";
   "SGX"; "NSE"; "ASX"; "SNFE"; "TSX"; "VENTURE"; "MX"; "IDEALPRO"; "FXCONV";
   "PAXOS"].
Definition Currency : list string :=
  ["USD"; "EUR"; "GBP"; "JPY"; "CHF"; "CAD"; "AUD"; "NZD"; "CNH"; "CNY";
   "HKD"; "SGD"; "KRW"; "INR"; "THB"; "MYR"; "IDR"; "PHP"; "TWD"; "SEK";
   "NOK"; "DKK"; "PLN"; "CZK"; "HUF"; "RON"; "RUB"; "TRY"; "ILS"; "ZAR";
   "AED"; "SAR"; "MXN"; "BRL"; "ARS"; "CLP"; "COP"; "PEN"].
Definition SecurityIdType : list string :=
  ["ISIN"; "CUSIP"; "SEDOL"; "RIC"; "FIGI"].
Definition OpenClose : list Z := [0; 1; 2; 3].
Definition ShortSaleSlot : list Z := [0; 1; 2].
Definition ExemptCode : list Z := [-1; 0].

Definition str_or_none : ftype := TOptional TStr.

(** class [ComboLeg] *)
Definition ComboLeg : list field :=
  [ Field "contract_id" TInt (Some (VInt 0)) false;
    Field "ratio" (TOptional TInt) (Some VNone) false;
    Field "action" (TStrEnum OrderAction) (Some (VStr "BUY")) false;
    Field "exchange" (TOptional (TStrEnum Exchange)) (Some VNone) false;
    Field "open_close" (TIntEnum OpenClose) (Some (VInt 0)) false;
    Field "short_sale_slot" (TIntEnum ShortSaleSlot) (Some (VInt 0)) false;
    Field "designated_location" str_or_none (Some VNone) false;
    Field "exempt_code" (TIntEnum ExemptCode) (Some (VInt (-1))) false ].

(** class [DeltaNeutralContract] *)
Definition DeltaNeutralContract : list field :=
  [ Field "contract_id" TInt (Some (VInt 0)) false;
    Field "delta" (TOptional (TDecimal false)) (Some VNone) false;
    Field "price" (TOptional (TDecimal false)) (Some VNone) false ].

(** class [Contract]: the fields without nested models *)
Definition Contract : list field :=
  [ Field "contract_id" TInt (Some (VInt 0)) false;
    Field "symbol" str_or_none (Some VNone) false;
    Field "security_type" (TOptional (TStrEnum SecurityType)) (Some VNone) false;
    Field "last_trade_date_or_contract_month" str_or_none (Some VNone) false;
    Field "strike" (TDecimal false) (Some (VDecimal 0)) false;
    Field "option_type" (TOptional (TStrEnum OptionType)) (Some VNone) true;
    Field "multiplier" str_or_none (Some VNone) false;
    Field "exchange" str_or_none (Some VNone) false;
    Field "primary_exchange" str_or_none (Some VNone) false;
    Field "currency" str_or_none (Some VNone) false;
    Field "local_symbol" str_or_none (Some VNone) false;
    Field "trading_class" str_or_none (Some VNone) false;
    Field "include_expired" TBool (Some (VBool false)) false;
    Field "security_id_type" (TOptional (TStrEnum SecurityIdType)) (Some VNone) false;
    Field "security_id" str_or_none (Some VNone) false;
    Field "description" str_or_none (Some VNone) false;
    Field "issuer_id" str_or_none (Some VNone) false;
    Field "combo_legs_description" str_or_none (Some VNone) false ].

(** A subclass redeclares some fields of [Contract]. *)
Definition redeclare (f : field) (fs : list field) : list field :=
  (λ g, if bool_decide (fname g = fname f) then f else g) <$> fs.

Definition subclass (overrides : list field) : list field :=
  foldr redeclare Contract overrides.

Definition literal (tag : string) : field :=
  Field "security_type" (TLiteral tag) (Some (VStr tag)) false.
Definition exchange_enum (default : option string) : field :=
  Field "exchange" (TStrEnum Exchange) (VStr <$> default) false.
Definition currency_usd : field :=
  Field "currency" (TStrEnum Currency) (Some (VStr "USD")) false.
Definition strike_required : field :=
  Field "strike" (TDecimal true) None false.
Definition option_type_required : field :=
  Field "option_type" (TStrEnum OptionType) None true.

(** The members of [SpecializedContractUnion], by discriminator value. *)
Definition specialized : list (string * (string * list field)) :=
  [ ("STK", ("Stock", subclass [literal "STK"; exchange_enum (Some "SMART"); currency_usd]));
    ("OPT", ("Option", subclass
       [literal "OPT"; strike_required; option_type_required;
        Field "multiplier" TInt (Some (VInt 100)) false;
        exchange_enum (Some "SMART"); currency_usd]));
    ("FUT", ("Future", subclass [literal "FUT"; currency_usd; exchange_enum None]));
    ("CONTFUT", ("ContFuture", subclass [literal "CONTFUT"; currency_usd]));
    ("CASH", ("Forex", subclass [literal "CASH"; exchange_enum (Some "IDEALPRO")]));
    ("IND", ("Index", subclass [literal "IND"; currency_usd]));
    ("CFD", ("CFD", subclass [literal "CFD"]));
    ("BOND", ("Bond", subclass [literal "BOND"]));
    ("CMDTY", ("Commodity", subclass [literal "CMDTY"]));
    ("FOP", ("FuturesOption", subclass
       [literal "FOP"; strike_required; option_type_required; currency_usd]));
    ("FUND", ("MutualFund", subclass [literal "FUND"]));
    ("WAR", ("Warrant", subclass [literal "WAR"]));
    ("BAG", ("Bag", subclass [literal "BAG"]));
    ("CRYPTO", ("Crypto", subclass
       [literal "CRYPTO"; exchange_enum (Some "PAXOS"); currency_usd])) ].

(** [Forex.handle_pair], a [before] validator: it writes into the [dict]
    it is given.  What it does with a truthy [pair] that is not a [str]
    (take its length, slice it, or raise) is the parameter
    [handle_other_pair]. *)
Definition handle_pair (data : gmap string pyval) : outcome (gmap string pyval) :=
  let absent (key : string) :=
    match data !! key with
    | None | Some VNone => true
    | _ => false
    end in
  match data !! "pair" with
  | Some (VStr pr) =>
      if bool_decide (String.length pr = 6%nat) then
        let d := if absent "symbol"
                 then <["symbol" := VStr (substring 0 3 pr)]> data else data in
        Ok (if absent "currency"
            then <["currency" := VStr (substring 3 3 pr)]> d else d)
      else Ok data
  | Some v => if truthy v then handle_other_pair v data else Ok data
  | None => Ok data
  end.

(** The nested fields [combo_legs] and [delta_neutral_contract], common
    to [Contract] and its subclasses. *)
Definition validate_nested (data : gmap string pyval)
    : option (pyval * pyval) :=
  legs ← match data !! "combo_legs" with
          | Some (VList items) => VList <$> validate_all "ComboLeg" ComboLeg items
          | Some (VTuple items) => VList <$> validate_all "ComboLeg" ComboLeg items
          | Some _ => None
          | None => Some (VList [])
          end;
  dnc ← match data !! "delta_neutral_contract" with
         | Some VNone | None => Some VNone
         | Some v => validate_model "DeltaNeutralContract" DeltaNeutralContract v
         end;
  Some (legs, dnc).

(** [cls.model_validate(data)] for [Contract] and its subclasses; the
    [after] validator of [Bag] rejects an empty [combo_legs]. *)
Definition model_validate (cls : string) (fs : list field)
    (data : gmap string pyval) : outcome pyval :=
  match validate_fields fs data, validate_nested data with
  | Some attrs, Some (legs, dnc) =>
      if bool_decide (cls = "Bag") && negb (truthy legs)
      then Raise ValidationError
      else Ok (VObj cls (<["combo_legs" := legs]>
                        (<["delta_neutral_contract" := dnc]> attrs)))
  | _, _ => Raise ValidationError
  end.
End models.
End ContractModels.

(** ** [contract/adapter.py] *)

Module ContractAdapter.
Import Pydantic ContractModels.
Section adapter.
Context `{PydanticEnv}.

(** [cls._type_adapter.validate_python(data)]: the discriminator
    [security_type] selects the member of the union; a missing or unknown
    discriminator is a [ValidationError].  The second component is [data]
    as the validation leaves it. *)
Definition validate_python (data : gmap string pyval)
    : outcome pyval * gmap string pyval :=
  match data !! "security_type" with
  | Some (VStr tag) =>
      match list_to_map (M := gmap string (string * list field)) specialized !! tag with
      | Some (cls, fs) =>
          if bool_decide (cls = "Forex") then
            match handle_pair data with
            | Ok data' => (model_validate cls fs data', data')
            | Raise e => (Raise e, data)
            end
          else (model_validate cls fs data, data)
      | None => (Raise ValidationError, data)
      end
  | _ => (Raise ValidationError, data)
  end.

(** [ContractAdapter.parse] *)
Definition parse (data : gmap string pyval) : outcome pyval :=
  match validate_python data with
  | (Ok contract, _) => Ok contract
  | (Raise ValidationError, data') => model_validate "Contract" Contract data'
  | (Raise e, _) => Raise e
  end.

Fixpoint parse_many (data_list : list (gmap string pyval)) : outcome (list pyval) :=
  match data_list with
  | [] => Ok []
  | data :: rest =>
      match parse data with
      | Ok c =>
          match parse_many rest with
          | Ok cs => Ok (c :: cs)
          | Raise e => Raise e
          end
      | Raise e => Raise e
      end
  end.
End adapter.
End ContractAdapter.

(** ** [parseable_model.py] and class [FieldParser] of
    [decoders/parsers/field_parser.py] *)

Module ParseableModel.
Import Decode.
Section parse.
Context `{ObjEnv}.

(** [data[field_name] = field_iterator.next()] for each name in turn *)
Fixpoint read_fields (names : list string) (data : gmap string pyval)
    : M frame (gmap string pyval) :=
  match names with
  | [] => mret data
  | field_name :: names' =>
      value ← next;
      read_fields names' (<[field_name := value]> data)
  end.

(** [cls.parse(field_iterator)], given [cls._parser_fields] and
    [cls.model_validate] *)
Definition parse (_parser_fields : list string)
    (model_validate : gmap string pyval → outcome pyval) : M frame pyval :=
  data ← read_fields _parser_fields ∅;
  lift (model_validate data).
End parse.
End ParseableModel.

Module FieldParser.
Import Decode.
Section parser.
Context `{ObjEnv} `{!PydanticEnv}.

(** [Contract._parser_fields] *)
Definition Contract_parser_fields : list string :=
  ["contract_id"; "symbol"; "security_type";
   "last_trade_date_or_contract_month"; "strike"; "option_type";
   "multiplier"; "exchange"; "currency"; "local_symbol"; "trading_class"].

Definition parse_contract : M frame pyval :=
  ParseableModel.parse Contract_parser_fields
    (ContractModels.model_validate "Contract" ContractModels.Contract).

(** Lines 144 to 178 of [parse_contract_details]: everything before
    [# Version-specific fields]. *)
Definition before_size_fields : M frame unit :=
  new "details" "ContractDetails" [] ;;
  store "details" "contract" parse_contract ;;
  store "details" "marketName" next ;;
  store "details" "minTick" next_float ;;
  store "details" "orderTypes" next ;;
  store "details" "validExchanges" next ;;
  store "details" "priceMagnifier" next_int ;;
  store "details" "underConId" next_int ;;
  store "details" "longName" next ;;
  store "details" "contractMonth" next ;;
  store "details" "industry" next ;;
  store "details" "category" next ;;
  store "details" "subcategory" next ;;
  store "details" "timeZoneId" next ;;
  store "details" "tradingHours" next ;;
  store "details" "liquidHours" next ;;
  store "details" "evRule" next ;;
  store "details" "evMultiplier" next_int ;;
  num_sec_ids ← next_int_z;
  when (0 <? num_sec_ids) (
    setattr "details" "secIdList" (VList []) ;;
    for_range num_sec_ids (
      tv ← next_tag_value;
      append_to "details" "secIdList" tv)) ;;
  store "details" "aggGroup" next_int ;;
  store "details" "underSymbol" next ;;
  store "details" "underSecType" next ;;
  store "details" "marketRuleIds" next ;;
  store "details" "realExpirationDate" next ;;
  store "details" "stockType" next.

(** [if server_version >= 164:] the three size fields *)
Definition size_fields (server_version : Z) : M frame unit :=
  when (164 <=? server_version) (
    store "details" "minSize" next_float ;;
    store "details" "sizeIncrement" next_float ;;
    store "details" "suggestedSizeIncrement" next_float).

Definition parse_contract_details (server_version : Z) : M frame pyval :=
  before_size_fields ;;
  size_fields server_version ;;
  get_var "details".

(** [parse_tag_values] *)
Definition parse_tag_values (count : Z) : M frame pyval :=
  set_var "tag_values" (VList []) ;;
  for_range count (
    tv ← next_tag_value;
    tvs ← get_var "tag_values";
    match tvs with
    | VList items => set_var "tag_values" (VList (items ++ [tv]))
    | _ => raise AttributeError
    end) ;;
  get_var "tag_values".
End parser.
End FieldParser.

(** ** Assignment to the models of [ib_insync.contract]

    [Contract], [ContractDetails] and [DeltaNeutralContract] are pydantic
    models declared with [validate_assignment=True] and without
    [extra='allow']: an assignment [obj.name = value] whose [name] is not
    a declared field raises.  [models] lists their declared fields
    ([contract/base.py], [contract/details.py]); [pydantic_models] states
    that behaviour of the classes, as a property of the environment. *)

Module ContractModelFields.

Definition Contract : list string :=
  ["contract_id"; "symbol"; "security_type";
   "last_trade_date_or_contract_month"; "strike"; "option_type";
   "multiplier"; "exchange"; "primary_exchange"; "currency";
   "local_symbol"; "trading_class"; "include_expired"; "security_id_type";
   "security_id"; "description"; "issuer_id"; "combo_legs_description";
   "combo_legs"; "delta_neutral_contract"].

Definition DeltaNeutralContract : list string :=
  ["contract_id"; "delta"; "price"].

Definition ContractDetails : list string :=
  ["contract"; "market_name"; "min_tick"; "order_types"; "valid_exchanges";
   "price_magnifier"; "underlying_contract_id"; "long_name";
   "contract_month"; "industry"; "category"; "subcategory"; "time_zone_id";
   "trading_hours"; "liquid_hours"; "evaluation_rule";
   "evaluation_multiplier"; "market_data_size_multiplier";
   "aggregation_group"; "under_symbol"; "underlying_security_type";
   "market_rule_ids"; "security_id_list"; "real_expiration_date";
   "last_trade_time"; "stock_type"; "min_size"; "size_increment";
   "suggested_size_increment"; "cusip"; "ratings"; "description_append";
   "bond_type"; "coupon_type"; "callable"; "putable"; "coupon";
   "convertible"; "maturity"; "issue_date"; "next_option_date";
   "next_option_type"; "next_option_partial"; "notes"].

Definition models : list (string * list string) :=
  [("Contract", Contract);
   ("DeltaNeutralContract", DeltaNeutralContract);
   ("ContractDetails", ContractDetails)].

Section classes.
Context `{ObjEnv}.

Definition pydantic_models : Prop :=
  ∀ cls fields, (cls, fields) ∈ models →
    (∀ args o, new_object cls args = Ok o → ∃ attrs, o = VObj cls attrs)
    ∧ (∀ name v, name ∉ fields → ∃ e, setattr_check cls name v = Raise e).

(** [m] cannot return normally from a frame that satisfies [P]. *)
Definition fails_from (P : Decode.frame → Prop) {A} (m : M Decode.frame A) : Prop :=
  ∀ fr, P fr → ∃ e fr', m fr = (Raise e, fr').

(** The local variable [var] holds an instance of [cls]. *)
Definition holds (var cls : string) (fr : Decode.frame) : Prop :=
  ∃ attrs, Decode.vars fr !! var = Some (VObj cls attrs).

(** A read of the cursor: it leaves the local variables alone. *)
Definition pure_reader {A} (rdr : M Decode.frame A) : Prop :=
  ∀ fr r fr', rdr fr = (r, fr') → Decode.vars fr' = Decode.vars fr.

(** From a frame that satisfies [P], [m] raises and leaves a frame that
    satisfies [E]. *)
Definition stops_in (P : Decode.frame → Prop) {A} (m : M Decode.frame A)
    (E : Decode.frame → Prop) : Prop :=
  ∀ fr, P fr → ∃ e fr', m fr = (Raise e, fr') ∧ E fr'.

(** From a frame that satisfies [P], [m1] and [m2] raise the same
    exception and leave the same frame. *)
Definition fail_alike (P : Decode.frame → Prop) {A B}
    (m1 : M Decode.frame A) (m2 : M Decode.frame B) : Prop :=
  ∀ fr, P fr → ∃ e fr', m1 fr = (Raise e, fr') ∧ m2 fr = (Raise e, fr').
End classes.
End ContractModelFields.

(** ** A concrete environment

    Decimal literals read exactly: [int] on an optional sign and ASCII
    digits, [float] on an optional sign, digits and an optional fraction,
    as exact rationals.  CPython's [int] and [float] read more than that
    (blanks around the number, underscores between digits, digits outside
    ASCII, exponents, [inf] and [nan]); on such tokens this environment
    says that they do not parse.  It is used to run the model on
    examples, on tokens on which it agrees with CPython; no theorem
    about the program depends on it. *)

Module Example_env.

Definition digits_of (s : string) : option N :=
  match s with
  | EmptyString => None
  | _ => N.of_uint <$> NilEmpty.uint_of_string s
  end.

Definition split_sign (s : string) : bool * string :=
  match s with
  | String "-" s' => (true, s')
  | String "+" s' => (false, s')
  | _ => (false, s)
  end.

Definition parse_int (s : string) : option Z :=
  let '(neg, body) := split_sign s in
  n ← digits_of body;
  Some (if neg then - Z.of_N n else Z.of_N n).

Fixpoint split_dot (s : string) : string * option string :=
  match s with
  | EmptyString => (EmptyString, None)
  | String "." s' => (EmptyString, Some s')
  | String c s' => let '(a, b) := split_dot s' in (String c a, b)
  end.

Definition parse_float (s : string) : option Q :=
  let '(neg, body) := split_sign s in
  let '(ip, fp) := split_dot body in
  q ← match fp with
      | None => n ← digits_of ip; Some (inject_Z (Z.of_N n))
      | Some f =>
          n ← digits_of (ip ++ f)%string;
          Some (Qmake (Z.of_N n) (Pos.pow 10 (Pos.of_nat (String.length f))))
      end;
  Some (if neg then Qopp q else q).

Definition Qltb (a b : Q) : bool :=
  (Qnum a * Zpos (Qden b) <? Qnum b * Zpos (Qden a))%Z.

(** [sys.float_info.max] *)
Definition float_max : Q := inject_Z (2 ^ 1024 - 2 ^ 971).

#[export] Instance env : PyEnv := {|
  float := Q;
  float_zero := 0%Q;
  float_lt := Qltb;
  float_add := Qplus;
float_eqb := Qeq_bool;
  int_of_str := parse_int;
  float_of_str := parse_float;
  UNSET_DOUBLE := float_max;
  datetime := Z;
  parseIBDatetime := λ s,
    match digits_of s with Some n => Ok (Z.of_N n) | None => Raise ValueError end;
|}.

(** Classes as records of attributes.  [Order()] starts with an empty
    [conditions] list and a [softDollarTier], which the order decoders
    change in place.  [Contract], [ContractDetails] and
    [DeltaNeutralContract] and [ComboLeg] are the pydantic models of
    [ib_insync.contract]: an assignment to a name that is not one of
    their declared fields raises.  The other classes take every
    assignment. *)
Definition plain_new (cls : string) (args : list pyval) : outcome pyval :=
  if bool_decide (cls = "Order") then
    Ok (VObj cls (<["conditions" := VList []]>
                 (<["softDollarTier" := VObj "SoftDollarTier" ∅]> ∅)))
  else
    Ok (VObj cls (list_to_map (zip ["arg0"; "arg1"; "arg2"] args))).

Definition ComboLeg : list string :=
  ["contract_id"; "ratio"; "action"; "exchange"; "open_close";
   "short_sale_slot"; "designated_location"; "exempt_code"].

Definition declared_fields : gmap string (list string) :=
  list_to_map (ContractModelFields.models ++ [("ComboLeg", ComboLeg)]).

Definition model_setattr (cls name : string) (v : pyval) : outcome unit :=
  match declared_fields !! cls with
  | Some fields =>
      if bool_decide (name ∈ fields) then Ok tt else Raise ValidationError
  | None => Ok tt
  end.

#[export] Instance objects : ObjEnv := {|
  new_object := plain_new;
  setattr_check := model_setattr;
|}.

(** Scalar conversions of the validation library on the values the
    examples use: a decimal literal in a [str] is read as a number. *)
#[export] Instance conversions : PydanticEnv := {|
  lax_int := λ v, match v with VStr s => parse_int s | _ => None end;
  lax_bool := λ v, None;
  lax_decimal := λ v, match v with VStr s => parse_float s | _ => None end;
  handle_other_pair := λ _ _, Raise TypeError;
|}.
End Example_env.

(** ** The registry of the package

    What [registry] holds once [ib_insync.decoders] is imported: every
    [@registry.register_message] of [decoders/models] and every
    [@registry.register_handler] of [decoders/handlers], as tag, class
    name and handler name.  The bodies of the decoders and handlers are
    parameters. *)

Module Package.
Import MessageRegistry.

Definition registered : list (Z * string * string) :=
[
  (1, "PriceSizeTickMessage", "handle_price_size_tick");
  (2, "TickSizeMessage", "handle_tick_size");
  (3, "OrderStatusMessage", "handle_order_status");
  (4, "ErrorMessage", "handle_error");
  (5, "OpenOrderMessage", "handle_open_order");
  (6, "UpdateAccountValueMessage", "handle_update_account_value");
  (7, "UpdatePortfolioMessage", "handle_update_portfolio");
  (8, "UpdateAccountTimeMessage", "handle_update_account_time");
  (9, "NextValidIdMessage", "handle_next_valid_id");
  (10, "ContractDetailsMessage", "handle_contract_details");
  (11, "ExecDetailsMessage", "handle_exec_details");
  (12, "UpdateMktDepthMessage", "handle_update_mkt_depth");
  (13, "UpdateMktDepthL2Message", "handle_update_mkt_depth_l2");
  (14, "UpdateNewsBulletinMessage", "handle_update_news_bulletin");
  (15, "ManagedAccountsMessage", "handle_managed_accounts");
  (16, "ReceiveFAMessage", "handle_receive_fa");
  (17, "HistoricalDataMessage", "handle_historical_data");
  (18, "BondContractDetailsMessage", "handle_bond_contract_details");
  (19, "ScannerParametersMessage", "handle_scanner_parameters");
  (20, "ScannerDataMessage", "handle_scanner_data");
  (21, "TickOptionComputationMessage", "handle_tick_option_computation");
  (45, "TickGenericMessage", "handle_tick_generic");
  (46, "TickStringMessage", "handle_tick_string");
  (47, "TickEFPMessage", "handle_tick_efp");
  (49, "CurrentTimeMessage", "handle_current_time");
  (50, "RealTimeBarMessage", "handle_real_time_bar");
  (51, "FundamentalDataMessage", "handle_fundamental_data");
  (52, "ContractDetailsEndMessage", "handle_contract_details_end");
  (53, "OpenOrderEndMessage", "handle_open_order_end");
  (54, "AccountDownloadEndMessage", "handle_account_download_end");
  (55, "ExecDetailsEndMessage", "handle_exec_details_end");
  (56, "DeltaNeutralValidationMessage", "handle_delta_neutral_validation");
  (57, "TickSnapshotEndMessage", "handle_tick_snapshot_end");
  (58, "MarketDataTypeMessage", "handle_market_data_type");
  (59, "CommissionReportMessage", "handle_commission_report");
  (61, "PositionMessage", "handle_position");
  (62, "PositionEndMessage", "handle_position_end");
  (63, "AccountSummaryMessage", "handle_account_summary");
  (64, "AccountSummaryEndMessage", "handle_account_summary_end");
  (65, "VerifyMessageAPIMessage", "handle_verify_message_api");
  (66, "VerifyCompletedMessage", "handle_verify_completed");
  (67, "DisplayGroupListMessage", "handle_display_group_list");
  (68, "DisplayGroupUpdatedMessage", "handle_display_group_updated");
  (69, "VerifyAndAuthMessageAPIMessage", "handle_verify_and_auth_message_api");
  (70, "VerifyAndAuthCompletedMessage", "handle_verify_and_auth_completed");
  (71, "PositionMultiMessage", "handle_position_multi");
  (72, "PositionMultiEndMessage", "handle_position_multi_end");
  (73, "AccountUpdateMultiMessage", "handle_account_update_multi");
  (74, "AccountUpdateMultiEndMessage", "handle_account_update_multi_end");
  (75, "SecurityDefinitionOptionParameterMessage", "handle_security_definition_option_parameter");
  (76, "SecurityDefinitionOptionParameterEndMessage", "handle_security_definition_option_parameter_end");
  (77, "SoftDollarTiersMessage", "handle_soft_dollar_tiers");
  (78, "FamilyCodesMessage", "handle_family_codes");
  (79, "SymbolSamplesMessage", "handle_symbol_samples");
  (80, "MktDepthExchangesMessage", "handle_mkt_depth_exchanges");
  (81, "TickReqParamsMessage", "handle_tick_req_params");
  (82, "SmartComponentsMessage", "handle_smart_components");
  (83, "NewsArticleMessage", "handle_news_article");
  (84, "TickNewsMessage", "handle_tick_news");
  (85, "NewsProvidersMessage", "handle_news_providers");
  (86, "HistoricalNewsMessage", "handle_historical_news");
  (87, "HistoricalNewsEndMessage", "handle_historical_news_end");
  (88, "HeadTimestampMessage", "handle_head_timestamp");
  (89, "HistogramDataMessage", "handle_histogram_data");
  (90, "HistoricalDataUpdateMessage", "handle_historical_data_update");
  (91, "RerouteMktDataReqMessage", "handle_reroute_mkt_data_req");
  (92, "RerouteMktDepthReqMessage", "handle_reroute_mkt_depth_req");
  (93, "MarketRuleMessage", "handle_market_rule");
  (94, "PnlMessage", "handle_pnl");
  (95, "PnlSingleMessage", "handle_pnl_single");
  (96, "HistoricalTicksMessage", "handle_historical_ticks");
  (97, "HistoricalTicksBidAskMessage", "handle_historical_ticks_bid_ask");
  (98, "HistoricalTicksLastMessage", "handle_historical_ticks_last");
  (99, "TickByTickMessage", "handle_tick_by_tick");
  (100, "OrderBoundMessage", "handle_order_bound");
  (101, "CompletedOrderMessage", "handle_completed_order");
  (102, "CompletedOrdersEndMessage", "handle_completed_orders_end");
  (103, "ReplaceFAEndMessage", "handle_replace_fa_end");
  (104, "WshMetaDataMessage", "handle_wsh_meta_data");
  (105, "WshEventDataMessage", "handle_wsh_event_data");
  (106, "HistoricalScheduleMessage", "handle_historical_schedule");
  (107, "UserInfoMessage", "handle_user_info")
].

Section registry.
Context {Msg W : Type}.
Context (decoder : string → list string → Z → outcome (option Msg)).
Context (handler_body : string → Msg → M W unit).

Definition register (r : MessageRegistry.t Msg W) (entry : Z * string * string)
    : MessageRegistry.t Msg W :=
  let '(msg_id, name, func) := entry in
  let '(cls, r1) :=
    register_message msg_id
      {| __name__ := name; MESSAGE_ID := None; from_fields := decoder name |} r in
  match cls with
  | Ok cls =>
      (register_handler cls {| func_name := func; call := handler_body func |} r1).2
  | Raise _ => r1
  end.

Definition registry : MessageRegistry.t Msg W :=
  foldl register __init__ registered.
End registry.
End Package.

(** ** Objects for examples *)

Module Examples.
Import MessageRegistry Example_env.

(** A wrapper that records the calls made on it, as the [MagicMock] of the
    test suite does. *)
Definition mock : Type := list (string * list pyval).

Definition record_call (method : string) (args : list pyval) : M mock unit :=
  modify (λ calls, calls ++ [(method, args)]).

Definition attr (name : string) (msg : pyval) : pyval :=
  match msg with
  | VObj _ attrs => default VNone (attrs !! name)
  | _ => VNone
  end.

(** The decoders modelled above, by class name. *)
Definition decoder (name : string) : list string → Z → outcome (option pyval) :=
  if bool_decide (name = "PriceSizeTickMessage") then PriceSizeTickMessage.from_fields
  else if bool_decide (name = "TickSizeMessage") then TickSizeMessage.from_fields
  else if bool_decide (name = "OpenOrderMessage") then OpenOrderMessage.from_fields
  else if bool_decide (name = "CompletedOrderMessage") then CompletedOrderMessage.from_fields
  else λ _ _, Raise (OtherError "not modelled").

(** [handle_price_size_tick] and [handle_tick_size] of
    [decoders/handlers/market_data.py], on the recording wrapper (which
    has every attribute, [priceSizeTick] included). *)
Definition handler_body (func : string) (msg : pyval) : M mock unit :=
  if bool_decide (func = "handle_price_size_tick") then
    match attr "price" msg with
    | VNone => mret tt
    | price =>
        record_call "priceSizeTick"
          [attr "req_id" msg; attr "tick_type" msg; price; attr "size" msg]
    end
  else if bool_decide (func = "handle_tick_size") then
    record_call "tickSize" [attr "req_id" msg; attr "tick_type" msg; attr "size" msg]
  else raise (OtherError "not modelled").

Definition req_id (msg : pyval) : option Z :=
  match attr "req_id" msg with
  | VInt n => Some n
  | _ => None
  end.

Definition mock_getattr (w : mock) (name : string)
    : option (list (MessageDispatcher.arg pyval) → M mock unit) :=
  Some (λ _, record_call name []).

(** [MessageDispatcher(MagicMock())] *)
Definition dispatcher : MessageDispatcher.t pyval mock :=
  MessageDispatcher.__init__ [] (Package.registry decoder handler_body) 0.

Definition dispatch (fields : list string)
    : M (MessageDispatcher.t pyval mock) (option pyval) :=
  MessageDispatcher.dispatch req_id mock_getattr 0%Q fields.

(** Records of the test suite. *)
Definition tick_size_record : list string := ["2"; "789"; "5"; "2500.5"].
Definition empty_price_record : list string := ["1"; "1"; "123"; "1"; ""; "1000"].
Definition unknown_record : list string := ["9999"; "data1"; "data2"].

(** An open-order record in which every token is empty but the tag, the
    hedge type ["D"] at token 76 and the hedge parameter that follows
    it. *)
Definition hedged_record : list string :=
  "5" :: replicate 75 "" ++ ["D"; "0.5"].

Definition number_cls : msg_class Z :=
  {| __name__ := "FirstMessage"; MESSAGE_ID := Some 1;
     from_fields := λ _ _, Ok (Some 1) |}.

(** Two classes that differ in name and decoder, on messages that are
    plain numbers, and two handlers on a wrapper without state. *)
Definition first_cls : msg_class Z :=
  {| __name__ := "FirstMessage"; MESSAGE_ID := None;
     from_fields := λ _ _, Ok (Some 1) |}.
Definition second_cls : msg_class Z :=
  {| __name__ := "SecondMessage"; MESSAGE_ID := None;
     from_fields := λ _ _, Ok (Some 2) |}.
Definition first_handler : handler Z unit :=
  {| func_name := "handle_first"; call := λ _, mret tt |}.
Definition second_handler : handler Z unit :=
  {| func_name := "handle_second"; call := λ _, raise ValueError |}.
End Examples.

(** ** [decoders/models/market_data.py], the other message classes, and
    [OrderStatusMessage] of [decoders/models/orders.py]

    [cls(name=value, ...)] builds the message from keyword arguments,
    which are evaluated from left to right.  The values passed are of the
    declared types of the fields ([int] from [next_int], [float] from
    [next_float], [str] from [next], ...), which validation keeps as they
    are; [instance] is the object so built, and [set_field] an assignment
    of such a value to a declared field of a message. *)

Module MessageObjects.
Import Decode.
Section objects.
Context `{ObjEnv}.

Definition instance (cls : string) (kwargs : list (string * pyval)) : pyval :=
  VObj cls (list_to_map kwargs).

(** [var.name = <expression>] on a message object *)
Definition set_field (var name : string) (rhs : M frame pyval) : M frame unit :=
  v ← rhs;
  o ← get_var var;
  match o with
  | VObj cls attrs => set_var var (VObj cls (<[name := v]> attrs))
  | _ => raise AttributeError
  end.

(** [cls.from_fields(fields, server_version)], from the body of the method *)
Definition from_fields (body : Z → M frame (option pyval))
    (fields : list string) (server_version : Z) : outcome (option pyval) :=
  run (body server_version) fields.
End objects.
End MessageObjects.

Module TickGenericMessage.
Import Decode MessageObjects.
Section cls.
Context `{ObjEnv}.

Definition body (server_version : Z) : M frame (option pyval) :=
  skip 1 ;;
  req_id ← next_int;
  tick_type ← next_int;
  value ← next_float;
  mret (Some (instance "TickGenericMessage"
    [("req_id", req_id); ("tick_type", tick_type); ("value", value)])).

Definition from_fields : list string → Z → outcome (option pyval) :=
  MessageObjects.from_fields body.
End cls.
End TickGenericMessage.

Module TickStringMessage.
Import Decode MessageObjects.
Section cls.
Context `{ObjEnv}.

Definition body (server_version : Z) : M frame (option pyval) :=
  skip 1 ;;
  req_id ← next_int;
  tick_type ← next_int;
  value ← next;
  mret (Some (instance "TickStringMessage"
    [("req_id", req_id); ("tick_type", tick_type); ("value", value)])).

Definition from_fields : list string → Z → outcome (option pyval) :=
  MessageObjects.from_fields body.
End cls.
End TickStringMessage.

Module TickOptionComputationMessage.
Import Decode MessageObjects.
Section cls.
Context `{ObjEnv}.

(** [parse_opt_float], local to
    [TickOptionComputationMessage.from_fields] *)
Definition parse_opt_float (value : pyval) : M frame pyval :=
  if negb (truthy value) then mret VNone
  else
    x ← PriceSizeTickMessage.to_float value;
    match x with
    | VFloat f => if float_lt f float_zero then mret VNone else mret x
    | _ => raise TypeError
    end.

Definition body (server_version : Z)
    : M frame (option pyval) :=
  skip 2 ;;
  req_id ← next_int;
  tick_type ← next_int;
  tick_attrib ← next_int;
  implied_vol ← next ≫= parse_opt_float;
  delta ← next ≫= parse_opt_float;
  opt_price ← next ≫= parse_opt_float;
  pv_dividend ← next ≫= parse_opt_float;
  gamma ← next ≫= parse_opt_float;
  vega ← next ≫= parse_opt_float;
  theta ← next ≫= parse_opt_float;
  und_price ← next ≫= parse_opt_float;
  mret (Some (instance "TickOptionComputationMessage"
    [("req_id", req_id); ("tick_type", tick_type); ("tick_attrib", tick_attrib);
     ("implied_vol", implied_vol); ("delta", delta); ("opt_price", opt_price);
     ("pv_dividend", pv_dividend); ("gamma", gamma); ("vega", vega);
     ("theta", theta); ("und_price", und_price)])).

Definition from_fields : list string → Z → outcome (option pyval) :=
  MessageObjects.from_fields body.
End cls.
End TickOptionComputationMessage.

Module RealTimeBarMessage.
Import Decode MessageObjects.
Section cls.
Context `{ObjEnv}.

Definition body (server_version : Z) : M frame (option pyval) :=
  skip 1 ;;
  req_id ← next_int;
  time ← next_int;
  open ← next_float;
  high ← next_float;
  low ← next_float;
  close ← next_float;
  volume ← next_float;
  wap ← next_float;
  count ← next_int;
  mret (Some (instance "RealTimeBarMessage"
    [("req_id", req_id); ("time", time); ("open", open); ("high", high);
     ("low", low); ("close", close); ("volume", volume); ("wap", wap);
     ("count", count)])).

Definition from_fields : list string → Z → outcome (option pyval) :=
  MessageObjects.from_fields body.
End cls.
End RealTimeBarMessage.

Module HistogramDataMessage.
Import Decode MessageObjects.
Section cls.
Context `{ObjEnv}.

(** [data_points.append((price, count))] *)
Definition append_point (price count : pyval) : M frame unit :=
  data_points ← get_var "data_points";
  match data_points with
  | VList items => set_var "data_points" (VList (items ++ [VTuple [price; count]]))
  | _ => raise AttributeError
  end.

Definition body (server_version : Z) : M frame (option pyval) :=
  skip 1 ;;
  req_id ← next_int;
  num_points ← next_int_z;
  set_var "data_points" (VList []) ;;
  for_range num_points (
    price ← next_float;
    count ← next_int;
    append_point price count) ;;
  data_points ← get_var "data_points";
  mret (Some (instance "HistogramDataMessage"
    [("req_id", req_id); ("num_points", VInt num_points);
     ("data_points", data_points)])).

Definition from_fields : list string → Z → outcome (option pyval) :=
  MessageObjects.from_fields body.
End cls.
End HistogramDataMessage.

Module UpdateMktDepthMessage.
Import Decode MessageObjects.
Section cls.
Context `{ObjEnv}.

Definition body (server_version : Z) : M frame (option pyval) :=
  skip 1 ;;
  req_id ← next_int;
  position ← next_int;
  operation ← next_int;
  side ← next_int;
  price ← next_float;
  size ← next_float;
  mret (Some (instance "UpdateMktDepthMessage"
    [("req_id", req_id); ("position", position); ("operation", operation);
     ("side", side); ("price", price); ("size", size)])).

Definition from_fields : list string → Z → outcome (option pyval) :=
  MessageObjects.from_fields body.
End cls.
End UpdateMktDepthMessage.

Module UpdateMktDepthL2Message.
Import Decode MessageObjects.
Section cls.
Context `{ObjEnv}.

Definition body (server_version : Z) : M frame (option pyval) :=
  skip 1 ;;
  req_id ← next_int;
  position ← next_int;
  market_maker ← next;
  operation ← next_int;
  side ← next_int;
  price ← next_float;
  size ← next_float;
  is_smart_depth ← next_bool;
  mret (Some (instance "UpdateMktDepthL2Message"
    [("req_id", req_id); ("position", position); ("market_maker", market_maker);
     ("operation", operation); ("side", side); ("price", price); ("size", size);
     ("is_smart_depth", is_smart_depth)])).

Definition from_fields : list string → Z → outcome (option pyval) :=
  MessageObjects.from_fields body.
End cls.
End UpdateMktDepthL2Message.

Module TickByTickMessage.
Import Decode MessageObjects.
Section cls.
Context `{ObjEnv}.

(** [bool(mask & bit)] *)
Definition mask_bit (mask bit : Z) : pyval := VBool (negb (Z.land mask bit =? 0)).

Definition optional : list (string * pyval) :=
  [("price", VNone); ("size", VNone); ("exchange", VNone);
   ("special_conditions", VNone); ("past_limit", VNone); ("unreported", VNone);
   ("bid_price", VNone); ("ask_price", VNone); ("bid_size", VNone);
   ("ask_size", VNone); ("bid_past_low", VNone); ("ask_past_high", VNone);
   ("mid_point", VNone)].

Definition body (server_version : Z) : M frame (option pyval) :=
  skip 1 ;;
  req_id ← next_int;
  tick_type ← next_int_z;
  time ← next_int;
  set_var "message" (instance "TickByTickMessage"
    ([("req_id", req_id); ("tick_type", VInt tick_type); ("time", time)]
     ++ optional)) ;;
  (if (tick_type =? 1) || (tick_type =? 2) then
     set_field "message" "price" next_float ;;
     set_field "message" "size" next_float ;;
     mask ← next_int_z;
     set_field "message" "past_limit" (mret (mask_bit mask 1)) ;;
     set_field "message" "unreported" (mret (mask_bit mask 2)) ;;
     set_field "message" "exchange" next ;;
     set_field "message" "special_conditions" next
   else if tick_type =? 3 then
     set_field "message" "bid_price" next_float ;;
     set_field "message" "ask_price" next_float ;;
     set_field "message" "bid_size" next_float ;;
     set_field "message" "ask_size" next_float ;;
     mask ← next_int_z;
     set_field "message" "bid_past_low" (mret (mask_bit mask 1)) ;;
     set_field "message" "ask_past_high" (mret (mask_bit mask 2))
   else if tick_type =? 4 then
     set_field "message" "mid_point" next_float
   else mret tt) ;;
  message ← get_var "message";
  mret (Some message).

Definition from_fields : list string → Z → outcome (option pyval) :=
  MessageObjects.from_fields body.
End cls.
End TickByTickMessage.

Module OrderStatusMessage.
Import Decode MessageObjects.
Section cls.
Context `{ObjEnv}.

Definition body (server_version : Z) : M frame (option pyval) :=
  skip 2 ;;
  order_id ← next_int;
  status ← next;
  filled ← next_float;
  remaining ← next_float;
  avg_fill_price ← next_float;
  perm_id ← next_int;
  parent_id ← next_int;
  last_fill_price ← next_float;
  client_id ← next_int;
  why_held ← next;
  mkt_cap_price ← next_float;
  mret (Some (instance "OrderStatusMessage"
    [("order_id", order_id); ("status", status); ("filled", filled);
     ("remaining", remaining); ("avg_fill_price", avg_fill_price);
     ("perm_id", perm_id); ("parent_id", parent_id);
     ("last_fill_price", last_fill_price); ("client_id", client_id);
     ("why_held", why_held); ("mkt_cap_price", mkt_cap_price)])).

Definition from_fields : list string → Z → outcome (option pyval) :=
  MessageObjects.from_fields body.
End cls.
End OrderStatusMessage.

Module Layout.
Import Decode.
Section layout.
Context `{ObjEnv}.

(** The message classes whose [from_fields] is a fixed sequence of typed
    reads, by class name. *)
Definition fixed_layout : list (string * (Z → M frame (option pyval))) :=
  [("TickSizeMessage", TickSizeMessage.body);
   ("TickGenericMessage", TickGenericMessage.body);
   ("TickStringMessage", TickStringMessage.body);
   ("RealTimeBarMessage", RealTimeBarMessage.body);
   ("UpdateMktDepthMessage", UpdateMktDepthMessage.body);
   ("UpdateMktDepthL2Message", UpdateMktDepthL2Message.body);
   ("OrderStatusMessage", OrderStatusMessage.body)].

(** A frame whose cursor stands where a cursor started at position [k] of
    the record would, that is at [k] or at the end of the record. *)
Definition at_token (fields : list string) (k : Z) (fr : frame) : Prop :=
  cursor_ok fields fr ∧ position fr = Z.min k (Z.of_nat (List.length fields)).

(** A frame whose cursor, in order, has moved past [bound] tokens of the
    record at most. *)
Definition read_at_most (fields : list string) (bound : Z) (fr : frame) : Prop :=
  cursor_ok fields fr ∧ position fr ≤ bound.

(** What [FieldIterator(fields, k)] reads first: with [next_int()],
    [next_float()], [next_bool()] and [next()]. *)
Definition int_token (fields : list string) (k : Z) : outcome Z :=
  (FieldIterator.next_int 0 (FieldIterator.__init__ fields k)).1.
Definition float_token (fields : list string) (k : Z) : outcome float :=
  (FieldIterator.next_float float_zero (FieldIterator.__init__ fields k)).1.
Definition bool_token (fields : list string) (k : Z) : outcome bool :=
  (FieldIterator.next_bool false (FieldIterator.__init__ fields k)).1.
Definition str_token (fields : list string) (k : Z) : outcome (option string) :=
  ((FieldIterator.as_str <$> FieldIterator.next "" false)
    (FieldIterator.__init__ fields k)).1.
End layout.
End Layout.

Module TickOptionComputationLayout.
(** The optional values of [TickOptionComputationMessage], in the order
    [from_fields] reads them, from token 5 on. *)
Definition optional : list string :=
  ["implied_vol"; "delta"; "opt_price"; "pv_dividend"; "gamma"; "vega";
   "theta"; "und_price"].
End TickOptionComputationLayout.


(** ** [decoders/models/contracts.py]: class [DeltaNeutralValidationMessage] *)

Module DeltaNeutralValidationMessage.
Import Decode MessageObjects.
Section cls.
Context `{ObjEnv}.

Definition body (server_version : Z) : M frame (option pyval) :=
  skip 2 ;;
  req_id ← next_int;
  con_id ← next_int;
  delta ← next_float;
  price ← next_float;
  new "dnc" "DeltaNeutralContract" [] ;;
  setattr "dnc" "conId" con_id ;;
  setattr "dnc" "delta" delta ;;
  setattr "dnc" "price" price ;;
  dnc ← get_var "dnc";
  mret (Some (instance "DeltaNeutralValidationMessage"
    [("req_id", req_id); ("delta_neutral_contract", dnc)])).

Definition from_fields : list string → Z → outcome (option pyval) :=
  MessageObjects.from_fields body.
End cls.
End DeltaNeutralValidationMessage.

(** ** [FieldParser.parse_order] and [FieldParser.parse_order_state]

    [Order] and [OrderState] are imported in [field_parser.py] under
    [if TYPE_CHECKING:] only, and the two methods have no import of their
    own: when they run, the names are looked up in the module's globals.
    [module_globals] are the names the module binds when it is imported
    ([TYPE_CHECKING] being [False] then). *)

Module FieldParserOrders.
Import Decode.
Section parser.
Context `{ObjEnv}.

Definition module_globals : list string :=
  ["datetime"; "TYPE_CHECKING"; "Any"; "Optional"; "parseIBDatetime";
   "FieldIterator"; "FieldParser"].

(** [var = name()] for a global [name] *)
Definition call_global (var name : string) : M frame unit :=
  if bool_decide (name ∈ module_globals) then new var name []
  else raise (OtherError "NameError").

Definition parse_order (server_version : Z) : M frame pyval :=
  call_global "order" "Order" ;;
  store "order" "orderId" next_int ;;
  store "order" "clientId" next_int ;;
  store "order" "permId" next_int ;;
  store "order" "action" next ;;
  store "order" "totalQuantity" next_float ;;
  store "order" "orderType" next ;;
  store "order" "lmtPrice" next_float ;;
  store "order" "auxPrice" next_float ;;
  store "order" "tif" next ;;
  store "order" "ocaGroup" next ;;
  store "order" "ocaType" next_int ;;
  store "order" "orderRef" next ;;
  store "order" "transmit" next_bool ;;
  store "order" "parentId" next_int ;;
  store "order" "blockOrder" next_bool ;;
  store "order" "sweepToFill" next_bool ;;
  store "order" "displaySize" next_int ;;
  store "order" "triggerMethod" next_int ;;
  store "order" "outsideRth" next_bool ;;
  store "order" "hidden" next_bool ;;
  store "order" "goodAfterTime" next ;;
  store "order" "goodTillDate" next ;;
  store "order" "rule80A" next ;;
  store "order" "allOrNone" next_bool ;;
  store "order" "minQty" next_int ;;
  store "order" "percentOffset" next_float ;;
  get_var "order".

Definition parse_order_state : M frame pyval :=
  call_global "state" "OrderState" ;;
  store "state" "status" next ;;
  store "state" "initMarginBefore" next ;;
  store "state" "maintMarginBefore" next ;;
  store "state" "equityWithLoanBefore" next ;;
  store "state" "initMarginChange" next ;;
  store "state" "maintMarginChange" next ;;
  store "state" "equityWithLoanChange" next ;;
  store "state" "initMarginAfter" next ;;
  store "state" "maintMarginAfter" next ;;
  store "state" "equityWithLoanAfter" next ;;
  store "state" "commission" next_float ;;
  store "state" "minCommission" next_float ;;
  store "state" "maxCommission" next_float ;;
  store "state" "commissionCurrency" next ;;
  store "state" "warningText" next ;;
  store "state" "completedTime" next ;;
  store "state" "completedStatus" next ;;
  get_var "state".
End parser.
End FieldParserOrders.

(** ** [contract/base.py] and [contract/specialized.py]: methods

    An instance of [Contract] or of one of its subclasses is a [VObj] of
    that class.  Its [contract_id] is an [int]: the field is declared
    [int] and the model validates assignments.  [py_hash] is the built-in
    [hash] and [py_str] the built-in [str]. *)

Module ContractMethods.
Section methods.
Context `{PyEnv}.
Context (py_hash : pyval → Z) (py_str : pyval → string).

(** [Contract] and the classes of [specialized.py], all of which derive
    from [Contract] directly *)
Definition contract_classes : list string :=
  ["Contract"; "Stock"; "Option"; "Future"; "ContFuture"; "Forex"; "Index";
   "CFD"; "Commodity"; "Bond"; "FuturesOption"; "MutualFund"; "Warrant";
   "Bag"; "Crypto"].

(** [isinstance(v, Contract)] *)
Definition is_Contract (v : pyval) : bool :=
  match v with
  | VObj cls _ => bool_decide (cls ∈ contract_classes)
  | _ => false
  end.

(** [isinstance(other, self.__class__)], for two instances of [Contract] *)
Definition is_instance_of_class_of (other self : pyval) : bool :=
  match other, self with
  | VObj cls_other _, VObj cls_self _ =>
      bool_decide (cls_other = cls_self) || bool_decide (cls_self = "Contract")
  | _, _ => false
  end.

(** [self.name] *)
Definition attribute (name : string) (self : pyval) : outcome pyval :=
  match self with
  | VObj _ attrs =>
      match attrs !! name with
      | Some v => Ok v
      | None => Raise AttributeError
      end
  | _ => Raise AttributeError
  end.

(** [self.contract_id] *)
Definition contract_id (self : pyval) : outcome Z :=
  match attribute "contract_id" self with
  | Ok (VInt n) => Ok n
  | Ok _ => Raise TypeError
  | Raise e => Raise e
  end.

(** [Contract.is_hashable] *)
Definition is_hashable (self : pyval) : outcome bool :=
  match contract_id self with
  | Ok n => Ok (0 <? n)
  | Raise e => Raise e
  end.

(** [tuple(getattr(self, field) for field in self._parser_fields)] *)
Fixpoint parser_values (names : list string) (self : pyval) : outcome (list pyval) :=
  match names with
  | [] => Ok []
  | name :: names' =>
      match attribute name self with
      | Ok v =>
          match parser_values names' self with
          | Ok vs => Ok (v :: vs)
          | Raise e => Raise e
          end
      | Raise e => Raise e
      end
  end.

(** [ParseableModel.__hash__] for a contract *)
Definition ParseableModel_hash (self : pyval) : outcome Z :=
  match parser_values FieldParser.Contract_parser_fields self with
  | Ok values => Ok (py_hash (VTuple values))
  | Raise e => Raise e
  end.

(** [Contract.__hash__] *)
Definition __hash__ (self : pyval) : outcome Z :=
  match is_hashable self with
  | Ok true =>
      match contract_id self with
      | Ok n => Ok (py_hash (VInt n))
      | Raise e => Raise e
      end
  | Ok false => ParseableModel_hash self
  | Raise e => Raise e
  end.

(** [ParseableModel.__eq__], in which [hash] calls [Contract.__hash__] *)
Definition ParseableModel_eq (self other : pyval) : outcome bool :=
  if negb (is_instance_of_class_of other self) then Ok false
  else
    match __hash__ self with
    | Ok h1 =>
        match __hash__ other with
        | Ok h2 => Ok (h1 =? h2)
        | Raise e => Raise e
        end
    | Raise e => Raise e
    end.

(** [Contract.__eq__] *)
Definition __eq__ (self other : pyval) : outcome bool :=
  if negb (is_Contract other) then Ok false
  else
    match is_hashable self with
    | Ok true =>
        match is_hashable other with
        | Ok true =>
            match contract_id self, contract_id other with
            | Ok n1, Ok n2 => Ok (n1 =? n2)
            | Raise e, _ | _, Raise e => Raise e
            end
        | Ok false => ParseableModel_eq self other
        | Raise e => Raise e
        end
    | Ok false => ParseableModel_eq self other
    | Raise e => Raise e
    end.

(** [str(v)] where [v] is used in an f-string; [py_str] is the built-in
    [str] on values that are not strings *)
Definition format (v : pyval) : string :=
  match v with
  | VStr s => s
  | _ => py_str v
  end.

(** [v.value] *)
Definition value_of (v : pyval) : outcome pyval :=
  match v with
  | VObj _ _ => attribute "value" v
  | _ => Raise AttributeError
  end.

(** [Forex.pair] *)
Definition pair (self : pyval) : outcome string :=
  match attribute "symbol" self with
  | Ok symbol =>
      match attribute "currency" self with
      | Ok currency =>
          if truthy symbol && truthy currency then
            match (match symbol with VStr _ => Ok symbol | _ => value_of symbol end) with
            | Ok symbol_str =>
                let currency_str :=
                  match value_of currency with
                  | Ok v => format v
                  | Raise _ => format currency
                  end in
                Ok (format symbol_str ++ currency_str)%string
            | Raise e => Raise e
            end
          else Ok ""
      | Raise e => Raise e
      end
  | Raise e => Raise e
  end.
End methods.
End ContractMethods.

(** [str.upper] on the ASCII letters.  That is all that a comparison with
    the literals ['P'], ['PUT'], ['C'] and ['CALL'] can observe: the
    characters outside ASCII whose upper-case form has an ASCII letter
    give [I], [S], [SS], [J], [N], [ST] or [FF], [FI], [FL] (with an
    [F]), none of which is made of the letters of these literals. *)
Definition upper_ascii (c : ascii) : ascii :=
  let n := nat_of_ascii c in
  if ((97 <=? n) && (n <=? 122))%nat then ascii_of_nat (n - 32) else c.

Fixpoint py_upper (s : string) : string :=
  match s with
  | EmptyString => EmptyString
  | String c s' => String (upper_ascii c) (py_upper s')
  end.

(** ** [decoders/parsers/validators.py]: class [IBValidators]

    The validators of [str] arguments are functions of a string; the
    validator of booleans takes any value. *)

Module IBValidators.
Section validators.
Context `{PyEnv}.

Definition validate_ib_bool (v : pyval) : bool :=
  match v with
  | VBool b => b
  | VStr s => bool_decide (s = "1") || bool_decide (py_lower s = "true")
  | VInt n => negb (n =? 0)
  | VFloat x => negb (float_eqb x float_zero)
  | _ => false
  end.

Definition valid_sec_types : list string :=
  ["STK"; "OPT"; "FUT"; "CONTFUT"; "CASH"; "BOND"; "CFD";
   "FOP"; "WAR"; "IOPT"; "BAG"; "IND"; "CMDTY"; "CRYPTO";
   "NEWS"; "EVENT"; "FUND"].

Definition validate_sec_type (v : string) : outcome string :=
  if negb (bool_decide (v = "")) && negb (bool_decide (v ∈ valid_sec_types))
  then Raise ValueError
  else Ok v.

Definition valid_order_types : list string :=
  ["MKT"; "LMT"; "STP"; "STP LMT"; "REL"; "TRAIL"; "BOX TOP";
   "FIX PEGGED"; "ICEBERG"; "LIT"; "LMT + MKT"; "LOC"; "MIT";
   "MKT PRT"; "MOC"; "MTL"; "PASSV REL"; "PEG BENCH"; "PEG MID";
   "PEG MKT"; "PEG PRIM"; "PEG STK"; "REL + LMT"; "REL + MKT";
   "SNAP MID"; "SNAP MKT"; "SNAP PRIM"; "STP PRT"; "TRAIL LIMIT";
   "TRAIL LIT"; "TRAIL MIT"; "TRAIL REL + MKT"; "TRAIL STP";
   "VOL"; "VWAP"; "QUOTE"; "PPV"; "PDV"; "PIV"; "PSV"; "MIDPX"].

Definition validate_order_type (v : string) : outcome string :=
  if negb (bool_decide (v = "")) && negb (bool_decide (v ∈ valid_order_types))
  then Ok v
  else Ok v.

Definition valid_actions : list string := ["BUY"; "SELL"; "SSHORT"].

Definition validate_order_action (v : string) : outcome string :=
  if negb (bool_decide (v = "")) && negb (bool_decide (v ∈ valid_actions))
  then Raise ValueError
  else Ok v.

Definition valid_tifs : list string :=
  ["DAY"; "GTC"; "OPG"; "IOC"; "GTD"; "GTT"; "AUC"; "FOK"; "GTX"; "DTC"].

Definition validate_time_in_force (v : string) : outcome string :=
  if negb (bool_decide (v = "")) && negb (bool_decide (v ∈ valid_tifs))
  then Ok v
  else Ok v.

Definition validate_right (v : string) : outcome string :=
  if bool_decide (v = "") then Ok v
  else
    let v_upper := py_upper v in
    if bool_decide (v_upper ∈ ["P"; "PUT"]) then Ok "P"
    else if bool_decide (v_upper ∈ ["C"; "CALL"]) then Ok "C"
    else if bool_decide (v = "") then Ok ""
    else Raise ValueError.
End validators.
End IBValidators.

(** ** [contract/enums.py]: [OptionType.from_string]

    The result is a member of [OptionType], given by its value, or
    [None]. *)
Module OptionType.
Definition from_string (value : string) : outcome (option string) :=
  if bool_decide (value = "") then Ok None
  else
    let value := py_upper value in
    if bool_decide (value ∈ ["C"; "CALL"]) then Ok (Some "C")
    else if bool_decide (value ∈ ["P"; "PUT"]) then Ok (Some "P")
    else Raise ValueError.
End OptionType.

(** ** [parseable_model.py] and [decoders/parsers/base.py]: creating the
    subclasses of [ParseableModel]

    [ParseableModel.__init_subclass__] runs when a class statement
    creates a subclass, before the statement binds the name of the class.
    It reads [cls._parser_fields]: what the class body assigns to the
    name, or else what the class inherits. *)

Module ParseableModelClass.

(** [_parser_fields] of [ParseableModel] itself: the empty tuple *)
Definition _parser_fields : list string := [].

(** [cls._parser_fields] for a class whose body assigns [own] to the name
    (or does not assign it) and whose base has [inherited] *)
Definition cls_parser_fields (own : option (list string))
    (inherited : list string) : list string :=
  default inherited own.

(** [__init_subclass__]: [if not cls._parser_fields: raise
    NotImplementedError(...)] *)
Definition __init_subclass__ (own : option (list string))
    (inherited : list string) : outcome unit :=
  if bool_decide (cls_parser_fields own inherited = [])
  then Raise (OtherError "NotImplementedError")
  else Ok tt.

(** [class VersionedParseableModel(ParseableModel)] of
    [decoders/parsers/base.py]: its body assigns [_version_fields] and
    defines [parse], and does not assign [_parser_fields]. *)
Definition VersionedParseableModel : outcome unit :=
  __init_subclass__ None _parser_fields.

(** [class Contract(ParseableModel)] and [class DeltaNeutralContract(ParseableModel)]
    of [contract/base.py], whose bodies assign [_parser_fields] *)
Definition Contract : outcome unit :=
  __init_subclass__ (Some FieldParser.Contract_parser_fields) _parser_fields.
Definition DeltaNeutralContract : outcome unit :=
  __init_subclass__ (Some ["contract_id"; "delta"; "price"]) _parser_fields.

(** A class of [contract/specialized.py]: [class Stock(Contract)] and the
    like, whose bodies do not assign [_parser_fields] *)
Definition specialized : outcome unit :=
  __init_subclass__ None FieldParser.Contract_parser_fields.
End ParseableModelClass.

(** ** [decoders/base.py]: class [IBMessage]

    [to_fields] reads the class attribute [MESSAGE_ID] and the declared
    fields [model_fields] of the message, in declaration order. *)

Module IBMessage.
Section serialize.
Context `{PyEnv}.
Context (py_str : pyval → string).

(** [sep.join(l)] *)
Fixpoint join (sep : string) (l : list string) : string :=
  match l with
  | [] => ""
  | [x] => x
  | x :: rest => x ++ sep ++ join sep rest
  end.

(** ['\0'] *)
Definition NUL : string := String (ascii_of_nat 0) EmptyString.

(** The text of one field: [getattr(self, field_name, None)] and the
    chain of tests on it *)
Definition field_text (self : pyval) (field_name : string) : string :=
  let field_value :=
    match ContractMethods.attribute field_name self with
    | Ok v => v
    | Raise _ => VNone
    end in
  match field_value with
  | VNone => ""
  | VBool b => if b then "1" else "0"
  | VInt _ | VFloat _ => ContractMethods.format py_str field_value
  | _ => ContractMethods.format py_str field_value
  end.

Definition to_fields (MESSAGE_ID : option Z) (model_fields : list string)
    (self : pyval) : list string :=
  let fields :=
    match MESSAGE_ID with
    | Some msg_id => [py_str (VInt msg_id)]
    | None => []
    end in
  fields ++ (field_text self <$> model_fields).

Definition to_wire_format (MESSAGE_ID : option Z) (model_fields : list string)
    (self : pyval) : string :=
  join NUL (to_fields MESSAGE_ID model_fields self) ++ NUL.
End serialize.
End IBMessage.

(** ** Further records and objects for the examples *)

Module Records.
Import Example_env Examples MessageRegistry.

(** A cursor over three tokens that has read the first. *)
Definition three_tokens : FieldIterator.t :=
  FieldIterator.__init__ ["a"; "b"; "c"] 1.

(** A dispatcher whose registry has [FirstMessage] under tag 1 with a
    handler that returns, and one whose registry has the class alone. *)
Definition handled_dispatcher : MessageDispatcher.t Z unit :=
  MessageDispatcher.__init__ tt
    (register_handler number_cls first_handler
       (register_message 1 number_cls __init__).2).2 0.

(** The first dispatcher with a pre-processor that raises. *)
Definition guarded_dispatcher : MessageDispatcher.t Z unit :=
  (MessageDispatcher.add_pre_processor (λ _, Raise ValueError) handled_dispatcher).2.


(** The tokens of a stock contract followed by a market name and a
    minimum tick, as [parse_contract_details] reads them. *)
Definition details_record : list string :=
  ["265598"; "AAPL"; "STK"; ""; "0"; ""; ""; "SMART"; "USD"; "AAPL"; "NMS";
   "NMS"; "0.01"].

(** Two tag-value pairs, as [parse_tag_values(it, 2)] reads them. *)
Definition tag_value_record : list string := ["t1"; "v1"; "t2"; "v2"].

(** The data a decoder hands to [ContractAdapter.parse]. *)
Section data.
Context `{PyEnv}.

Definition option_data : gmap string pyval :=
  <["security_type" := VStr "OPT"]>
    (<["strike" := VInt 100]> {["option_type" := VStr "C"]}).
Definition option_data_without_strike : gmap string pyval :=
  {["security_type" := VStr "OPT"]}.
Definition forex_data : gmap string pyval :=
  <["security_type" := VStr "CASH"]> {["pair" := VStr "EURUSD"]}.
End data.
End Records.

(* ===================================================================== *)
(** * Part II: theorems *)
(* ===================================================================== *)

(** ** Python preliminaries *)

Lemma py_getitem_in_range {A} (l : list A) (i : Z) (x : A) :
  0 ≤ i → l !! Z.to_nat i = Some x → py_getitem l i = Ok x.
Proof.
  intros Hi Hx. unfold py_getitem.
  pose proof (lookup_lt_Some _ _ _ Hx) as Hlt.
  destruct (Z.ltb_spec i 0); [lia|].
  destruct (Z.leb_spec 0 i); [|lia].
  destruct (Z.ltb_spec i (Z.of_nat (List.length l))); [|lia].
  simpl. by rewrite Hx.
Qed.

Lemma lower_ascii_same_letter (a : ascii) : same_letter a (lower_ascii a).
Proof.
  unfold same_letter, lower_ascii.
  destruct ((65 <=? nat_of_ascii a)%nat && (nat_of_ascii a <=? 90)%nat) eqn:E.
  - apply andb_true_iff in E as [E1 E2].
    apply Nat.leb_le in E1, E2.
    right. left. split; [lia|].
    apply nat_ascii_embedding. lia.
  - by left.
Qed.

Lemma same_letter_lower (a b : ascii) :
  same_letter a b → lower_ascii b = b → lower_ascii a = b.
Proof.
  unfold same_letter. intros [->|[[Ha Hb]|[Hb Ha]]] Hfix; [done| |].
  - unfold lower_ascii.
    destruct (Nat.leb_spec 65 (nat_of_ascii a)); [|lia].
    destruct (Nat.leb_spec (nat_of_ascii a) 90); [|lia].
    simpl. rewrite <- Hb. apply ascii_nat_embedding.
  - exfalso. unfold lower_ascii in Hfix.
    destruct (Nat.leb_spec 65 (nat_of_ascii b)); [|lia].
    destruct (Nat.leb_spec (nat_of_ascii b) 90); [|lia].
    simpl in Hfix.
    apply (f_equal nat_of_ascii) in Hfix.
    rewrite nat_ascii_embedding in Hfix; lia.
Qed.

Lemma py_lower_eq_ignore_case (s : string) : eq_ignore_case s (py_lower s).
Proof. induction s; simpl; [done|]. split; [apply lower_ascii_same_letter|done]. Qed.

Lemma eq_ignore_case_py_lower (s t : string) :
  eq_ignore_case s t → py_lower t = t → py_lower s = t.
Proof.
  revert t. induction s as [|a s IH]; intros [|b t]; simpl; try done.
  intros [Hab Hst] Hfix. injection Hfix as Hb Ht.
  f_equal; [by apply same_letter_lower | by apply IH].
Qed.

(** [value.lower() == 'true'] is equality with ['true'] up to letter case. *)
Lemma py_lower_true_iff (s : string) :
  py_lower s = "true" ↔ eq_ignore_case s "true".
Proof.
  split.
  - intros <-. apply py_lower_eq_ignore_case.
  - intros Hs. by apply eq_ignore_case_py_lower.
Qed.

(** ** The field cursor *)

Module FieldIteratorSpec.
Import FieldIterator.

Lemma wf_init fs i : wf (__init__ fs i).
Proof. done. Qed.

Lemma wf_set_index i it : wf it → wf (set_index i it).
Proof. done. Qed.

(** [next] on a position that holds a token *)
Lemma next_token {D} (d : D) (e : bool) (it : t) (tok : string) :
  wf it → 0 ≤ index it → fields it !! Z.to_nat (index it) = Some tok →
  next d e it =
    (Ok (if e && bool_decide (tok = "") then PyNone else Tok tok),
     set_index (index it + 1) it).
Proof.
  intros Hwf Hi Htok. unfold next.
  pose proof (lookup_lt_Some _ _ _ Htok) as Hlt.
  destruct (Z.ltb_spec (index it) (length it)); [|rewrite Hwf in *; lia].
  rewrite (py_getitem_in_range _ _ tok) by done.
  by destruct (e && bool_decide (tok = "")).
Qed.

(** [next] on an exhausted cursor *)
Lemma next_exhausted {D} (d : D) (e : bool) (it : t) :
  length it ≤ index it → next d e it = (Ok (Dflt d), it).
Proof.
  intros Hi. unfold next.
  by destruct (Z.ltb_spec (index it) (length it)); [lia|].
Qed.

(** [next] on a position that holds a token as Python indexes the list:
    from the start, or from the end when the position is negative. *)
Lemma next_getitem {D} (d : D) (e : bool) (it : t) (tok : string) :
  index it < length it → py_getitem (fields it) (index it) = Ok tok →
  next d e it =
    (Ok (if e && bool_decide (tok = "") then PyNone else Tok tok),
     set_index (index it + 1) it).
Proof.
  intros Hlt Hg. unfold next.
  destruct (Z.ltb_spec (index it) (length it)); [|lia].
  rewrite Hg. by destruct (e && bool_decide (tok = "")).
Qed.

Section accessors.
Context `{PyEnv}.

Lemma next_int_getitem d it tok :
  index it < length it → py_getitem (fields it) (index it) = Ok tok →
  next_int d it =
    (Ok (if bool_decide (tok = "") then d else default d (int_of_str tok)),
     set_index (index it + 1) it).
Proof.
  intros Hlt Hg. unfold next_int, mbind, M_bind, fmap, M_fmap.
  rewrite (next_getitem _ _ _ tok) by done. simpl.
  destruct (decide (tok = "")) as [->|Hne]; [done|].
  rewrite (bool_decide_eq_false_2 (Some tok = Some "")) by congruence.
  rewrite (bool_decide_eq_false_2 (tok = "")) by done.
  unfold py_int. by destruct (int_of_str tok).
Qed.

Lemma next_float_getitem d it tok :
  index it < length it → py_getitem (fields it) (index it) = Ok tok →
  next_float d it =
    (Ok (if bool_decide (tok = "") then d else default d (float_of_str tok)),
     set_index (index it + 1) it).
Proof.
  intros Hlt Hg. unfold next_float, mbind, M_bind, fmap, M_fmap.
  rewrite (next_getitem _ _ _ tok) by done. simpl.
  destruct (decide (tok = "")) as [->|Hne]; [done|].
  rewrite (bool_decide_eq_false_2 (Some tok = Some "")) by congruence.
  rewrite (bool_decide_eq_false_2 (tok = "")) by done.
  unfold py_float. by destruct (float_of_str tok).
Qed.

Lemma next_bool_getitem d it tok :
  index it < length it → py_getitem (fields it) (index it) = Ok tok →
  next_bool d it =
    (Ok (if bool_decide (tok = "") then d
         else bool_decide (tok = "1") || bool_decide (py_lower tok = "true")),
     set_index (index it + 1) it).
Proof.
  intros Hlt Hg. unfold next_bool, mbind, M_bind, fmap, M_fmap.
  rewrite (next_getitem _ _ _ tok) by done. simpl.
  destruct (decide (tok = "")) as [->|Hne]; [done|].
  rewrite (bool_decide_eq_false_2 (Some tok = Some "")) by congruence.
  by rewrite (bool_decide_eq_false_2 (tok = "")) by done.
Qed.

Lemma next_int_token d it tok :
  wf it → 0 ≤ index it → fields it !! Z.to_nat (index it) = Some tok →
  next_int d it =
    (Ok (if bool_decide (tok = "") then d else default d (int_of_str tok)),
     set_index (index it + 1) it).
Proof.
  intros Hwf Hi Htok. unfold next_int, mbind, M_bind, fmap, M_fmap.
  rewrite (next_token _ _ _ tok) by done. simpl.
  destruct (decide (tok = "")) as [->|Hne]; [done|].
  rewrite (bool_decide_eq_false_2 (Some tok = Some "")) by congruence.
  rewrite (bool_decide_eq_false_2 (tok = "")) by done.
  unfold py_int. by destruct (int_of_str tok).
Qed.

Lemma next_int_exhausted d it :
  length it ≤ index it → next_int d it = (Ok d, it).
Proof.
  intros Hi. unfold next_int, mbind, M_bind, fmap, M_fmap.
  by rewrite next_exhausted.
Qed.

Lemma next_float_token d it tok :
  wf it → 0 ≤ index it → fields it !! Z.to_nat (index it) = Some tok →
  next_float d it =
    (Ok (if bool_decide (tok = "") then d else default d (float_of_str tok)),
     set_index (index it + 1) it).
Proof.
  intros Hwf Hi Htok. unfold next_float, mbind, M_bind, fmap, M_fmap.
  rewrite (next_token _ _ _ tok) by done. simpl.
  destruct (decide (tok = "")) as [->|Hne]; [done|].
  rewrite (bool_decide_eq_false_2 (Some tok = Some "")) by congruence.
  rewrite (bool_decide_eq_false_2 (tok = "")) by done.
  unfold py_float. by destruct (float_of_str tok).
Qed.

Lemma next_float_exhausted d it :
  length it ≤ index it → next_float d it = (Ok d, it).
Proof.
  intros Hi. unfold next_float, mbind, M_bind, fmap, M_fmap.
  by rewrite next_exhausted.
Qed.

Lemma next_bool_token d it tok :
  wf it → 0 ≤ index it → fields it !! Z.to_nat (index it) = Some tok →
  next_bool d it =
    (Ok (if bool_decide (tok = "") then d
         else bool_decide (tok = "1") || bool_decide (py_lower tok = "true")),
     set_index (index it + 1) it).
Proof.
  intros Hwf Hi Htok. unfold next_bool, mbind, M_bind, fmap, M_fmap.
  rewrite (next_token _ _ _ tok) by done. simpl.
  destruct (decide (tok = "")) as [->|Hne]; [done|].
  rewrite (bool_decide_eq_false_2 (Some tok = Some "")) by congruence.
  by rewrite (bool_decide_eq_false_2 (tok = "")) by done.
Qed.

Lemma next_bool_exhausted d it :
  length it ≤ index it → next_bool d it = (Ok d, it).
Proof.
  intros Hi. unfold next_bool, mbind, M_bind, fmap, M_fmap.
  by rewrite next_exhausted.
Qed.

Lemma next_datetime_exhausted d it :
  length it ≤ index it → next_datetime d it = (Ok d, it).
Proof.
  intros Hi. unfold next_datetime, mbind, M_bind, fmap, M_fmap.
  by rewrite next_exhausted.
Qed.
End accessors.

(** Every accessor moves the cursor exactly as the [next] it starts with. *)
Lemma next_state {D} (d : D) (e : bool) (it : t) :
  (next d e it).2 = it ∨
  (index it < length it ∧ (next d e it).2 = set_index (index it + 1) it).
Proof.
  unfold next. destruct (Z.ltb_spec (index it) (length it)); [|by left].
  destruct (py_getitem _ _); [|by left].
  right. split; [done|]. by destruct (e && _).
Qed.

Lemma next_state_fields {D} (d : D) (e : bool) (it : t) :
  fields (next d e it).2 = fields it ∧ length (next d e it).2 = length it.
Proof. by destruct (next_state d e it) as [->|[_ ->]]. Qed.

Lemma inv_next_state {D} (d : D) (e : bool) (it : t) :
  inv it → inv (next d e it).2.
Proof.
  intros [Hwf Hle]. destruct (next_state d e it) as [->|[Hlt ->]]; [done|].
  split; [done|]. simpl. lia.
Qed.

Section preservation.
Context `{PyEnv}.

Lemma next_int_state d it : (next_int d it).2 = (next "" false it).2.
Proof.
  unfold next_int, mbind, M_bind, fmap, M_fmap.
  destruct (next "" false it) as [[r|e] it']; [|done]. simpl.
  case_bool_decide; [done|].
  destruct (py_int (as_str r)) as [n|[]]; done.
Qed.

Lemma next_float_state d it : (next_float d it).2 = (next "" false it).2.
Proof.
  unfold next_float, mbind, M_bind, fmap, M_fmap.
  destruct (next "" false it) as [[r|e] it']; [|done]. simpl.
  case_bool_decide; [done|].
  destruct (py_float (as_str r)) as [n|[]]; done.
Qed.

Lemma next_bool_state d it : (next_bool d it).2 = (next "" false it).2.
Proof.
  unfold next_bool, mbind, M_bind, fmap, M_fmap.
  destruct (next "" false it) as [[r|e] it']; [|done]. simpl.
  case_bool_decide; [done|]. by destruct (as_str r).
Qed.

Lemma next_datetime_state d it : (next_datetime d it).2 = (next "" false it).2.
Proof.
  unfold next_datetime, mbind, M_bind, fmap, M_fmap.
  destruct (next "" false it) as [[r|e] it']; [|done]. simpl.
  case_bool_decide; [done|].
  destruct (as_str r); [|done]. by destruct (parseIBDatetime _).
Qed.

Lemma peek_state o it : (peek o it).2 = it.
Proof.
  unfold peek. destruct (_ <? _); [|done]. by destruct (py_getitem _ _).
Qed.

Lemma inv_after (c : call) (it : t) : inv it → inv (after c it).
Proof.
  intros Hinv. destruct c; simpl.
  - by apply inv_next_state.
  - rewrite next_int_state. by apply inv_next_state.
  - rewrite next_float_state. by apply inv_next_state.
  - rewrite next_bool_state. by apply inv_next_state.
  - rewrite next_datetime_state. by apply inv_next_state.
  - by rewrite peek_state.
  - destruct Hinv as [Hwf Hle]. split; [done|]. simpl. lia.
  - done.
  - done.
  - destruct Hinv as [Hwf Hle]. split; [done|]. simpl. lia.
Qed.

Lemma fields_after (c : call) (it : t) :
  fields (after c it) = fields it ∧ length (after c it) = length it.
Proof.
  destruct c; simpl;
    rewrite ?next_int_state, ?next_float_state, ?next_bool_state,
      ?next_datetime_state, ?peek_state; try done.
  all: apply next_state_fields.
Qed.

Lemma inv_after_all (cs : list call) (it : t) :
  inv it →
  inv (after_all cs it) ∧ fields (after_all cs it) = fields it.
Proof.
  revert it. induction cs as [|c cs IH]; intros it Hinv; [done|].
  simpl. destruct (IH (after c it) (inv_after c it Hinv)) as [? ->].
  split; [done|]. apply fields_after.
Qed.

Lemma peek_exhausted (o : Z) (it : t) :
  length it ≤ index it → 0 ≤ o → peek o it = (Ok None, it).
Proof.
  intros Hi Ho. unfold peek.
  by destruct (Z.ltb_spec (index it + o) (length it)); [lia|].
Qed.

(** [l[i]] for an index that is not below [-len(l)]: an element when the
    index is below the length, [IndexError] from the length on. *)
Lemma py_getitem_from_minus_length {A} (l : list A) (i : Z) :
  - Z.of_nat (List.length l) ≤ i →
  match py_getitem l i with
  | Ok _ => i < Z.of_nat (List.length l)
  | Raise _ => Z.of_nat (List.length l) ≤ i
  end.
Proof.
  intros Hlo. unfold py_getitem.
  destruct (Z.ltb_spec i 0) as [Hneg|Hpos].
  - destruct (Z.leb_spec 0 (i + Z.of_nat (List.length l))); [|lia].
    destruct (Z.ltb_spec (i + Z.of_nat (List.length l))
                (Z.of_nat (List.length l))); [|lia].
    simpl. destruct (l !! Z.to_nat (i + Z.of_nat (List.length l))) eqn:E; [lia|].
    apply lookup_ge_None in E. lia.
  - destruct (Z.leb_spec 0 i); [|lia].
    destruct (Z.ltb_spec i (Z.of_nat (List.length l))); simpl; [|lia].
    destruct (l !! Z.to_nat i) eqn:E; [lia|].
    apply lookup_ge_None in E. lia.
Qed.

(** C3 (as amended).  For every token list, every default value and
    every position that is not below minus the length of the list (the
    positions from 0 on, and the negative positions down to [-length],
    which Python indexes from the end of the list), [next_int],
    [next_float] and [next_bool] return normally.  When the position is
    below the length they consume exactly the one token there, whether
    or not it parses: they return the default when the token is empty or
    does not parse, and the parsed value otherwise; [next_bool] on a
    non-empty token returns [True] exactly when the token is ["1"] or
    equals ["true"] up to letter case.  When the position has reached
    the length they return the default and the position stays. *)
Theorem typed_accessors_never_raise (fs : list string) (pos : Z) :
  - Z.of_nat (List.length fs) ≤ pos →
  let it := __init__ fs pos in
  match py_getitem fs pos with
  | Ok tok =>
      let it' := set_index (pos + 1) it in
      pos < Z.of_nat (List.length fs)
      ∧ (∀ d, ∃ r, next_int d it = (Ok r, it')
            ∧ (tok = "" ∨ int_of_str tok = None → r = d)
            ∧ (∀ n, tok ≠ "" → int_of_str tok = Some n → r = n))
      ∧ (∀ d, ∃ r, next_float d it = (Ok r, it')
            ∧ (tok = "" ∨ float_of_str tok = None → r = d)
            ∧ (∀ x, tok ≠ "" → float_of_str tok = Some x → r = x))
      ∧ (∀ d, ∃ r, next_bool d it = (Ok r, it')
            ∧ (tok = "" → r = d)
            ∧ (tok ≠ "" → r = true ↔ tok = "1" ∨ eq_ignore_case tok "true"))
  | Raise _ =>
      Z.of_nat (List.length fs) ≤ pos
      ∧ ∀ (di : Z) (df : float) (db : bool),
          next_int di it = (Ok di, it)
          ∧ next_float df it = (Ok df, it)
          ∧ next_bool db it = (Ok db, it)
  end.
Proof.
  intros Hlo it. pose proof (py_getitem_from_minus_length fs pos Hlo) as Hcase.
  destruct (py_getitem fs pos) as [tok|e] eqn:Hg.
  - assert (Hlt : index it < length it) by (simpl; lia).
    assert (Hl : py_getitem (fields it) (index it) = Ok tok) by done.
    split; [done|]. repeat split.
    + intros d. eexists. split; [by apply next_int_getitem|].
      split.
      * intros [->|Hn]; [done|]. rewrite Hn. by case_bool_decide.
      * intros n Hne Hn. rewrite Hn. by rewrite bool_decide_eq_false_2.
    + intros d. eexists. split; [by apply next_float_getitem|].
      split.
      * intros [->|Hn]; [done|]. rewrite Hn. by case_bool_decide.
      * intros x Hne Hx. rewrite Hx. by rewrite bool_decide_eq_false_2.
    + intros d. eexists. split; [by apply next_bool_getitem|].
      split.
      * by intros ->.
      * intros Hne. rewrite bool_decide_eq_false_2 by done.
        rewrite orb_true_iff, !bool_decide_eq_true.
        by rewrite py_lower_true_iff.
  - assert (Hi : length it ≤ index it) by (simpl; lia).
    split; [done|]. intros di df db.
    by rewrite next_int_exhausted, next_float_exhausted, next_bool_exhausted.
Qed.

(** C4 (as amended).  For every cursor built with
    [start_index <= length], after any sequence of calls of [next],
    [next_int], [next_float], [next_bool], [next_datetime], [peek],
    [skip], [has_more], [remaining] and [consume_rest] (with any
    arguments) the position is at most the length; and once the
    position has reached the length, [next] and the typed accessors
    return the caller's default and [peek] with a non-negative offset
    returns [None], none of them raising. *)
Theorem position_never_exceeds_length
    (fs : list string) (start_index : Z) (cs : list call) :
  start_index ≤ Z.of_nat (List.length fs) →
  let it := after_all cs (__init__ fs start_index) in
  index it ≤ length it
  ∧ length it = Z.of_nat (List.length fs)
  ∧ (index it = length it →
       (∀ (D : Type) (d : D) (e : bool), next d e it = (Ok (Dflt d), it))
       ∧ (∀ d, next_int d it = (Ok d, it))
       ∧ (∀ d, next_float d it = (Ok d, it))
       ∧ (∀ d, next_bool d it = (Ok d, it))
       ∧ (∀ d, next_datetime d it = (Ok d, it))
       ∧ (∀ offset, 0 ≤ offset → peek offset it = (Ok None, it))).
Proof.
  intros Hstart it.
  destruct (inv_after_all cs (__init__ fs start_index)) as [[Hwf Hle] Hfs];
    [by split|].
  fold it in Hwf, Hle, Hfs. split; [done|]. split.
  - rewrite Hwf, Hfs. done.
  - intros Heq. assert (length it ≤ index it) by lia.
    repeat split; intros.
    + by apply next_exhausted.
    + by apply next_int_exhausted.
    + by apply next_float_exhausted.
    + by apply next_bool_exhausted.
    + by apply next_datetime_exhausted.
    + by apply peek_exhausted.
Qed.
(** On a cursor in order the accessors return normally and move the
    position by one, up to the length. *)
Lemma in_order_cases (it : t) :
  in_order it →
  (∃ tok, fields it !! Z.to_nat (index it) = Some tok
          ∧ moved it = set_index (index it + 1) it)
  ∨ (fields it !! Z.to_nat (index it) = None
     ∧ length it ≤ index it ∧ moved it = it).
Proof.
  intros [Hwf Hi]. unfold moved.
  destruct (decide (index it < length it)) as [Hlt|Hge].
  - left. destruct (lookup_lt_is_Some_2 (fields it) (Z.to_nat (index it)))
      as [tok Htok]; [rewrite Hwf in Hlt; lia|].
    exists tok. split; [done|]. f_equal. lia.
  - right. split; [|split; [lia|]].
    + apply lookup_ge_None. rewrite Hwf in *. lia.
    + replace (Z.min (index it + 1) (length it)) with (index it) by lia.
      by destruct it.
Qed.

Lemma next_in_order (it : t) :
  in_order it →
  next "" false it = (Ok (if decide (index it < length it)
                          then Tok (default "" (fields it !! Z.to_nat (index it)))
                          else Dflt ""), moved it).
Proof.
  intros Hin. destruct (in_order_cases it Hin) as [(tok & Htok & ->)|(Hnone & Hge & ->)].
  - destruct Hin as [Hwf Hi]. rewrite (next_token _ _ _ tok) by (done || lia).
    rewrite Htok. simpl. pose proof (lookup_lt_Some _ _ _ Htok).
    rewrite decide_True; [done|]. rewrite Hwf. lia.
  - rewrite next_exhausted by done. by rewrite decide_False by lia.
Qed.

Lemma next_int_in_order d (it : t) :
  in_order it → ∃ n, next_int d it = (Ok n, moved it).
Proof.
  intros Hin. destruct (in_order_cases it Hin) as [(tok & Htok & ->)|(Hnone & Hge & ->)].
  - destruct Hin as [Hwf Hi]. eexists. apply next_int_token; done || lia.
  - eexists. by apply next_int_exhausted.
Qed.

Lemma next_float_in_order d (it : t) :
  in_order it → ∃ x, next_float d it = (Ok x, moved it).
Proof.
  intros Hin. destruct (in_order_cases it Hin) as [(tok & Htok & ->)|(Hnone & Hge & ->)].
  - destruct Hin as [Hwf Hi]. eexists. apply next_float_token; done || lia.
  - eexists. by apply next_float_exhausted.
Qed.

Lemma next_bool_in_order d (it : t) :
  in_order it → ∃ b, next_bool d it = (Ok b, moved it).
Proof.
  intros Hin. destruct (in_order_cases it Hin) as [(tok & Htok & ->)|(Hnone & Hge & ->)].
  - destruct Hin as [Hwf Hi]. eexists. apply next_bool_token; done || lia.
  - eexists. by apply next_bool_exhausted.
Qed.
End preservation.

End FieldIteratorSpec.

(** ** The message registry *)

Module MessageRegistrySpec.
Import MessageRegistry.

Section registry.
Context {Msg W : Type}.
Implicit Types (self : MessageRegistry.t Msg W) (cls : msg_class Msg) (func : handler Msg W).

(** C1 (as amended).  Registration never raises, and a second
    registration for a key replaces the first: after registering
    [cls1] and then [cls2] for the same tag, the tag resolves to
    [cls2] (with its [MESSAGE_ID] set to the tag), and the registry is
    the one obtained by registering [cls2] alone; after registering
    [func1] and then [func2] for the same message class, the class
    resolves to [func2], and the registry is the one obtained by
    registering [func2] alone. *)
Theorem second_registration_replaces_first
    (self : MessageRegistry.t Msg W) (msg_id : Z) (cls1 cls2 : msg_class Msg)
    (message_cls : msg_class Msg) (func1 func2 : handler Msg W) :
  let self1 := (register_message msg_id cls1 self).2 in
  let stored :=
    {| __name__ := __name__ cls2; MESSAGE_ID := Some msg_id;
       from_fields := from_fields cls2 |} in
  register_message msg_id cls2 self1
    = (Ok stored, (register_message msg_id cls2 self).2)
  ∧ get_message_class msg_id (register_message msg_id cls2 self1).2 = Some stored
  ∧ let self2 := (register_handler message_cls func1 self).2 in
    register_handler message_cls func2 self2
      = (Ok func2, (register_handler message_cls func2 self).2)
    ∧ get_handler message_cls (register_handler message_cls func2 self2).2
      = Some func2.
Proof.
  simpl. repeat split.
  - unfold register_message. simpl. by rewrite insert_insert_eq.
  - unfold get_message_class. simpl. apply lookup_insert_eq.
  - unfold register_handler. simpl. by rewrite insert_insert_eq.
  - unfold get_handler. simpl. apply lookup_insert_eq.
Qed.
End registry.

Import Examples.

(** C1, counterexample.  Registering [SecondMessage] for tag 1 after
    [FirstMessage] returns normally and tag 1 now resolves to
    [SecondMessage]; registering a second handler for [FirstMessage]
    returns normally and the class now resolves to the second handler.
    The first registrations are gone, and no error was raised. *)
Lemma duplicate_registration_overwrites :
  let r1 := (register_message 1 first_cls (__init__ (W:=unit))).2 in
  let r2 := (register_handler first_cls first_handler r1).2 in
  (∃ c r, register_message 1 second_cls r2 = (Ok c, r)
          ∧ __name__ <$> get_message_class 1 r = Some "SecondMessage")
  ∧ (∃ r, register_handler first_cls second_handler r2 = (Ok second_handler, r)
          ∧ func_name <$> get_handler first_cls r = Some "handle_second").
Proof.
  split.
  - eexists _, _. split; [reflexivity|]. reflexivity.
  - eexists. split; [reflexivity|]. reflexivity.
Qed.

End MessageRegistrySpec.

(** ** The dispatcher *)

Module MessageDispatcherSpec.
Import MessageRegistry MessageDispatcher.

(** Case analysis on everything a dispatch branches on. *)
Ltac run_dispatch :=
  unfold dispatch, dispatch_record, _call_wrapper_method,
    _call_wrapper_with_message, _call_legacy_handler, try_except,
    on_wrapper, lift_outcome, modify, gets, mbind, M_bind, mret, M_ret in *;
  repeat (simpl in *;
          match goal with
          | |- context [match ?x with _ => _ end] =>
              lazymatch x with
              | context [match _ with _ => _ end] => fail
              | _ => destruct x eqn:?
              end
          | |- context [if ?x then _ else _] => destruct x eqn:?
          end);
  simpl in *.

Section dispatcher.
Context `{PyEnv} {Msg W : Type}.
Context (req_id : Msg → option Z).
Context (wrapper_getattr : W → string → option (list (arg Msg) → M W unit)).

Local Abbreviation dispatch := (dispatch req_id wrapper_getattr).
Local Abbreviation dispatch_record := (dispatch_record req_id wrapper_getattr).
Local Abbreviation perform_all := (perform_all req_id wrapper_getattr).
Local Abbreviation perform := (perform req_id wrapper_getattr).
Implicit Types (self : MessageDispatcher.t Msg W) (fields : list string).

(** The counters after one dispatch, by whether the record has a tag. *)
Lemma counters_after_dispatch elapsed fields self :
  let self' := (dispatch elapsed fields self).2 in
  match tag_of fields with
  | Some msg_id =>
      messages_processed (stats self') = messages_processed (stats self) + 1
      ∧ message_counts self'
        = <[msg_id := default 0 (message_counts self !! msg_id) + 1]>
            (message_counts self)
  | None =>
      messages_processed (stats self') = messages_processed (stats self)
      ∧ message_counts self' = message_counts self
      ∧ messages_failed (stats self') = messages_failed (stats self) + 1
      ∧ unknown_messages (stats self') = unknown_messages (stats self)
  end.
Proof.
  unfold tag_of. destruct fields as [|field0 rest]; [done|].
  destruct (bool_decide (field0 = "")) eqn:E0.
  { unfold MessageDispatcher.dispatch, MessageDispatcher.dispatch_record. by rewrite E0. }
  destruct (int_of_str field0) as [msg_id|] eqn:Eid.
  2:{ unfold MessageDispatcher.dispatch, MessageDispatcher.dispatch_record. by rewrite E0, Eid. }
  unfold MessageDispatcher.dispatch, MessageDispatcher.dispatch_record. rewrite E0, Eid.
  run_dispatch; done.
Qed.
Lemma total_count_count_message msg_id self :
  total_count (count_message msg_id self) = total_count self + 1.
Proof.
  unfold total_count, count_message. simpl.
  assert (Hcomm : ∀ (j1 j2 z1 z2 y : Z), z1 + (z2 + y) = z2 + (z1 + y)) by (intros; lia).
  destruct (message_counts self !! msg_id) as [n|] eqn:E; simpl.
  - rewrite <- insert_delete_eq.
    rewrite map_fold_insert_L; [|by intros; apply Hcomm|apply lookup_delete_eq].
    rewrite (map_fold_delete_L _ _ msg_id n (message_counts self));
      [lia|by intros; apply Hcomm|done].
  - rewrite map_fold_insert_L; [lia|by intros; apply Hcomm|done].
Qed.

(** [messages_processed] is the sum of the per-tag counts: it holds on a
    new dispatcher and every operation keeps it. *)
Lemma processed_is_total_perform (a : action) self :
  messages_processed (stats self) = total_count self →
  messages_processed (stats (perform a self)) = total_count (perform a self).
Proof.
  intros Hinv. destruct a as [elapsed fields| | |]; simpl; try done.
  pose proof (counters_after_dispatch elapsed fields self) as Hc. simpl in Hc.
  destruct (tag_of fields) as [msg_id|].
  - destruct Hc as [-> Hmc].
    transitivity (total_count (count_message msg_id self)).
    + rewrite total_count_count_message. lia.
    + unfold total_count. by rewrite Hmc.
  - destruct Hc as (-> & Hmc & _). unfold total_count. by rewrite Hmc.
Qed.

Lemma processed_is_total_perform_all (acts : list action) self :
  messages_processed (stats self) = total_count self →
  messages_processed (stats (perform_all acts self))
  = total_count (perform_all acts self).
Proof.
  revert self. induction acts as [|a acts IH]; intros self Hinv; [done|].
  simpl. apply IH. by apply processed_is_total_perform.
Qed.

(** C10.  Take a dispatcher in any state reached from a new one by
    dispatching records, adding processors and resetting the statistics.
    Its [messages_processed] equals the sum of its [message_counts].
    Dispatching a record whose first token is non-empty and parses as the
    integer [msg_id] adds exactly one to [messages_processed] and exactly
    one to [message_counts[msg_id]], leaving the other tags' counts, on
    every path (unknown tag, decode failure, suppressed message, handler
    failure, raising processor alike).  Dispatching an empty record or one
    whose first token is empty or not an integer leaves [messages_processed]
    and [message_counts] as they were and adds one to [messages_failed]. *)
Theorem processed_counts_tagged_records
    (w : W) (reg : MessageRegistry.t Msg W) (sv : Z) (acts : list action)
    (elapsed : float) (fields : list string) :
  let self := perform_all acts (__init__ w reg sv) in
  let self' := (dispatch elapsed fields self).2 in
  messages_processed (stats self) = total_count self
  ∧ match tag_of fields with
    | Some msg_id =>
        messages_processed (stats self') = messages_processed (stats self) + 1
        ∧ message_counts self' !! msg_id
          = Some (default 0 (message_counts self !! msg_id) + 1)
        ∧ (∀ other, other ≠ msg_id →
             message_counts self' !! other = message_counts self !! other)
    | None =>
        messages_processed (stats self') = messages_processed (stats self)
        ∧ message_counts self' = message_counts self
        ∧ messages_failed (stats self') = messages_failed (stats self) + 1
    end.
Proof.
  intros self self'. split.
  - by apply processed_is_total_perform_all.
  - pose proof (counters_after_dispatch elapsed fields self) as Hc. simpl in Hc.
    fold self' in Hc. destruct (tag_of fields) as [msg_id|].
    + destruct Hc as [Hp Hmc]. split; [done|]. rewrite Hmc. split.
      * apply lookup_insert_eq.
      * intros other Hne. by apply lookup_insert_ne.
    + by destruct Hc as (? & ? & ? & _).
Qed.

(** C9.  When the first token of a record parses as an integer tag for
    which no message class is registered (and the pre-processors, if any
    are installed, return normally), [dispatch] returns [None] without
    raising, adds exactly one to [unknown_messages], calls no handler and
    no wrapper method and leaves the wrapper as it was; the lookup
    [get_message_class] gives [None] for the tag. *)
Theorem unknown_tag_counted_not_handled
    (self : MessageDispatcher.t Msg W) (elapsed : float) (fields : list string)
    (msg_id : Z) :
  tag_of fields = Some msg_id →
  msg_id ∉ dom (_message_classes (registry self)) →
  (∃ fields', run_pre_processors (pre_processors self) fields = Ok fields') →
  get_message_class msg_id (registry self) = None
  ∧ ∃ self', dispatch elapsed fields self = (Ok None, self')
      ∧ unknown_messages (stats self') = unknown_messages (stats self) + 1
      ∧ messages_failed (stats self') = messages_failed (stats self)
      ∧ new_invocations self self' = []
      ∧ wrapper self' = wrapper self.
Proof.
  intros Htag Hdom [fields' Hpre].
  assert (Hnone : get_message_class msg_id (registry self) = None).
  { unfold get_message_class. by apply not_elem_of_dom. }
  split; [done|].
  unfold tag_of in Htag. destruct fields as [|field0 rest]; [done|].
  destruct (bool_decide (field0 = "")) eqn:E0; [done|].
  unfold MessageDispatcher.dispatch, MessageDispatcher.dispatch_record.
  rewrite E0, Htag.
  unfold lift_outcome, modify, gets, mbind, M_bind, mret, M_ret. simpl.
  rewrite Hpre, Hnone. simpl.
  eexists. split; [reflexivity|]. simpl.
  repeat split. unfold new_invocations. simpl. apply drop_all.
Qed.

(** Without processors, and with class names that are not empty (as the
    names of Python classes are), [dispatch] returns normally on every
    record, whatever the decoders, handlers and wrapper methods raise. *)
Lemma dispatch_returns elapsed fields (self : MessageDispatcher.t Msg W) :
  pre_processors self = [] →
  post_processors self = [] →
  (∀ msg_id cls, get_message_class msg_id (registry self) = Some cls →
                 __name__ cls ≠ "") →
  ∃ r self', dispatch elapsed fields self = (Ok r, self').
Proof.
  destruct self as [w sv r st mc pre post inv]. simpl.
  intros -> -> Hname.
  run_dispatch; try (by eexists _, _).
  exfalso.
  match goal with
  | Hc : get_message_class _ _ = Some ?c, Hn : wrapper_method_name _ = Raise _ |- _ =>
      apply Hname in Hc; unfold wrapper_method_name in Hn;
      destruct (__name__ c); [done | discriminate]
  end.
Qed.

(** A record whose decoder returns [None] ends there: nothing is called
    and nothing is counted as failed or unknown. *)
Lemma dispatch_suppressed elapsed fields fields' msg_id cls
    (self : MessageDispatcher.t Msg W) :
  tag_of fields = Some msg_id →
  run_pre_processors (pre_processors self) fields = Ok fields' →
  get_message_class msg_id (registry self) = Some cls →
  from_fields cls fields' (server_version self) = Ok None →
  ∃ self', dispatch elapsed fields self = (Ok None, self')
    ∧ new_invocations self self' = []
    ∧ wrapper self' = wrapper self
    ∧ messages_failed (stats self') = messages_failed (stats self)
    ∧ unknown_messages (stats self') = unknown_messages (stats self).
Proof.
  intros Htag Hpre Hcls Hnone.
  unfold tag_of in Htag. destruct fields as [|field0 rest]; [done|].
  destruct (bool_decide (field0 = "")) eqn:E0; [done|].
  unfold MessageDispatcher.dispatch, MessageDispatcher.dispatch_record.
  rewrite E0, Htag.
  unfold lift_outcome, modify, gets, mbind, M_bind, mret, M_ret. simpl.
  rewrite Hpre, Hcls. simpl. rewrite Hnone. simpl.
  eexists. split; [reflexivity|]. simpl.
  repeat split. unfold new_invocations. simpl. apply drop_all.
Qed.
End dispatcher.
End MessageDispatcherSpec.

(** ** Decoders: how the cursor moves *)

Module DecodeSpec.
Import Decode.

Section cursor.
Context `{ObjEnv}.
Implicit Types (fr : frame) (fields : list string).

(** *** Every statement of a decoder keeps the cursor in order *)

Lemma keeps_ret fields {A} (a : A) : keeps fields (mret a).
Proof. intros fr r fr' Hok [= <- <-]. done. Qed.

Lemma keeps_raise fields {A} e : keeps fields (raise (A:=A) e).
Proof. intros fr r fr' Hok [= <- <-]. done. Qed.

Lemma keeps_lift fields {A} (o : outcome A) : keeps fields (lift o).
Proof. intros fr r fr' Hok [= <- <-]. done. Qed.

Lemma keeps_bind fields {A B} (m : M frame A) (f : A → M frame B) :
  keeps fields m → (∀ a, keeps fields (f a)) → keeps fields (m ≫= f).
Proof.
  intros Hm Hf fr r fr' Hok. unfold mbind, M_bind.
  destruct (m fr) as [[a|e] fr1] eqn:E.
  - intros Hrun. eapply Hf; [|exact Hrun]. by eapply Hm.
  - intros [= <- <-]. by eapply Hm.
Qed.

Lemma keeps_fmap fields {A B} (g : A → B) (m : M frame A) :
  keeps fields m → keeps fields (g <$> m).
Proof.
  intros Hm fr r fr' Hok. unfold fmap, M_fmap.
  destruct (m fr) as [[a|e] fr1] eqn:E; intros [= <- <-]; by eapply Hm.
Qed.

Lemma keeps_vars fields {A} (m : M frame A) :
  (∀ fr r fr', m fr = (r, fr') → it fr' = it fr) → keeps fields m.
Proof.
  intros Hit fr r fr' Hok Hrun. apply Hit in Hrun.
  unfold cursor_ok, position in *. by rewrite Hrun.
Qed.

Lemma keeps_set_var fields var v : keeps fields (set_var var v).
Proof. apply keeps_vars. by intros fr r fr' [= <- <-]. Qed.

Lemma keeps_get_var fields var : keeps fields (get_var var).
Proof.
  apply keeps_vars. intros fr r fr'. unfold get_var.
  by destruct (vars fr !! var); intros [= <- <-].
Qed.

Lemma cursor_ok_in_order fields fr :
  cursor_ok fields fr → FieldIterator.in_order (it fr).
Proof.
  intros (Hf & Hl & Hp). unfold FieldIterator.in_order, FieldIterator.wf, position in *.
  rewrite Hf, Hl. split; [done | lia].
Qed.

Lemma advance_ok fields fr :
  cursor_ok fields fr →
  cursor_ok fields (advance fr)
  ∧ position (advance fr) = Z.min (position fr + 1) (Z.of_nat (List.length fields)).
Proof.
  intros (Hf & Hl & Hp). unfold cursor_ok, advance, position in *. simpl.
  rewrite Hl. repeat split; try done; lia.
Qed.

Lemma next_run fields fr :
  cursor_ok fields fr → next fr = (Ok (VStr (current_token fr)), advance fr).
Proof.
  intros Hok. pose proof (cursor_ok_in_order _ _ Hok) as Hin.
  unfold next, on_it, fmap, M_fmap.
  rewrite FieldIteratorSpec.next_in_order by done.
  unfold advance, current_token, position, FieldIterator.moved. simpl.
  destruct Hin as [Hwf Hi]. case_decide as Hlt; simpl; [done|].
  rewrite (proj2 (lookup_ge_None _ _)); [done|].
  rewrite Hwf in Hlt. lia.
Qed.

Lemma reader_next : reader next.
Proof. intros fields fr Hok. eexists. by eapply next_run. Qed.

Lemma reader_next_int_z : reader next_int_z.
Proof.
  intros fields fr Hok. unfold next_int_z, on_it.
  destruct (FieldIteratorSpec.next_int_in_order 0 (it fr)) as [n Hn];
    [by eapply cursor_ok_in_order|].
  rewrite Hn. by eexists.
Qed.

Lemma reader_next_float : reader next_float.
Proof.
  intros fields fr Hok. unfold next_float, on_it, fmap, M_fmap.
  destruct (FieldIteratorSpec.next_float_in_order float_zero (it fr)) as [n Hn];
    [by eapply cursor_ok_in_order|].
  rewrite Hn. by eexists.
Qed.

Lemma reader_next_bool_b : reader next_bool_b.
Proof.
  intros fields fr Hok. unfold next_bool_b, on_it.
  destruct (FieldIteratorSpec.next_bool_in_order false (it fr)) as [n Hn];
    [by eapply cursor_ok_in_order|].
  rewrite Hn. by eexists.
Qed.

Lemma reader_fmap {A B} (g : A → B) (rdr : M frame A) :
  reader rdr → reader (g <$> rdr).
Proof.
  intros Hr fields fr Hok. destruct (Hr fields fr Hok) as [a Ha].
  unfold fmap, M_fmap. rewrite Ha. by eexists.
Qed.

Lemma reader_next_int : reader next_int.
Proof. apply reader_fmap, reader_next_int_z. Qed.

Lemma reader_next_bool : reader next_bool.
Proof. apply reader_fmap, reader_next_bool_b. Qed.

Lemma keeps_reader fields {A} (rdr : M frame A) : reader rdr → keeps fields rdr.
Proof.
  intros Hr fr r fr' Hok. destruct (Hr fields fr Hok) as [a ->].
  intros [= <- <-]. by apply advance_ok.
Qed.

Lemma keeps_skip fields count : 0 ≤ count → keeps fields (skip count).
Proof.
  intros Hc fr r fr' (Hf & Hl & Hp) [= <- <-].
  unfold cursor_ok, position in *. simpl. rewrite Hl.
  repeat split; try done; lia.
Qed.

Lemma setattr_it var name v fr r fr' :
  setattr var name v fr = (r, fr') → it fr' = it fr.
Proof.
  unfold setattr, get_var, lift, set_var, modify, raise, mbind, M_bind.
  destruct (vars fr !! var) as [[]|]; simpl; try by intros [= <- <-].
  destruct (setattr_check _ _ _); simpl; by intros [= <- <-].
Qed.

Lemma keeps_setattr fields var name v : keeps fields (setattr var name v).
Proof. apply keeps_vars. intros fr r fr'. apply setattr_it. Qed.

Lemma keeps_getattr fields var name : keeps fields (getattr var name).
Proof.
  apply keeps_vars. intros fr r fr'.
  unfold getattr, get_var, raise, mbind, M_bind, mret, M_ret.
  destruct (vars fr !! var) as [[]|]; simpl; try by intros [= <- <-].
  destruct (_ !! name); by intros [= <- <-].
Qed.

Lemma keeps_new fields var cls args : keeps fields (new var cls args).
Proof.
  apply keeps_vars. intros fr r fr'.
  unfold new, lift, set_var, modify, mbind, M_bind.
  destruct (new_object cls args); by intros [= <- <-].
Qed.

Lemma keeps_append_to fields var name v : keeps fields (append_to var name v).
Proof.
  apply keeps_vars. intros fr r fr'.
  unfold append_to, get_var, set_var, modify, raise, mbind, M_bind.
  destruct (vars fr !! var) as [[]|]; simpl; try by intros [= <- <-].
  destruct (_ !! name) as [[]|]; by intros [= <- <-].
Qed.

Lemma keeps_store fields var name (rhs : M frame pyval) :
  keeps fields rhs → keeps fields (store var name rhs).
Proof. intros Hr. apply keeps_bind; [done|]. intros v. apply keeps_setattr. Qed.

Lemma keeps_store_in fields var name sub (rhs : M frame pyval) :
  keeps fields rhs → keeps fields (store_in var name sub rhs).
Proof.
  intros Hr. apply keeps_bind; [done|]. intros v.
  apply keeps_vars. intros fr r fr'.
  unfold get_var, set_var, lift, modify, raise, mbind, M_bind.
  destruct (vars fr !! var) as [[]|]; simpl; try by intros [= <- <-].
  destruct (_ !! name) as [[]|]; simpl; try by intros [= <- <-].
  destruct (setattr_check _ _ _); simpl; by intros [= <- <-].
Qed.

Lemma keeps_when fields (cond : bool) (body : M frame unit) :
  keeps fields body → keeps fields (when cond body).
Proof. intros Hb. destruct cond; [done|]. apply keeps_ret. Qed.

Lemma keeps_for_range fields n (body : M frame unit) :
  keeps fields body → keeps fields (for_range n body).
Proof.
  intros Hb. unfold for_range. induction (Z.to_nat n) as [|k IH]; simpl.
  - apply keeps_ret.
  - apply keeps_bind; [done|]. by intros _.
Qed.

Lemma keeps_next_tag_value fields : keeps fields next_tag_value.
Proof.
  apply keeps_bind; [apply keeps_reader, reader_next|]. intros tag.
  apply keeps_bind; [apply keeps_reader, reader_next|]. intros value.
  apply keeps_ret.
Qed.

End cursor.

Ltac keeps_cursor :=
  repeat first
    [ assumption
    | match goal with Hk : ∀ _, keeps _ _ |- keeps _ _ => apply Hk end
    | apply keeps_bind; [|intros ?]
    | apply keeps_ret
    | apply keeps_raise
    | apply keeps_lift
    | apply keeps_store
    | apply keeps_store_in
    | apply keeps_when
    | apply keeps_for_range
    | apply keeps_next_tag_value
    | apply keeps_reader, reader_next
    | apply keeps_reader, reader_next_int
    | apply keeps_reader, reader_next_int_z
    | apply keeps_reader, reader_next_float
    | apply keeps_reader, reader_next_bool
    | apply keeps_reader, reader_next_bool_b
    | apply keeps_skip; lia
    | apply keeps_set_var
    | apply keeps_get_var
    | apply keeps_new
    | apply keeps_getattr
    | apply keeps_setattr
    | apply keeps_append_to
    | match goal with
      | |- keeps _ (if ?b then _ else _) => destruct b
      | |- keeps _ (match ?x with _ => _ end) => destruct x
      end ].
End DecodeSpec.

(** ** The order decoders and [parse_contract_details] *)

Module OrderGrammarSpec.
Import Decode DecodeSpec OrderGrammar OrderDecoders.

Section grammar.
Context `{ObjEnv}.
Implicit Types (fr : frame) (fields : list string).

Lemma cursor_ok_start fields : cursor_ok fields (start fields).
Proof. unfold cursor_ok, start, position. simpl. repeat split; lia. Qed.

Lemma keeps_to_float fields v : keeps fields (PriceSizeTickMessage.to_float v).
Proof. unfold PriceSizeTickMessage.to_float. keeps_cursor. Qed.

Lemma keeps_scale_fields fields : keeps fields scale_fields.
Proof.
  unfold scale_fields, is_set_positive.
  pose proof (keeps_to_float fields). keeps_cursor.
Qed.

Lemma keeps_before_hedge fields d sv : keeps fields (before_hedge d sv).
Proof.
  pose proof (keeps_scale_fields fields).
  destruct d; unfold before_hedge, OpenOrderMessage.before_hedge,
    CompletedOrderMessage.before_hedge, new_order, new_contract,
    new_order_state, contract_fields, fa_profile, combo_legs,
    order_combo_legs, smart_combo_routing_params;
    keeps_cursor.
Qed.

Lemma keeps_hedge_fields fields : keeps fields hedge_fields.
Proof. unfold hedge_fields. keeps_cursor. Qed.

Lemma keeps_after_hedge fields d :
  keeps fields (match d with
                | OpenOrder => OpenOrderMessage.after_hedge
                | CompletedOrder => CompletedOrderMessage.after_hedge
                end).
Proof.
  destruct d; unfold OpenOrderMessage.after_hedge,
    CompletedOrderMessage.after_hedge, delta_neutral_contract, algo_strategy,
    peg_bench_fields, conditions;
    keeps_cursor.
Qed.

Lemma keeps_before_min_trade fields d sv : keeps fields (before_min_trade d sv).
Proof.
  pose proof (keeps_before_hedge fields OpenOrder sv).
  pose proof (keeps_before_hedge fields CompletedOrder sv).
  pose proof (keeps_hedge_fields fields).
  pose proof (keeps_after_hedge fields OpenOrder).
  pose proof (keeps_after_hedge fields CompletedOrder).
  destruct d; unfold before_min_trade, OpenOrderMessage.before_min_trade,
    CompletedOrderMessage.before_min_trade,
    OpenOrderMessage.early_version_fields;
    simpl in *; keeps_cursor.
Qed.

End grammar.
End OrderGrammarSpec.

(** ** Price/size ticks *)

Module PriceSizeTickSpec.
Import Decode DecodeSpec MessageRegistry MessageDispatcher.

Section tick.
Context `{ObjEnv} {W : Type}.
Context (req_id : pyval → option Z).
Context (wrapper_getattr : W → string → option (list (arg pyval) → M W unit)).

(** A record whose fifth token (after the tag, the version, the request id
    and the tick type) is empty decodes to no message. *)
Lemma from_fields_empty_price (fields : list string) (sv : Z) :
  fields !! 4%nat = Some "" →
  PriceSizeTickMessage.from_fields fields sv = Ok None.
Proof.
  intros Hprice.
  pose proof (lookup_lt_Some _ _ _ Hprice) as Hlen.
  unfold PriceSizeTickMessage.from_fields, run, PriceSizeTickMessage.body.
  unfold mbind at 1. unfold M_bind at 1.
  destruct (skip 2 (start fields)) as [r1 fr1] eqn:E1.
  assert (Hok1 : cursor_ok fields fr1)
    by (eapply (keeps_skip fields 2); [lia | apply OrderGrammarSpec.cursor_ok_start | exact E1]).
  assert (Hp1 : position fr1 = 2).
  { injection E1 as <- <-. unfold position. simpl. lia. }
  assert (r1 = Ok tt) as -> by (by injection E1 as <- _).
  unfold mbind at 1. unfold M_bind at 1.
  destruct (reader_next_int fields fr1 Hok1) as [req Ereq]. rewrite Ereq.
  destruct (advance_ok fields fr1 Hok1) as [Hok2 Hp2].
  unfold mbind at 1. unfold M_bind at 1.
  destruct (reader_next_int fields _ Hok2) as [tt_ Ett]. rewrite Ett.
  destruct (advance_ok fields _ Hok2) as [Hok3 Hp3].
  unfold mbind at 1. unfold M_bind at 1.
  rewrite (next_run fields) by done.
  destruct (advance_ok fields _ Hok3) as [Hok4 Hp4].
  assert (Htok : current_token (advance (advance fr1)) = "").
  { unfold current_token. destruct Hok3 as (-> & _).
    rewrite Hp3, Hp2, Hp1.
    replace (Z.to_nat (Z.min (Z.min (2 + 1) (Z.of_nat (List.length fields)) + 1)
                         (Z.of_nat (List.length fields)))) with 4%nat by lia.
    by rewrite Hprice. }
  rewrite Htok.
  unfold mbind at 1. unfold M_bind at 1.
  rewrite (next_run fields) by done.
  done.
Qed.

(** C5.  For every record with tag 1 whose price token is the empty
    string, [PriceSizeTickMessage.from_fields] returns [None]; and on a
    dispatcher (without pre-processors) whose registry has
    [PriceSizeTickMessage] under tag 1, [dispatch] of that record returns
    [None], calls no handler and no wrapper method, leaves the wrapper as
    it was and does not count the record as failed. *)
Theorem empty_price_tick_suppressed
    (self : MessageDispatcher.t pyval W) (elapsed : float)
    (fields : list string) (cls : msg_class pyval) :
  pre_processors self = [] →
  tag_of fields = Some 1 →
  get_message_class 1 (registry self) = Some cls →
  from_fields cls = PriceSizeTickMessage.from_fields →
  fields !! 4%nat = Some "" →
  PriceSizeTickMessage.from_fields fields (server_version self) = Ok None
  ∧ ∃ self', dispatch req_id wrapper_getattr elapsed fields self = (Ok None, self')
      ∧ new_invocations self self' = []
      ∧ wrapper self' = wrapper self
      ∧ messages_failed (stats self') = messages_failed (stats self).
Proof.
  intros Hpre Htag Hcls Hff Hprice.
  pose proof (from_fields_empty_price fields (server_version self) Hprice) as Hnone.
  split; [done|].
  destruct (MessageDispatcherSpec.dispatch_suppressed req_id wrapper_getattr
              elapsed fields fields 1 cls self) as (self' & ? & ? & ? & ? & _);
    [done | by rewrite Hpre | done | by rewrite Hff |].
  by exists self'.
Qed.
End tick.
End PriceSizeTickSpec.

(** ** Contract resolution *)

Module ContractAdapterSpec.
Import Pydantic ContractModels ContractAdapter.

Section adapter.
Context `{PydanticEnv}.

(** The attribute dictionaries of the specification's two examples. *)
Lemma unknown_tag_not_in_union :
  list_to_map (M := gmap string (string * list field)) specialized !! "XYZ" = None.
Proof. vm_compute. reflexivity. Qed.

(** [security_type] of the base [Contract] is a [SecurityType] or [None]:
    the string ["XYZ"] is neither. *)
Lemma base_contract_rejects_unknown_security_type :
  model_validate "Contract" Contract {["security_type" := VStr "XYZ"]}
  = Raise ValidationError.
Proof.
  vm_compute. reflexivity.
Qed.

(** C8, at the failing input.  On [{security_type: "XYZ"}] the
    discriminated union has no member, and the fall-back
    [Contract.model_validate] raises [ValidationError], which leaves
    [ContractAdapter.parse]. *)
Theorem unknown_security_type_raises :
  parse {["security_type" := VStr "XYZ"]} = Raise ValidationError.
Proof.
  unfold parse, validate_python.
  rewrite lookup_singleton_eq, unknown_tag_not_in_union.
  apply base_contract_rejects_unknown_security_type.
Qed.

(** The other example of the specification resolves as it says:
    [{security_type: "OPT", strike: 100, option_type: "C"}] gives an
    [Option]. *)
Lemma option_resolves :
  ∃ attrs,
    parse (<["security_type" := VStr "OPT"]>
           (<["strike" := VInt 100]> {["option_type" := VStr "C"]}))
    = Ok (VObj "Option" attrs)
    ∧ attrs !! "strike" = Some (VDecimal (inject_Z 100))
    ∧ attrs !! "option_type" = Some (VStr "C").
Proof.
  eexists. split; [|split].
  - vm_compute. reflexivity.
  - vm_compute. reflexivity.
  - vm_compute. reflexivity.
Qed.
End adapter.
End ContractAdapterSpec.

(** ** The model run on records *)

Module Runs.
Import Example_env Examples.
Import MessageRegistry MessageDispatcher.

(** The test suite's [test_type_conversions]. *)
Example type_conversions :
  let it0 := FieldIterator.__init__ ["42"; "3.14"; "1"; ""; "text"] 0 in
  let '(a, it1) := FieldIterator.next_int 0 it0 in
  let '(b, it2) := FieldIterator.next_float 0%Q it1 in
  let '(c, it3) := FieldIterator.next_bool false it2 in
  let '(d, it4) := FieldIterator.next_int 99 it3 in
  let '(e, it5) := FieldIterator.next "" false it4 in
  a = Ok 42 ∧ b = Ok (314 # 100) ∧ c = Ok true ∧ d = Ok 99
  ∧ e = Ok (FieldIterator.Tok "text").
Proof. vm_compute. repeat split. Qed.

(** The test suite's [test_dispatch_valid_message]: the record
    [2, 789, 5, 2500.5] is decoded to a [TickSizeMessage] and the handler
    calls [tickSize(789, 5, 2500.5)] once. *)
Example dispatch_tick_size :
  let run := Examples.dispatch tick_size_record dispatcher in
  match run.1 with
  | Ok (Some m) => [attr "req_id" m; attr "tick_type" m; attr "size" m]
  | _ => []
  end = [VInt 789; VInt 5; VFloat (25005 # 10)]
  ∧ wrapper run.2 = [("tickSize", [VInt 789; VInt 5; VFloat (25005 # 10)])]
  ∧ messages_processed (stats run.2) = 1
  ∧ messages_failed (stats run.2) = 0.
Proof. repeat split; vm_compute; reflexivity. Qed.
(** The test suite's [test_dispatch_unknown_message] and the registry
    test: 9999 is not a registered tag, 1 is [PriceSizeTickMessage]. *)
Lemma package_has_no_9999 :
  get_message_class 9999 (registry dispatcher) = None.
Proof. vm_compute. reflexivity. Qed.

Lemma package_tag_1 :
  get_message_class 1 (registry dispatcher) = Some PriceSizeTickMessage.cls.
Proof. reflexivity. Qed.

(** C1 has its counterexample with the registry; here are the others. *)

(** C3, witness: on the record [a, 42] a cursor at position -1 is at the
    last token; [next_int()] returns 42 and the position becomes 0. *)
Lemma typed_accessors_never_raise_witness :
  - Z.of_nat (List.length ["a"; "42"]) ≤ -1
  ∧ py_getitem ["a"; "42"] (-1) = Ok "42"
  ∧ FieldIterator.next_int 0 (FieldIterator.__init__ ["a"; "42"] (-1))
    = (Ok 42, FieldIterator.__init__ ["a"; "42"] 0).
Proof.
  assert (Hlo : - Z.of_nat (List.length ["a"; "42"]) ≤ -1) by (simpl; lia).
  split; [exact Hlo|]. split; [reflexivity|].
  pose proof (FieldIteratorSpec.typed_accessors_never_raise ["a"; "42"] (-1) Hlo)
    as Hthm.
  change (py_getitem ["a"; "42"] (-1)) with (Ok (A:=string) "42") in Hthm.
  destruct Hthm as (_ & Hint & _).
  destruct (Hint 0) as (r & Hr & _ & Hval).
  rewrite Hr. rewrite (Hval 42); [reflexivity|discriminate|reflexivity].
Defined.

(** C3, counterexample: a cursor over the record [a] at position -2,
    where [FieldIterator(['a'], -2)] and [skip(-2)] put it.  The position
    is below the length, so the accessors index the list, and [-2] is
    outside it: [IndexError] leaves [next_int], [next_float] and
    [next_bool], which catch [ValueError] and [TypeError] only. *)
Lemma typed_accessors_raise_below_minus_length :
  let it := FieldIterator.__init__ ["a"] (-2) in
  (FieldIterator.skip (-2) (FieldIterator.__init__ ["a"] 0)).2 = it
  ∧ FieldIterator.next_int 0 it = (Raise IndexError, it)
  ∧ FieldIterator.next_float 0%Q it = (Raise IndexError, it)
  ∧ FieldIterator.next_bool false it = (Raise IndexError, it).
Proof. repeat split; reflexivity. Qed.

(** C4, witness: a cursor over two tokens, after [next()], [skip(5)] and
    [peek()], is at the end, and a further [peek()] gives [None]. *)
Lemma position_never_exceeds_length_witness :
  0 ≤ Z.of_nat (List.length ["a"; "b"])
  ∧ let it :=
      FieldIterator.after_all
        [FieldIterator.CallNext false; FieldIterator.CallSkip 5;
         FieldIterator.CallPeek 0]
        (FieldIterator.__init__ ["a"; "b"] 0) in
    FieldIterator.index it ≤ FieldIterator.length it
    ∧ FieldIterator.peek 0 it = (Ok None, it).
Proof.
  assert (H0 : 0 ≤ Z.of_nat (List.length ["a"; "b"])) by (simpl; lia).
  split; [exact H0|].
  destruct (FieldIteratorSpec.position_never_exceeds_length ["a"; "b"] 0
              [FieldIterator.CallNext false; FieldIterator.CallSkip 5;
               FieldIterator.CallPeek 0] H0) as (Hle & _ & Hreads).
  split; [exact Hle|].
  destruct Hreads as (_ & _ & _ & _ & _ & Hpeek); [reflexivity|].
  apply Hpeek. lia.
Defined.

(** C4, counterexample: once [next()] has taken the only token of a
    record the position has reached the length, and [peek(-1)] returns
    that token, not [None]. *)
Lemma peek_behind_returns_a_token :
  let it := FieldIterator.after_all [FieldIterator.CallNext false]
              (FieldIterator.__init__ ["a"] 0) in
  FieldIterator.index it = FieldIterator.length it
  ∧ FieldIterator.peek (-1) it = (Ok (Some "a"), it).
Proof. split; vm_compute; reflexivity. Qed.

(** C5, witness: the test suite's record with an empty price, on the
    package's registry. *)
Lemma empty_price_tick_suppressed_witness :
  pre_processors dispatcher = []
  ∧ tag_of empty_price_record = Some 1
  ∧ get_message_class 1 (registry dispatcher) = Some PriceSizeTickMessage.cls
  ∧ from_fields PriceSizeTickMessage.cls = PriceSizeTickMessage.from_fields
  ∧ empty_price_record !! 4%nat = Some ""
  ∧ PriceSizeTickMessage.from_fields empty_price_record 0 = Ok None
  ∧ ∃ d', Examples.dispatch empty_price_record dispatcher = (Ok None, d')
          ∧ wrapper d' = [].
Proof.
  assert (H1 : pre_processors dispatcher = []) by reflexivity.
  assert (H2 : tag_of empty_price_record = Some 1) by reflexivity.
  assert (H3 : get_message_class 1 (registry dispatcher)
               = Some PriceSizeTickMessage.cls) by reflexivity.
  assert (H4 : from_fields PriceSizeTickMessage.cls
               = PriceSizeTickMessage.from_fields) by reflexivity.
  assert (H5 : empty_price_record !! 4%nat = Some "") by reflexivity.
  repeat (split; [assumption|]).
  destruct (PriceSizeTickSpec.empty_price_tick_suppressed req_id mock_getattr
              dispatcher 0%Q empty_price_record PriceSizeTickMessage.cls
              H1 H2 H3 H4 H5) as (Hnone & d' & Hd & _ & Hw & _).
  split; [exact Hnone|]. exists d'. split; [exact Hd|]. rewrite Hw. reflexivity.
Defined.

(** C9, witness: the test suite's record with tag 9999, on the package's
    registry. *)
Lemma unknown_tag_counted_not_handled_witness :
  tag_of unknown_record = Some 9999
  ∧ (9999 ∉ dom (_message_classes (registry dispatcher)))
  ∧ (∃ fields', run_pre_processors (pre_processors dispatcher) unknown_record
                = Ok fields')
  ∧ ∃ d', Examples.dispatch unknown_record dispatcher = (Ok None, d')
          ∧ unknown_messages (stats d') = 1
          ∧ wrapper d' = [].
Proof.
  assert (H1 : tag_of unknown_record = Some 9999) by reflexivity.
  assert (H2 : 9999 ∉ dom (_message_classes (registry dispatcher))).
  { apply not_elem_of_dom. exact package_has_no_9999. }
  assert (H3 : ∃ fields', run_pre_processors (pre_processors dispatcher)
                            unknown_record = Ok fields')
    by (eexists; reflexivity).
  repeat (split; [assumption|]).
  destruct (MessageDispatcherSpec.unknown_tag_counted_not_handled
              req_id mock_getattr dispatcher 0%Q unknown_record 9999 H1 H2 H3)
    as (_ & d' & Hd & Hu & _ & _ & Hw).
  exists d'. split; [exact Hd|]. split; [rewrite Hu; reflexivity|].
  rewrite Hw. reflexivity.
Defined.
End Runs.

(** ** The field cursor: the remaining methods *)

Module FieldIteratorMore.
Import FieldIterator FieldIteratorSpec.

Lemma py_slice_from_in_range {A} (l : list A) (i : Z) :
  0 ≤ i ≤ Z.of_nat (List.length l) → py_slice_from l i = drop (Z.to_nat i) l.
Proof.
  intros Hi. unfold py_slice_from.
  destruct (Z.ltb_spec i 0); [lia|]. f_equal. lia.
Qed.

(** X1.  On a cursor whose position is between 0 and its length,
    [consume_rest()] returns exactly the unread tokens: the tokens before
    the position followed by the result are the whole record, and the
    result has as many tokens as [remaining()] announced.  It leaves the
    cursor exhausted: [has_more()] is [False], [remaining()] is 0,
    [next()] returns its default and a second [consume_rest()] returns
    the empty list. *)
Theorem consume_rest_returns_unread_tokens (it : t) :
  in_order it →
  ∃ rest it',
    consume_rest it = (Ok rest, it')
    ∧ take (Z.to_nat (index it)) (fields it) ++ rest = fields it
    ∧ remaining it = (Ok (Z.of_nat (List.length rest)), it)
    ∧ in_order it'
    ∧ has_more it' = (Ok false, it')
    ∧ remaining it' = (Ok 0, it')
    ∧ (∀ (D : Type) (d : D) (e : bool), next d e it' = (Ok (Dflt d), it'))
    ∧ consume_rest it' = (Ok [], it').
Proof.
  intros [Hwf Hi]. eexists _, _. split; [reflexivity|].
  rewrite py_slice_from_in_range by (rewrite <- Hwf; lia).
  split; [apply take_drop|].
  split.
  { unfold remaining, gets. do 2 f_equal. rewrite length_drop.
    rewrite Hwf in *. lia. }
  split; [split; [done|simpl; lia]|].
  split.
  { unfold has_more, gets. simpl. by rewrite bool_decide_eq_false_2 by lia. }
  split.
  { unfold remaining, gets. simpl. do 2 f_equal. lia. }
  split.
  { intros. apply next_exhausted. simpl. lia. }
  unfold consume_rest. simpl.
  rewrite py_slice_from_in_range by (rewrite <- Hwf; lia).
  rewrite drop_ge by (rewrite Hwf; lia).
  by destruct it.
Qed.

Section more.
Context `{PyEnv}.

Lemma moved_in_order it : in_order it → in_order (moved it).
Proof. intros [Hwf Hi]. split; [done|]. simpl. lia. Qed.

Lemma after_next_in_order it e :
  in_order it → after (CallNext e) it = moved it.
Proof.
  intros Hin. simpl.
  destruct (in_order_cases it Hin) as [(tok & Htok & ->)|(Hnone & Hge & ->)].
  - destruct Hin as [Hwf Hi]. by rewrite (next_token _ _ _ tok) by (done || lia).
  - by rewrite next_exhausted.
Qed.

(** X2.  On a cursor whose position is between 0 and its length,
    [skip(n)] for [n >= 0] leaves the cursor exactly where [n] calls of
    [next()] leave it, and [remaining()] is then
    [max(0, length - position - n)], for the position before the call. *)
Theorem skip_is_repeated_next (it : t) (n : nat) :
  in_order it →
  skip (Z.of_nat n) it
  = (Ok tt, after_all (replicate n (CallNext false)) it)
  ∧ remaining (after_all (replicate n (CallNext false)) it)
    = (Ok (Z.max 0 (length it - index it - Z.of_nat n)),
       after_all (replicate n (CallNext false)) it).
Proof.
  intros Hin.
  assert (Hall : ∀ n it, in_order it →
    after_all (replicate n (CallNext false)) it
    = set_index (Z.min (index it + Z.of_nat n) (length it)) it).
  { clear. intros n. induction n as [|n IH]; intros it Hin.
    - simpl. destruct Hin as [Hwf Hi].
      replace (Z.min (index it + Z.of_nat 0) (length it)) with (index it) by lia.
      by destruct it.
    - change (after_all (replicate (S n) (CallNext false)) it)
        with (after_all (replicate n (CallNext false)) (after (CallNext false) it)).
      rewrite after_next_in_order by done.
      rewrite IH by by apply moved_in_order.
      destruct Hin as [Hwf Hi]. unfold set_index. simpl. f_equal. lia. }
  rewrite Hall by done. split; [done|].
  unfold remaining, gets. simpl. do 2 f_equal.
  destruct Hin as [Hwf Hi]. lia.
Qed.
End more.

(** X3.  On a cursor whose position is between 0 and its length,
    [peek(k)] for [k >= 0] returns the token [k] places after the
    position, or [None] when there is none, and leaves the cursor as it
    was; when there is such a token it is the one that [next()] returns
    after [skip(k)]. *)
Theorem peek_looks_ahead_without_moving (it : t) (k : nat) :
  in_order it →
  peek (Z.of_nat k) it = (Ok (fields it !! (Z.to_nat (index it) + k)%nat), it)
  ∧ (∀ tok, fields it !! (Z.to_nat (index it) + k)%nat = Some tok →
       next "" false (skip (Z.of_nat k) it).2
       = (Ok (Tok tok), set_index (index it + Z.of_nat k + 1) it)).
Proof.
  intros [Hwf Hi]. split.
  - unfold peek. simpl.
    destruct (Z.ltb_spec (index it + Z.of_nat k) (length it)) as [Hlt|Hge].
    + destruct (lookup_lt_is_Some_2 (fields it) (Z.to_nat (index it) + k))
        as [tok Htok]; [rewrite Hwf in Hlt; lia|].
      rewrite Htok.
      rewrite (py_getitem_in_range _ _ tok); [done|lia|].
      by replace (Z.to_nat (index it + Z.of_nat k)) with (Z.to_nat (index it) + k)%nat by lia.
    + rewrite (proj2 (lookup_ge_None _ _)); [done|]. rewrite Hwf in Hge. lia.
  - intros tok Htok. pose proof (lookup_lt_Some _ _ _ Htok) as Hlt.
    unfold skip, modify. simpl.
    replace (Z.min (index it + Z.of_nat k) (length it)) with (index it + Z.of_nat k)
      by (rewrite Hwf; lia).
    rewrite (next_token _ _ _ tok); simpl; [done|done|lia|].
    by replace (Z.to_nat (index it + Z.of_nat k)) with (Z.to_nat (index it) + k)%nat by lia.
Qed.

(** X4.  [skip] has no lower bound.  On a new cursor [skip(-k)], for
    [k >= 1], makes the position [-k].  The [next()] that follows indexes
    the list from its end: when the record has at least [k] tokens it
    returns the [k]-th token from the end and the position becomes
    [1 - k]; when the record has fewer it raises [IndexError] and the
    position stays [-k]. *)
Theorem skip_has_no_lower_bound (fs : list string) (k : nat) :
  (1 ≤ k)%nat →
  let it := (skip (- Z.of_nat k) (__init__ fs 0)).2 in
  index it = - Z.of_nat k
  ∧ (∀ tok, fs !! (List.length fs - k)%nat = Some tok → (k ≤ List.length fs)%nat →
       next "" false it = (Ok (Tok tok), set_index (1 - Z.of_nat k) it))
  ∧ ((List.length fs < k)%nat → next "" false it = (Raise IndexError, it)).
Proof.
  intros Hk it.
  assert (Hidx : index it = - Z.of_nat k) by (simpl; lia).
  split; [done|].
  unfold next. rewrite Hidx.
  change (length it) with (Z.of_nat (List.length fs)).
  change (fields it) with fs.
  destruct (Z.ltb_spec (- Z.of_nat k) (Z.of_nat (List.length fs))); [|lia].
  unfold py_getitem.
  destruct (Z.ltb_spec (- Z.of_nat k) 0); [|lia].
  split.
  - intros tok Htok Hle.
    destruct (Z.leb_spec 0 (- Z.of_nat k + Z.of_nat (List.length fs))); [|lia].
    destruct (Z.ltb_spec (- Z.of_nat k + Z.of_nat (List.length fs))
                (Z.of_nat (List.length fs))); [|lia].
    simpl.
    replace (Z.to_nat (- Z.of_nat k + Z.of_nat (List.length fs)))
      with (List.length fs - k)%nat by lia.
    rewrite Htok. simpl. do 2 f_equal. unfold set_index. f_equal. lia.
  - intros Hgt.
    by destruct (Z.leb_spec 0 (- Z.of_nat k + Z.of_nat (List.length fs))); [lia|].
Qed.
End FieldIteratorMore.

(** ** The registry: lookups, and the registry of the package *)

Module MessageRegistryMore.
Import MessageRegistry.

Section registry.
Context {Msg W : Type}.
Implicit Types (self : MessageRegistry.t Msg W) (cls : msg_class Msg) (func : handler Msg W).

(** X5.  A new registry finds no class and no handler.
    [register_message(msg_id)(cls)] returns the class (same name, same
    decoder), after which [get_message_class(msg_id)] is that class, the
    class of every other tag and every handler are as before, and
    [list_registered_messages()] has the entry [msg_id: name] added or
    replaced.  [register_handler(cls)(func)] returns [func], after which
    [get_handler(cls)] is [func], the handler of every class of another
    name and every registered class are as before, and
    [list_registered_handlers()] has the entry for the class's name added
    or replaced. *)
Theorem registration_is_found_and_leaves_the_rest
    (self : MessageRegistry.t Msg W) (msg_id : Z) (cls : msg_class Msg)
    (message_cls : msg_class Msg) (func : handler Msg W) :
  get_message_class msg_id (__init__ (Msg:=Msg) (W:=W)) = None
  ∧ get_handler message_cls (__init__ (Msg:=Msg) (W:=W)) = None
  ∧ (∃ registered self',
       register_message msg_id cls self = (Ok registered, self')
       ∧ __name__ registered = __name__ cls
       ∧ from_fields registered = from_fields cls
       ∧ get_message_class msg_id self' = Some registered
       ∧ (∀ other, other ≠ msg_id →
            get_message_class other self' = get_message_class other self)
       ∧ (∀ c, get_handler c self' = get_handler c self)
       ∧ list_registered_messages self'
         = <[msg_id := __name__ cls]> (list_registered_messages self))
  ∧ (∃ self',
       register_handler message_cls func self = (Ok func, self')
       ∧ get_handler message_cls self' = Some func
       ∧ (∀ c, __name__ c ≠ __name__ message_cls →
            get_handler c self' = get_handler c self)
       ∧ (∀ other, get_message_class other self' = get_message_class other self)
       ∧ list_registered_handlers self'
         = <[__name__ message_cls := func_name func]> (list_registered_handlers self)).
Proof.
  split; [done|]. split; [done|]. split.
  - eexists _, _. split; [reflexivity|]. simpl.
    split; [done|]. split; [done|].
    unfold get_message_class, get_handler, list_registered_messages. simpl.
    split; [apply lookup_insert_eq|].
    split; [intros other Hne; by apply lookup_insert_ne|].
    split; [done|]. by rewrite fmap_insert.
  - eexists. split; [reflexivity|].
    unfold get_message_class, get_handler, list_registered_handlers. simpl.
    split; [apply lookup_insert_eq|].
    split; [intros c Hne; by apply lookup_insert_ne|].
    split; [done|]. by rewrite fmap_insert.
Qed.
End registry.

Section package.
Context {Msg W : Type}.
Context (decoder : string → list string → Z → outcome (option Msg)).
Context (handler_body : string → Msg → M W unit).

Local Abbreviation registry := (Package.registry decoder handler_body).

(** The names the registry lists after the registrations of a table. *)
Lemma listed_after_registrations (tab : list (Z * string * string))
    (r : MessageRegistry.t Msg W) :
  list_registered_messages (foldl (Package.register decoder handler_body) r tab)
  = foldl (λ m e, <[e.1.1 := e.1.2]> m) (list_registered_messages r) tab
  ∧ list_registered_handlers (foldl (Package.register decoder handler_body) r tab)
    = foldl (λ m e, <[e.1.2 := e.2]> m) (list_registered_handlers r) tab.
Proof.
  revert r. induction tab as [|[[msg_id name] func] tab IH]; intros r; [done|].
  change (foldl (Package.register decoder handler_body) r ((msg_id, name, func) :: tab))
    with (foldl (Package.register decoder handler_body)
            (Package.register decoder handler_body r (msg_id, name, func)) tab).
  destruct (IH (Package.register decoder handler_body r (msg_id, name, func)))
    as [-> ->].
  unfold Package.register, register_message, register_handler,
    list_registered_messages, list_registered_handlers. simpl.
  by rewrite !fmap_insert.
Qed.

Lemma listed_comes_from_the_table (tab : list (Z * string * string))
    (m0 : gmap Z string) (msg_id : Z) (name : string) :
  foldl (λ m e, <[e.1.1 := e.1.2]> m) m0 tab !! msg_id = Some name →
  (∃ func, (msg_id, name, func) ∈ tab) ∨ m0 !! msg_id = Some name.
Proof.
  revert m0. induction tab as [|[[i n] f] tab IH]; intros m0; [by right|].
  simpl. intros Hl. destruct (IH _ Hl) as [[func Hin]|Hm].
  - left. exists func. by right.
  - simpl in Hm. destruct (decide (i = msg_id)) as [->|Hne].
    + rewrite lookup_insert_eq in Hm. injection Hm as ->. left. exists f. by left.
    + rewrite lookup_insert_ne in Hm by done. by right.
Qed.

(** X6.  The registry of the package, once [ib_insync.decoders] is
    imported, has 82 message classes and 82 handlers: no two
    registrations share a tag or a class name, every registration of the
    package is found under its tag and its class name, and every
    registered class has a registered handler. *)
Theorem package_registers_a_handler_for_every_class :
  size (list_registered_messages registry) = 82%nat
  ∧ size (list_registered_handlers registry) = 82%nat
  ∧ (∀ msg_id name func, (msg_id, name, func) ∈ Package.registered →
       list_registered_messages registry !! msg_id = Some name
       ∧ list_registered_handlers registry !! name = Some func)
  ∧ ∀ msg_id name,
      list_registered_messages registry !! msg_id = Some name →
      ∃ func, (msg_id, name, func) ∈ Package.registered
              ∧ list_registered_handlers registry !! name = Some func.
Proof.
  unfold Package.registry.
  destruct (listed_after_registrations Package.registered __init__) as [-> ->].
  change (list_registered_messages __init__) with (∅ : gmap Z string).
  change (list_registered_handlers __init__) with (∅ : gmap string string).
  assert (Hall : ∀ msg_id name func, (msg_id, name, func) ∈ Package.registered →
    foldl (λ m e, <[e.1.1 := e.1.2]> m) (∅ : gmap Z string) Package.registered
      !! msg_id = Some name
    ∧ foldl (λ m e, <[e.1.2 := e.2]> m) (∅ : gmap string string) Package.registered
      !! name = Some func).
  { assert (Hf : Forall (λ e : Z * string * string,
      foldl (λ m e, <[e.1.1 := e.1.2]> m) (∅ : gmap Z string) Package.registered
        !! e.1.1 = Some e.1.2
      ∧ foldl (λ m e, <[e.1.2 := e.2]> m) (∅ : gmap string string) Package.registered
        !! e.1.2 = Some e.2) Package.registered).
    { apply (bool_decide_unpack _). by vm_compute. }
    rewrite Forall_forall in Hf. intros msg_id name func Hin.
    exact (Hf _ Hin). }
  split; [by vm_compute|]. split; [by vm_compute|]. split; [done|].
  intros msg_id name Hl.
  destruct (listed_comes_from_the_table _ _ _ _ Hl) as [[func Hin]|Hm]; [|done].
  exists func. split; [done|]. by apply (Hall msg_id name func).
Qed.
End package.
End MessageRegistryMore.

(** ** The dispatcher: processors, handlers and the wrapper *)

Module MessageDispatcherMore.
Import MessageRegistry MessageDispatcher MessageDispatcherSpec.

Section dispatcher.
Context `{PyEnv} {Msg W : Type}.
Context (req_id : Msg → option Z).
Context (wrapper_getattr : W → string → option (list (arg Msg) → M W unit)).

Local Abbreviation dispatch := (dispatch req_id wrapper_getattr).
Local Abbreviation perform_all := (perform_all req_id wrapper_getattr).
Local Abbreviation perform := (perform req_id wrapper_getattr).
Implicit Types (self : MessageDispatcher.t Msg W) (fields : list string).

Ltac open_dispatch E0 Htag :=
  unfold MessageDispatcher.dispatch, MessageDispatcher.dispatch_record;
  rewrite E0, Htag;
  unfold lift_outcome, modify, gets, try_except, on_wrapper,
    mbind, M_bind, mret, M_ret; simpl.

(** X7.  [dispatch] does not catch what a processor raises.  For a
    record whose tag parses, an exception raised by a pre-processor, or
    by a post-processor once the handler has returned, leaves [dispatch]
    as that exception.  The record has then been counted as processed and
    is not counted as failed, and the elapsed time has been added to
    [processing_time]; in the first case nothing was called and the
    wrapper is as before, in the second the handler has been called once
    with the message. *)
Theorem processor_exceptions_escape_dispatch
    (self : MessageDispatcher.t Msg W) (elapsed : float) (fields : list string)
    (msg_id : Z) :
  tag_of fields = Some msg_id →
  let self' := (dispatch elapsed fields self).2 in
  (∀ e, run_pre_processors (pre_processors self) fields = Raise e →
     dispatch elapsed fields self = (Raise e, self')
     ∧ messages_processed (stats self') = messages_processed (stats self) + 1
     ∧ messages_failed (stats self') = messages_failed (stats self)
     ∧ processing_time (stats self') = float_add (processing_time (stats self)) elapsed
     ∧ new_invocations self self' = []
     ∧ wrapper self' = wrapper self)
  ∧ (∀ fields' cls m h w' e,
       run_pre_processors (pre_processors self) fields = Ok fields' →
       get_message_class msg_id (registry self) = Some cls →
       from_fields cls fields' (server_version self) = Ok (Some m) →
       get_handler cls (registry self) = Some h →
       call h m (wrapper self) = (Ok tt, w') →
       run_post_processors (post_processors self) m = Raise e →
       dispatch elapsed fields self = (Raise e, self')
       ∧ messages_processed (stats self') = messages_processed (stats self) + 1
       ∧ messages_failed (stats self') = messages_failed (stats self)
       ∧ processing_time (stats self') = float_add (processing_time (stats self)) elapsed
       ∧ new_invocations self self' = [Handler (func_name h) m]
       ∧ wrapper self' = w').
Proof.
  intros Htag self'.
  unfold tag_of in Htag. destruct fields as [|field0 rest]; [done|].
  destruct (bool_decide (field0 = "")) eqn:E0; [done|].
  split.
  - intros e He. subst self'.
    destruct self as [w sv r st mc pre post inv]. simpl in *.
    open_dispatch E0 Htag. rewrite He. simpl. repeat split.
    unfold new_invocations. simpl. apply drop_all.
  - intros fields' cls m h w' e Hpre Hcls Hm Hh Hcall Hpost. subst self'.
    destruct self as [w sv r st mc pre post inv]. simpl in *.
    open_dispatch E0 Htag. rewrite Hpre. simpl. rewrite Hcls. simpl.
    rewrite Hm, Hh. simpl. rewrite Hcall. simpl. rewrite Hpost. simpl.
    repeat split. unfold new_invocations. simpl. apply drop_app_length.
Qed.

(** X8.  When the tag of a record has a registered class, the
    class's decoder returns a message on the pre-processed record, the
    class has a registered handler that returns, and no post-processor
    raises, [dispatch] returns the message, calls that handler once with
    the message and calls nothing else, and counts the record as
    processed, not as failed and not as unknown. *)
Theorem dispatch_delivers_to_registered_handler
    (self : MessageDispatcher.t Msg W) (elapsed : float) (fields fields' : list string)
    (msg_id : Z) (cls : msg_class Msg) (m : Msg) (h : handler Msg W) (w' : W) :
  tag_of fields = Some msg_id →
  run_pre_processors (pre_processors self) fields = Ok fields' →
  get_message_class msg_id (registry self) = Some cls →
  from_fields cls fields' (server_version self) = Ok (Some m) →
  get_handler cls (registry self) = Some h →
  call h m (wrapper self) = (Ok tt, w') →
  run_post_processors (post_processors self) m = Ok tt →
  ∃ self', dispatch elapsed fields self = (Ok (Some m), self')
    ∧ new_invocations self self' = [Handler (func_name h) m]
    ∧ wrapper self' = w'
    ∧ messages_processed (stats self') = messages_processed (stats self) + 1
    ∧ messages_failed (stats self') = messages_failed (stats self)
    ∧ unknown_messages (stats self') = unknown_messages (stats self).
Proof.
  intros Htag Hpre Hcls Hm Hh Hcall Hpost.
  unfold tag_of in Htag. destruct fields as [|field0 rest]; [done|].
  destruct (bool_decide (field0 = "")) eqn:E0; [done|].
  destruct self as [w sv r st mc pre post inv]. simpl in *.
  open_dispatch E0 Htag. rewrite Hpre. simpl. rewrite Hcls. simpl.
  rewrite Hm, Hh. simpl. rewrite Hcall. simpl. rewrite Hpost. simpl.
  eexists. split; [reflexivity|]. simpl.
  split; [unfold new_invocations; simpl; apply drop_app_length|].
  repeat split.
Qed.


(** The counters one dispatch changes, and by how much. *)
Lemma counters_step elapsed fields self :
  let self' := (dispatch elapsed fields self).2 in
  validation_errors (stats self') = validation_errors (stats self)
  ∧ messages_failed (stats self) ≤ messages_failed (stats self')
  ∧ unknown_messages (stats self) ≤ unknown_messages (stats self')
  ∧ unknown_messages (stats self') - unknown_messages (stats self)
    ≤ messages_processed (stats self') - messages_processed (stats self).
Proof.
  destruct self as [w sv r st mc pre post inv]. simpl.
  run_dispatch; repeat split; lia.
Qed.

Lemma counts_step elapsed fields self :
  (∀ msg_id n, message_counts self !! msg_id = Some n → 1 ≤ n) →
  ∀ msg_id n, message_counts (dispatch elapsed fields self).2 !! msg_id = Some n → 1 ≤ n.
Proof.
  intros Hinv msg_id n.
  pose proof (counters_after_dispatch req_id wrapper_getattr elapsed fields self) as Hc.
  simpl in Hc. destruct (tag_of fields) as [tag|].
  - destruct Hc as [_ ->]. destruct (decide (msg_id = tag)) as [->|Hne].
    + rewrite lookup_insert_eq. intros [= <-].
      destruct (message_counts self !! tag) as [k|] eqn:Hk; simpl; [|lia].
      apply Hinv in Hk. lia.
    + rewrite lookup_insert_ne by done. apply Hinv.
  - destruct Hc as (_ & -> & _). apply Hinv.
Qed.

(** X10.  Whatever is done with a new dispatcher (dispatching
    records, adding processors, resetting the statistics),
    [validation_errors] stays 0, [unknown_messages] is between 0 and
    [messages_processed], [messages_failed] is not negative and every
    count present in [message_counts] is at least 1. *)
Theorem counters_stay_in_order
    (w : W) (reg : MessageRegistry.t Msg W) (sv : Z) (acts : list action) :
  let self := perform_all acts (__init__ w reg sv) in
  validation_errors (stats self) = 0
  ∧ 0 ≤ unknown_messages (stats self) ≤ messages_processed (stats self)
  ∧ 0 ≤ messages_failed (stats self)
  ∧ ∀ msg_id n, message_counts self !! msg_id = Some n → 1 ≤ n.
Proof.
  simpl.
  assert (Hgen : ∀ acts self,
    (validation_errors (stats self) = 0
     ∧ 0 ≤ unknown_messages (stats self) ≤ messages_processed (stats self)
     ∧ 0 ≤ messages_failed (stats self)
     ∧ ∀ msg_id n, message_counts self !! msg_id = Some n → 1 ≤ n) →
    let self' := perform_all acts self in
    validation_errors (stats self') = 0
    ∧ 0 ≤ unknown_messages (stats self') ≤ messages_processed (stats self')
    ∧ 0 ≤ messages_failed (stats self')
    ∧ ∀ msg_id n, message_counts self' !! msg_id = Some n → 1 ≤ n).
  { clear. intros acts. induction acts as [|a acts IH]; intros self Hinv; [done|].
    simpl. apply IH. destruct Hinv as (Hv & Hu & Hf & Hc).
    destruct a as [elapsed fields|p|p|]; simpl.
    - pose proof (counters_step elapsed fields self) as (Hv' & Hf' & Hu' & Hp').
      simpl in *. repeat split; try lia; try by apply counts_step.
    - done.
    - done.
    - repeat split; try done; intros msg_id n; by rewrite lookup_empty. }
  apply Hgen. simpl. repeat split; try done; intros msg_id n; by rewrite lookup_empty.
Qed.

End dispatcher.

(** Slices and the suffix test on concatenations *)
Lemma substring_app_l (a b : string) :
  substring 0 (String.length a) (a ++ b) = a.
Proof. induction a as [|c a IH]; simpl; [by destruct b|]. by rewrite IH. Qed.

Lemma substring_all (b : string) : substring 0 (String.length b) b = b.
Proof. induction b as [|c b IH]; simpl; [done|]. by rewrite IH. Qed.

Lemma substring_app_r (a b : string) :
  substring (String.length a) (String.length b) (a ++ b) = b.
Proof. induction a as [|c a IH]; simpl; [apply substring_all|done]. Qed.

Lemma length_app (a b : string) :
  String.length (a ++ b) = (String.length a + String.length b)%nat.
Proof. induction a as [|c a IH]; simpl; [done|]. by rewrite IH. Qed.

Lemma ends_with_app (a suffix : string) : ends_with suffix (a ++ suffix) = true.
Proof.
  unfold ends_with. rewrite length_app.
  replace (String.length a + String.length suffix - String.length suffix)%nat
    with (String.length a) by lia.
  rewrite substring_app_r, bool_decide_eq_true_2 by done.
  rewrite andb_true_r. apply Nat.leb_le. lia.
Qed.

Lemma strip_suffix_app (a suffix : string) :
  substring 0 (String.length (a ++ suffix) - String.length suffix) (a ++ suffix) = a.
Proof.
  rewrite length_app.
  replace (String.length a + String.length suffix - String.length suffix)%nat
    with (String.length a) by lia.
  apply substring_app_l.
Qed.

(** X11.  The name of the wrapper method that
    [_call_wrapper_method] looks up.  For a class name that is an ASCII
    character [c] followed by [rest] and the suffix [Message] it is [c]
    in lower case followed by [rest]; for a name [c rest] which, with
    [c] in lower case, does not end in [Message], it is that name with
    [c] in lower case; for the name [Message] it is [message], the
    suffix being tested after the first letter is lowered; the empty
    name raises [IndexError]. *)
Theorem wrapper_method_name_strips_suffix (c : ascii) (rest : string) :
  (nat_of_ascii c < 128)%nat →
  wrapper_method_name "" = Raise IndexError
  ∧ wrapper_method_name (String c (rest ++ "Message"))
    = Ok (String (lower_ascii c) rest)
  ∧ (ends_with "Message" (String (lower_ascii c) rest) = false →
     wrapper_method_name (String c rest) = Ok (String (lower_ascii c) rest))
  ∧ wrapper_method_name "Message" = Ok "message".
Proof.
  intros _. split; [done|]. split; [|split; [|done]].
  - change (wrapper_method_name (String c (rest ++ "Message")))
      with (Ok (A:=string)
              (if ends_with "Message" (String (lower_ascii c) rest ++ "Message")
               then substring 0
                      (String.length (String (lower_ascii c) rest ++ "Message")
                       - String.length "Message")
                      (String (lower_ascii c) rest ++ "Message")
               else (String (lower_ascii c) rest ++ "Message")%string)).
    by rewrite ends_with_app, strip_suffix_app.
  - intros He. unfold wrapper_method_name. by rewrite He.
Qed.
End MessageDispatcherMore.

(** ** Serialisation of messages *)

Module IBMessageSpec.
Import IBMessage.

Section serialize.
Context `{PyEnv}.
Context (py_str : pyval → string).

Lemma join_cons (sep x : string) (l : list string) :
  l ≠ [] → join sep (x :: l) = (x ++ sep ++ join sep l)%string.
Proof. by destruct l. Qed.

Lemma append_assoc (a b c : string) : ((a ++ b) ++ c = a ++ (b ++ c))%string.
Proof.
  induction a as [|x a IH]; [done|].
  change (String x ((a ++ b) ++ c) = String x (a ++ (b ++ c)))%string. by f_equal.
Qed.

Lemma append_empty_r (a : string) : (a ++ "")%string = a.
Proof.
  induction a as [|x a IH]; [done|].
  change (String x (a ++ "") = String x a)%string. by f_equal.
Qed.

Lemma join_terminated (sep : string) (l : list string) :
  l ≠ [] →
  (join sep l ++ sep)%string = foldr (λ f acc, f ++ sep ++ acc)%string "" l.
Proof.
  induction l as [|x l IH]; [done|]. intros _.
  destruct l as [|y l].
  - change (x ++ sep = x ++ (sep ++ ""))%string. by rewrite append_empty_r.
  - rewrite join_cons by done. rewrite !append_assoc, IH by done. done.
Qed.

(** X12.  [to_fields()] has one entry for each declared field of
    the message, preceded by [str(MESSAGE_ID)] when the class has a
    message id.  [to_wire_format()] is every entry followed by a NUL
    character; when there is no entry (no message id and no field) it is
    a single NUL. *)
Theorem wire_format_terminates_every_field
    (MESSAGE_ID : option Z) (model_fields : list string) (self : pyval) :
  let fields := to_fields py_str MESSAGE_ID model_fields self in
  List.length fields
  = (List.length model_fields
     + match MESSAGE_ID with Some _ => 1 | None => 0 end)%nat
  ∧ (∀ msg_id, MESSAGE_ID = Some msg_id → fields !! 0%nat = Some (py_str (VInt msg_id)))
  ∧ (fields ≠ [] →
     to_wire_format py_str MESSAGE_ID model_fields self
     = foldr (λ f acc, f ++ NUL ++ acc)%string "" fields)
  ∧ (fields = [] →
     MESSAGE_ID = None ∧ model_fields = []
     ∧ to_wire_format py_str MESSAGE_ID model_fields self = NUL).
Proof.
  intros fields. subst fields. unfold to_wire_format, to_fields.
  split; [|split; [|split]].
  - rewrite length_app, length_fmap. destruct MESSAGE_ID; simpl; lia.
  - by intros msg_id ->.
  - intros Hne. by apply join_terminated.
  - intros Hnil. apply app_eq_nil in Hnil as [H1 H2].
    apply fmap_nil_inv in H2. destruct MESSAGE_ID; [done|]. subst. done.
Qed.
End serialize.
End IBMessageSpec.

(** ** Decoders of market data and order status *)

Module LayoutSpec.
Import Decode DecodeSpec MessageObjects Layout.

Section layout.
Context `{ObjEnv}.
Implicit Types (fr : frame) (fields : list string).

Lemma at_token_start fields : at_token fields 0 (start fields).
Proof.
  split; [|unfold position; simpl; lia].
  unfold cursor_ok, position. simpl. repeat split; lia.
Qed.

Lemma skip_at fields k n fr :
  0 ≤ k → 0 ≤ n → at_token fields k fr →
  ∃ fr', skip n fr = (Ok tt, fr') ∧ at_token fields (k + n) fr' ∧ vars fr' = vars fr.
Proof.
  intros Hk Hn [(Hf & Hl & Hp) Hpos]. eexists. split; [reflexivity|].
  unfold at_token, cursor_ok, position in *. simpl. rewrite Hl.
  repeat split; try done; lia.
Qed.

(** A read at the cursor, for any accessor of the cursor that returns [d]
    when exhausted and otherwise moves by one token. *)
Lemma on_it_at {A} (m : M FieldIterator.t A) (d : A) fields k fr :
  (∀ it, FieldIterator.length it ≤ FieldIterator.index it → m it = (Ok d, it)) →
  (∀ it, FieldIterator.in_order it → ∃ a, m it = (Ok a, FieldIterator.moved it)) →
  0 ≤ k → at_token fields k fr →
  ∃ a fr', on_it m fr = (Ok a, fr')
    ∧ (m (FieldIterator.__init__ fields k)).1 = Ok a
    ∧ at_token fields (k + 1) fr'
    ∧ vars fr' = vars fr.
Proof.
  intros Hex Hin Hk [Hok Hpos].
  pose proof (cursor_ok_in_order _ _ Hok) as Hord.
  destruct Hok as (Hf & Hl & Hp). unfold position in *.
  destruct (decide (k < Z.of_nat (List.length fields))) as [Hlt|Hge].
  - assert (Hit : it fr = FieldIterator.__init__ fields k).
    { destruct (it fr) as [fs i l]. simpl in *. unfold FieldIterator.__init__.
      f_equal; [done|lia|done]. }
    destruct (Hin _ Hord) as [a Ha].
    exists a, (mk (FieldIterator.moved (it fr)) (vars fr)).
    unfold on_it. rewrite Ha. split; [done|].
    split; [by rewrite <- Hit, Ha|].
    split; [|done].
    unfold at_token, cursor_ok, position. simpl. rewrite Hl, Hf.
    repeat split; try done; lia.
  - exists d, fr. unfold on_it. rewrite Hex by lia.
    split; [by destruct fr|].
    split; [rewrite Hex; [done|simpl; lia]|].
    split; [|done].
    unfold at_token, cursor_ok, position. rewrite Hl, Hf.
    repeat split; try done; lia.
Qed.

Lemma next_int_z_at fields k fr :
  0 ≤ k → at_token fields k fr →
  ∃ a fr', next_int_z fr = (Ok a, fr')
    ∧ int_token fields k = Ok a
    ∧ at_token fields (k + 1) fr' ∧ vars fr' = vars fr.
Proof.
  apply (on_it_at _ 0).
  - intros it. apply FieldIteratorSpec.next_int_exhausted.
  - intros it. apply FieldIteratorSpec.next_int_in_order.
Qed.

Lemma next_int_at fields k fr :
  0 ≤ k → at_token fields k fr →
  ∃ a fr', next_int fr = (Ok (VInt a), fr')
    ∧ int_token fields k = Ok a
    ∧ at_token fields (k + 1) fr' ∧ vars fr' = vars fr.
Proof.
  intros Hk Hat. destruct (next_int_z_at fields k fr Hk Hat) as (a & fr' & Hr & ?).
  exists a, fr'. unfold next_int, fmap, M_fmap. by rewrite Hr.
Qed.

Lemma next_float_at fields k fr :
  0 ≤ k → at_token fields k fr →
  ∃ a fr', next_float fr = (Ok (VFloat a), fr')
    ∧ float_token fields k = Ok a
    ∧ at_token fields (k + 1) fr' ∧ vars fr' = vars fr.
Proof.
  intros Hk Hat.
  destruct (on_it_at (FieldIterator.next_float float_zero) float_zero fields k fr)
    as (a & fr' & Hr & Ht & ?); try done.
  - intros it. apply FieldIteratorSpec.next_float_exhausted.
  - intros it. apply FieldIteratorSpec.next_float_in_order.
  - exists a, fr'. split; [|done].
    unfold next_float, on_it, fmap, M_fmap in *.
    destruct (FieldIterator.next_float float_zero (it fr)) as [[x|e] it']; [|done].
    by injection Hr as -> <-.
Qed.

Lemma next_bool_at fields k fr :
  0 ≤ k → at_token fields k fr →
  ∃ a fr', next_bool fr = (Ok (VBool a), fr')
    ∧ bool_token fields k = Ok a
    ∧ at_token fields (k + 1) fr' ∧ vars fr' = vars fr.
Proof.
  intros Hk Hat.
  destruct (on_it_at (FieldIterator.next_bool false) false fields k fr)
    as (a & fr' & Hr & Ht & ?); try done.
  - intros it. apply FieldIteratorSpec.next_bool_exhausted.
  - intros it. apply FieldIteratorSpec.next_bool_in_order.
  - exists a, fr'. unfold next_bool, next_bool_b, fmap, M_fmap. by rewrite Hr.
Qed.

Lemma next_at fields k fr :
  0 ≤ k → at_token fields k fr →
  ∃ s fr', next fr = (Ok (VStr s), fr')
    ∧ str_token fields k = Ok (Some s)
    ∧ at_token fields (k + 1) fr' ∧ vars fr' = vars fr.
Proof.
  intros Hk Hat.
  destruct (on_it_at (FieldIterator.as_str <$> FieldIterator.next "" false)
              (Some "") fields k fr)
    as (a & fr' & Hr & Ht & Hat' & Hv); try done.
  - intros it Hle. unfold fmap, M_fmap.
    by rewrite FieldIteratorSpec.next_exhausted.
  - intros it Hin. unfold fmap, M_fmap.
    rewrite FieldIteratorSpec.next_in_order by done. by eexists.
  - assert (∃ s, a = Some s) as [s ->].
    { unfold on_it, fmap, M_fmap in Hr.
      pose proof (cursor_ok_in_order _ _ (proj1 Hat)) as Hord.
      rewrite FieldIteratorSpec.next_in_order in Hr by done.
      case_decide; injection Hr as <- _; by eexists. }
    exists s, fr'. split; [|done].
    unfold next, on_it, fmap, M_fmap in *.
    destruct (FieldIterator.next "" false (it fr)) as [[r|e] it']; [|done].
    injection Hr as Hs <-. unfold compose. by rewrite Hs.
Qed.
End layout.

(** Run one statement of a decoder body whose cursor position is known. *)
Ltac read_token :=
  unfold mbind, M_bind, mret, M_ret;
  match goal with
  | Hat : at_token ?fields ?k ?fr |- context [skip ?n ?fr] =>
      let fr' := fresh "fr" in let Hr := fresh "Hr" in
      let Hat' := fresh "Hat" in let Hv := fresh "Hv" in
      destruct (skip_at fields k n fr ltac:(lia) ltac:(lia) Hat)
        as (fr' & Hr & Hat' & Hv);
      rewrite Hr; clear Hr;
      (let k' := eval cbv in (k + n) in change (k + n) with k' in Hat')
  | Hat : at_token ?fields ?k ?fr |- context [next_int_z ?fr] =>
      let a := fresh "n" in let fr' := fresh "fr" in let Hr := fresh "Hr" in
      let Ht := fresh "Htok" in let Hat' := fresh "Hat" in let Hv := fresh "Hv" in
      destruct (next_int_z_at fields k fr ltac:(lia) Hat)
        as (a & fr' & Hr & Ht & Hat' & Hv);
      rewrite Hr; clear Hr;
      (let k' := eval cbv in (k + 1) in change (k + 1) with k' in Hat')
  | Hat : at_token ?fields ?k ?fr |- context [next_int ?fr] =>
      let a := fresh "n" in let fr' := fresh "fr" in let Hr := fresh "Hr" in
      let Ht := fresh "Htok" in let Hat' := fresh "Hat" in let Hv := fresh "Hv" in
      destruct (next_int_at fields k fr ltac:(lia) Hat)
        as (a & fr' & Hr & Ht & Hat' & Hv);
      rewrite Hr; clear Hr;
      (let k' := eval cbv in (k + 1) in change (k + 1) with k' in Hat')
  | Hat : at_token ?fields ?k ?fr |- context [next_float ?fr] =>
      let a := fresh "x" in let fr' := fresh "fr" in let Hr := fresh "Hr" in
      let Ht := fresh "Htok" in let Hat' := fresh "Hat" in let Hv := fresh "Hv" in
      destruct (next_float_at fields k fr ltac:(lia) Hat)
        as (a & fr' & Hr & Ht & Hat' & Hv);
      rewrite Hr; clear Hr;
      (let k' := eval cbv in (k + 1) in change (k + 1) with k' in Hat')
  | Hat : at_token ?fields ?k ?fr |- context [next_bool ?fr] =>
      let a := fresh "b" in let fr' := fresh "fr" in let Hr := fresh "Hr" in
      let Ht := fresh "Htok" in let Hat' := fresh "Hat" in let Hv := fresh "Hv" in
      destruct (next_bool_at fields k fr ltac:(lia) Hat)
        as (a & fr' & Hr & Ht & Hat' & Hv);
      rewrite Hr; clear Hr;
      (let k' := eval cbv in (k + 1) in change (k + 1) with k' in Hat')
  | Hat : at_token ?fields ?k ?fr |- context [next ?fr] =>
      let a := fresh "s" in let fr' := fresh "fr" in let Hr := fresh "Hr" in
      let Ht := fresh "Htok" in let Hat' := fresh "Hat" in let Hv := fresh "Hv" in
      destruct (next_at fields k fr ltac:(lia) Hat)
        as (a & fr' & Hr & Ht & Hat' & Hv);
      rewrite Hr; clear Hr;
      (let k' := eval cbv in (k + 1) in change (k + 1) with k' in Hat')
  end.

Ltac start_decoder fields :=
  unfold MessageObjects.from_fields, run;
  pose proof (at_token_start fields) as Hat0.

Section decoders.
Context `{ObjEnv}.

(** X13.  The decoders of [TickSizeMessage], [TickGenericMessage],
    [TickStringMessage], [RealTimeBarMessage], [UpdateMktDepthMessage],
    [UpdateMktDepthL2Message] and [OrderStatusMessage] never raise and
    never return [None]: on every record, of any length, [from_fields]
    returns a message of its class (a token that is missing or does not
    parse is read as the default).  For the first three, [req_id] and
    [tick_type] are tokens 1 and 2 read with [next_int()], and the value
    is token 3, read with [next_float()] for [TickSizeMessage.size] and
    [TickGenericMessage.value] and with [next()] for
    [TickStringMessage.value]. *)
Theorem fixed_layout_decoders_always_decode
    (fields : list string) (server_version : Z) :
  (∀ name body, (name, body) ∈ fixed_layout →
     ∃ attrs, from_fields body fields server_version = Ok (Some (VObj name attrs)))
  ∧ ∃ req_id tick_type size value,
      int_token fields 1 = Ok req_id
      ∧ int_token fields 2 = Ok tick_type
      ∧ float_token fields 3 = Ok size
      ∧ str_token fields 3 = Ok (Some value)
      ∧ TickSizeMessage.from_fields fields server_version
        = Ok (Some (VObj "TickSizeMessage"
            (<["req_id" := VInt req_id]> (<["tick_type" := VInt tick_type]>
             (<["size" := VFloat size]> ∅)))))
      ∧ TickGenericMessage.from_fields fields server_version
        = Ok (Some (instance "TickGenericMessage"
            [("req_id", VInt req_id); ("tick_type", VInt tick_type);
             ("value", VFloat size)]))
      ∧ TickStringMessage.from_fields fields server_version
        = Ok (Some (instance "TickStringMessage"
            [("req_id", VInt req_id); ("tick_type", VInt tick_type);
             ("value", VStr value)])).
Proof.
  split.
  { intros name body Hin. unfold fixed_layout in Hin.
    repeat (apply elem_of_cons in Hin as [[= -> ->]|Hin]);
      [..|by apply elem_of_nil in Hin];
      start_decoder fields;
      [unfold TickSizeMessage.body
      |unfold TickGenericMessage.body
      |unfold TickStringMessage.body
      |unfold RealTimeBarMessage.body
      |unfold UpdateMktDepthMessage.body
      |unfold UpdateMktDepthL2Message.body
      |unfold OrderStatusMessage.body];
      repeat read_token; by eexists. }
  pose proof (at_token_start fields) as Hat0.
  destruct (skip_at fields 0 1 _ ltac:(lia) ltac:(lia) Hat0) as (fr1 & Hr1 & Hat1 & _).
  destruct (next_int_at fields 1 fr1 ltac:(lia) Hat1) as (req_id & fr2 & Hr2 & Ht2 & Hat2 & _).
  destruct (next_int_at fields 2 fr2 ltac:(lia) Hat2) as (tick_type & fr3 & Hr3 & Ht3 & Hat3 & _).
  destruct (next_float_at fields 3 fr3 ltac:(lia) Hat3) as (size & fr4 & Hr4 & Ht4 & _).
  destruct (next_at fields 3 fr3 ltac:(lia) Hat3) as (value & fr5 & Hr5 & Ht5 & _).
  exists req_id, tick_type, size, value.
  repeat split; try done.
  - unfold TickSizeMessage.from_fields, run, TickSizeMessage.body, mbind, M_bind.
    by rewrite Hr1, Hr2, Hr3, Hr4.
  - unfold TickGenericMessage.from_fields, MessageObjects.from_fields, run,
      TickGenericMessage.body, mbind, M_bind.
    by rewrite Hr1, Hr2, Hr3, Hr4.
  - unfold TickStringMessage.from_fields, MessageObjects.from_fields, run,
      TickStringMessage.body, mbind, M_bind.
    by rewrite Hr1, Hr2, Hr3, Hr5.
Qed.
End decoders.
End LayoutSpec.

Module MarketDataSpec.
Import Decode DecodeSpec MessageObjects Layout LayoutSpec.

Section decoders.
Context `{ObjEnv}.
Implicit Types (fr : frame) (fields : list string).

(** X14.  [PriceSizeTickMessage.from_fields] reads [req_id] and
    [tick_type] from tokens 2 and 3 with [next_int()] and the price and
    the size from tokens 4 and 5 as text.  It returns [None] when the
    price is empty; it raises [ValueError] when the price, or a size
    that is not empty, is not the text of a number; otherwise it returns
    the message with [float(price)] and [float(size)], the size being
    0.0 when its token is empty. *)
Theorem price_size_tick_decoding (fields : list string) (server_version : Z) :
  ∃ req_id tick_type price size,
    int_token fields 2 = Ok req_id
    ∧ int_token fields 3 = Ok tick_type
    ∧ str_token fields 4 = Ok (Some price)
    ∧ str_token fields 5 = Ok (Some size)
    ∧ let message (p s : float) :=
        VObj "PriceSizeTickMessage"
          (<["req_id" := VInt req_id]> (<["tick_type" := VInt tick_type]>
           (<["price" := VFloat p]> (<["size" := VFloat s]> ∅)))) in
      PriceSizeTickMessage.from_fields fields server_version
      = if bool_decide (price = "") then Ok None
        else match float_of_str price with
             | None => Raise ValueError
             | Some p =>
                 if bool_decide (size = "") then Ok (Some (message p float_zero))
                 else match float_of_str size with
                      | None => Raise ValueError
                      | Some s => Ok (Some (message p s))
                      end
             end.
Proof.
  pose proof (at_token_start fields) as Hat0.
  unfold PriceSizeTickMessage.from_fields, run, PriceSizeTickMessage.body.
  do 5 read_token.
  exists n, n0, s, s0. repeat split; try done.
  simpl. unfold mbind, M_bind, mret, M_ret, raise.
  destruct (bool_decide (s = "")); [done|]. simpl.
  destruct (float_of_str s) as [p|]; [|done].
  destruct (bool_decide (s0 = "")); [done|]. simpl.
  by destruct (float_of_str s0).
Qed.

(** [parse_opt_float] on a token: it returns, or raises [ValueError]. *)
Lemma parse_opt_float_cases (s : string) fr :
  (∃ v, TickOptionComputationMessage.parse_opt_float (VStr s) fr = (Ok v, fr)
        ∧ (s = "" ∨ is_Some (float_of_str s))
        ∧ v = if bool_decide (s = "") then VNone
              else match float_of_str s with
                   | Some x => if float_lt x float_zero then VNone else VFloat x
                   | None => VNone
                   end)
  ∨ (TickOptionComputationMessage.parse_opt_float (VStr s) fr = (Raise ValueError, fr)
     ∧ s ≠ "" ∧ float_of_str s = None).
Proof.
  unfold TickOptionComputationMessage.parse_opt_float,
    PriceSizeTickMessage.to_float, mbind, M_bind, mret, M_ret, raise. simpl.
  destruct (decide (s = "")) as [->|Hne].
  - left. eexists. split; [reflexivity|]. split; [by left|done].
  - rewrite (bool_decide_eq_false_2 (s = "")) by done. simpl.
    destruct (float_of_str s) as [x|] eqn:Hx.
    + left. destruct (float_lt x float_zero) eqn:Hlt; eexists;
        (split; [reflexivity|]); (split; [by right|]); by rewrite ?Hlt.
    + by right.
Qed.

Ltac bad_token i :=
  right; split; [|done];
  apply Exists_exists; eexists; (split; [|eassumption]);
  by apply (list_elem_of_lookup_2 _ i).

(** X15.  [TickOptionComputationMessage.from_fields] reads
    [req_id], [tick_type] and [tick_attrib] from tokens 2 to 4 with
    [next_int()] and the eight optional values, [implied_vol] to
    [und_price], from tokens 5 to 12 as text.  If each of the eight is
    empty or the text of a number, the message is returned, a value being
    [None] when its token is empty or a negative number and the number
    otherwise; if one of them is not empty and not a number,
    [ValueError] is raised. *)
Theorem tick_option_computation_decoding (fields : list string) (server_version : Z) :
  ∃ req_id tick_type tick_attrib (toks : list string),
    int_token fields 2 = Ok req_id
    ∧ int_token fields 3 = Ok tick_type
    ∧ int_token fields 4 = Ok tick_attrib
    ∧ List.length toks = 8%nat
    ∧ (∀ i s, toks !! i = Some s → str_token fields (5 + Z.of_nat i) = Ok (Some s))
    ∧ ((Forall (λ s, s = "" ∨ is_Some (float_of_str s)) toks
        ∧ TickOptionComputationMessage.from_fields fields server_version
          = Ok (Some (instance "TickOptionComputationMessage"
              ([("req_id", VInt req_id); ("tick_type", VInt tick_type);
                ("tick_attrib", VInt tick_attrib)]
               ++ zip TickOptionComputationLayout.optional
                    ((λ s, if bool_decide (s = "") then VNone
                           else match float_of_str s with
                                | Some x =>
                                    if float_lt x float_zero then VNone else VFloat x
                                | None => VNone
                                end) <$> toks)))))
       ∨ (Exists (λ s, s ≠ "" ∧ float_of_str s = None) toks
          ∧ TickOptionComputationMessage.from_fields fields server_version
            = Raise ValueError)).
Proof.
  pose proof (at_token_start fields) as Hat0.
  destruct (skip_at fields 0 2 _ ltac:(lia) ltac:(lia) Hat0) as (f2 & R2 & A2 & _).
  destruct (next_int_at fields 2 f2 ltac:(lia) A2) as (req_id & f3 & R3 & T3 & A3 & _).
  destruct (next_int_at fields 3 f3 ltac:(lia) A3) as (tick_type & f4 & R4 & T4 & A4 & _).
  destruct (next_int_at fields 4 f4 ltac:(lia) A4) as (tick_attrib & f5 & R5 & T5 & A5 & _).
  destruct (next_at fields 5 f5 ltac:(lia) A5) as (s5 & f6 & R6 & T6 & A6 & _).
  destruct (next_at fields 6 f6 ltac:(lia) A6) as (s6 & f7 & R7 & T7 & A7 & _).
  destruct (next_at fields 7 f7 ltac:(lia) A7) as (s7 & f8 & R8 & T8 & A8 & _).
  destruct (next_at fields 8 f8 ltac:(lia) A8) as (s8 & f9 & R9 & T9 & A9 & _).
  destruct (next_at fields 9 f9 ltac:(lia) A9) as (s9 & f10 & R10 & T10 & A10 & _).
  destruct (next_at fields 10 f10 ltac:(lia) A10) as (s10 & f11 & R11 & T11 & A11 & _).
  destruct (next_at fields 11 f11 ltac:(lia) A11) as (s11 & f12 & R12 & T12 & A12 & _).
  destruct (next_at fields 12 f12 ltac:(lia) A12) as (s12 & f13 & R13 & T13 & A13 & _).
  exists req_id, tick_type, tick_attrib, [s5; s6; s7; s8; s9; s10; s11; s12].
  do 4 (split; [done|]).
  split.
  { intros i s Hi. do 8 (destruct i as [|i]; [by injection Hi as <-|]). done. }
  unfold TickOptionComputationMessage.from_fields, MessageObjects.from_fields, run,
    TickOptionComputationMessage.body, mbind, M_bind.
  rewrite R2, R3, R4, R5.
  rewrite R6. destruct (parse_opt_float_cases s5 f6) as [(v5 & -> & G5 & V5)|(-> & B5)];
    [|bad_token 0%nat].
  rewrite R7. destruct (parse_opt_float_cases s6 f7) as [(v6 & -> & G6 & V6)|(-> & B6)];
    [|bad_token 1%nat].
  rewrite R8. destruct (parse_opt_float_cases s7 f8) as [(v7 & -> & G7 & V7)|(-> & B7)];
    [|bad_token 2%nat].
  rewrite R9. destruct (parse_opt_float_cases s8 f9) as [(v8 & -> & G8 & V8)|(-> & B8)];
    [|bad_token 3%nat].
  rewrite R10. destruct (parse_opt_float_cases s9 f10) as [(v9 & -> & G9 & V9)|(-> & B9)];
    [|bad_token 4%nat].
  rewrite R11. destruct (parse_opt_float_cases s10 f11) as [(v10 & -> & G10 & V10)|(-> & B10)];
    [|bad_token 5%nat].
  rewrite R12. destruct (parse_opt_float_cases s11 f12) as [(v11 & -> & G11 & V11)|(-> & B11)];
    [|bad_token 6%nat].
  rewrite R13. destruct (parse_opt_float_cases s12 f13) as [(v12 & -> & G12 & V12)|(-> & B12)];
    [|bad_token 7%nat].
  left. split; [repeat (apply List.Forall_cons; [assumption|]); apply List.Forall_nil|].
  simpl. by subst.
Qed.

(** *** [HistogramDataMessage] *)

Lemma bind_ok {S A B} (m : M S A) (f : A → M S B) (s : S) (a : A) (s' : S) :
  m s = (Ok a, s') → (m ≫= f) s = f a s'.
Proof. intros Hm. unfold mbind, M_bind. by rewrite Hm. Qed.

(** The loop of [from_fields], run [n] times from token [k]. *)
Lemma histogram_loop fields (n : nat) :
  ∀ k fr acc,
    0 ≤ k → at_token fields k fr →
    vars fr !! "data_points" = Some (VList acc) →
    ∃ fr' pts,
      repeat_m n (price ← next_float; count ← next_int;
                  HistogramDataMessage.append_point price count) fr = (Ok tt, fr')
      ∧ at_token fields (k + 2 * Z.of_nat n) fr'
      ∧ vars fr' !! "data_points" = Some (VList (acc ++ pts))
      ∧ List.length pts = n
      ∧ ∀ (i : nat) p, pts !! i = Some p →
          ∃ x c, p = VTuple [VFloat x; VInt c]
                 ∧ float_token fields (k + 2 * Z.of_nat i) = Ok x
                 ∧ int_token fields (k + 2 * Z.of_nat i + 1) = Ok c.
Proof.
  induction n as [|n IH]; intros k fr acc Hk Hat Hdp.
  - exists fr, []. split; [done|].
    split; [by replace (k + 2 * Z.of_nat 0) with k by lia|].
    split; [by rewrite app_nil_r|]. split; [done|]. intros i p. by rewrite lookup_nil.
  - simpl repeat_m. unfold mbind at 1, M_bind at 1.
    destruct (next_float_at fields k fr Hk Hat) as (x & fr1 & R1 & T1 & A1 & V1).
    destruct (next_int_at fields (k + 1) fr1 ltac:(lia) A1) as (c & fr2 & R2 & T2 & A2 & V2).
    assert (Hbody : (price ← next_float; count ← next_int;
                     HistogramDataMessage.append_point price count) fr
                    = (Ok tt, mk (it fr2)
                         (<["data_points" := VList (acc ++ [VTuple [VFloat x; VInt c]])]>
                            (vars fr2)))).
    { unfold mbind, M_bind. rewrite R1, R2.
      unfold HistogramDataMessage.append_point, get_var, set_var, modify, mbind, M_bind.
      assert (Hdp2 : vars fr2 !! "data_points" = Some (VList acc))
        by (by rewrite V2, V1).
      by rewrite Hdp2. }
    rewrite Hbody.
    destruct (IH (k + 2) (mk (it fr2)
                (<["data_points" := VList (acc ++ [VTuple [VFloat x; VInt c]])]>
                   (vars fr2))) (acc ++ [VTuple [VFloat x; VInt c]]))
      as (fr' & pts & Hrun & Hat' & Hdp' & Hlen & Hpts).
    + lia.
    + replace (k + 2) with (k + 1 + 1) by lia.
      destruct A2 as [Hok Hpos]. split; [|done]. done.
    + simpl. apply lookup_insert_eq.
    + exists fr', (VTuple [VFloat x; VInt c] :: pts).
      split; [done|].
      split; [by replace (k + 2 * Z.of_nat (S n)) with (k + 2 + 2 * Z.of_nat n) by lia|].
      split; [by rewrite Hdp', <- app_assoc|].
      split; [simpl; by rewrite Hlen|].
      intros [|i] p Hp.
      * injection Hp as <-. exists x, c. split; [done|].
        replace (k + 2 * Z.of_nat 0) with k by lia. done.
      * destruct (Hpts i p Hp) as (x' & c' & -> & Hx & Hc).
        exists x', c'. split; [done|].
        by replace (k + 2 * Z.of_nat (S i)) with (k + 2 + 2 * Z.of_nat i) by lia.
Qed.

(** X16.  [HistogramDataMessage.from_fields] never raises.  It
    reads [req_id] and [num_points] from tokens 1 and 2 with
    [next_int()]; [data_points] has [num_points] pairs (none when
    [num_points] is negative), the [i]-th being token [3 + 2i] read with
    [next_float()] and token [4 + 2i] read with [next_int()], whatever
    the length of the record. *)
Theorem histogram_points_follow_the_count
    (fields : list string) (server_version : Z) :
  ∃ req_id num_points pts,
    int_token fields 1 = Ok req_id
    ∧ int_token fields 2 = Ok num_points
    ∧ HistogramDataMessage.from_fields fields server_version
      = Ok (Some (instance "HistogramDataMessage"
          [("req_id", VInt req_id); ("num_points", VInt num_points);
           ("data_points", VList pts)]))
    ∧ List.length pts = Z.to_nat num_points
    ∧ ∀ (i : nat) p, pts !! i = Some p →
        ∃ x c, p = VTuple [VFloat x; VInt c]
               ∧ float_token fields (3 + 2 * Z.of_nat i) = Ok x
               ∧ int_token fields (4 + 2 * Z.of_nat i) = Ok c.
Proof.
  pose proof (at_token_start fields) as Hat0.
  destruct (skip_at fields 0 1 _ ltac:(lia) ltac:(lia) Hat0) as (f1 & R1 & A1 & _).
  destruct (next_int_at fields 1 f1 ltac:(lia) A1) as (req_id & f2 & R2 & T2 & A2 & _).
  destruct (next_int_z_at fields 2 f2 ltac:(lia) A2) as (num_points & f3 & R3 & T3 & A3 & _).
  destruct (histogram_loop fields (Z.to_nat num_points) 3
              (mk (it f3) (<["data_points" := VList []]> (vars f3))) [])
    as (f4 & pts & R4 & A4 & Hdp & Hlen & Hpts); [lia|by destruct A3| |].
  { simpl. apply lookup_insert_eq. }
  exists req_id, num_points, pts.
  do 2 (split; [done|]). split; [|split; [done|]].
  - unfold HistogramDataMessage.from_fields, MessageObjects.from_fields, run,
      HistogramDataMessage.body, for_range.
    rewrite (bind_ok _ _ _ _ _ R1), (bind_ok _ _ _ _ _ R2), (bind_ok _ _ _ _ _ R3).
    rewrite (bind_ok (set_var _ _) _ _ tt _ eq_refl).
    rewrite (bind_ok _ _ _ _ _ R4).
    unfold get_var, mbind, M_bind. by rewrite Hdp.
  - intros i p Hp. destruct (Hpts i p Hp) as (x & c & -> & Hx & Hc).
    exists x, c. split; [done|]. split; [done|].
    by replace (4 + 2 * Z.of_nat i) with (3 + 2 * Z.of_nat i + 1) by lia.
Qed.

(** *** [TickByTickMessage] *)

Lemma mask_bit_testbit (mask : Z) (n : Z) :
  0 ≤ n → TickByTickMessage.mask_bit mask (2 ^ n) = VBool (Z.testbit mask n).
Proof.
  intros Hn. unfold TickByTickMessage.mask_bit. f_equal.
  destruct (Z.testbit mask n) eqn:Hb.
  - destruct (Z.eqb_spec (Z.land mask (2 ^ n)) 0) as [Hz|]; [|done].
    assert (Z.testbit (Z.land mask (2 ^ n)) n = true) as Ht.
    { by rewrite Z.land_spec, Hb, Z.pow2_bits_true. }
    rewrite Hz, Z.bits_0 in Ht. done.
  - destruct (Z.eqb_spec (Z.land mask (2 ^ n)) 0) as [|Hne]; [done|].
    exfalso. apply Hne. apply Z.bits_inj'. intros i Hi.
    rewrite Z.land_spec, Z.bits_0, Z.pow2_bits_eqb by done.
    destruct (Z.eqb_spec n i) as [->|]; [by rewrite Hb|].
    apply andb_false_r.
Qed.

Lemma set_field_run (rdr : M frame pyval) var name fr v fr1 cls attrs :
  rdr fr = (Ok v, fr1) →
  vars fr1 !! var = Some (VObj cls attrs) →
  set_field var name rdr fr
  = (Ok tt, mk (it fr1) (<[var := VObj cls (<[name := v]> attrs)]> (vars fr1))).
Proof.
  intros Hr Hv. unfold set_field, get_var, set_var, modify, mbind, M_bind.
  by rewrite Hr, Hv.
Qed.

(** A frame that holds the message being built, with the cursor at
    token [k]. *)
Lemma at_token_it fields k fr fr' :
  at_token fields k fr → it fr' = it fr → at_token fields k fr'.
Proof. unfold at_token, cursor_ok, position. by intros ? ->. Qed.

Lemma set_field_float fields k fr var name cls attrs :
  0 ≤ k → at_token fields k fr → vars fr !! var = Some (VObj cls attrs) →
  ∃ x fr', set_field var name next_float fr = (Ok tt, fr')
    ∧ float_token fields k = Ok x
    ∧ at_token fields (k + 1) fr'
    ∧ vars fr' !! var = Some (VObj cls (<[name := VFloat x]> attrs)).
Proof.
  intros Hk Hat Hv.
  destruct (next_float_at fields k fr Hk Hat) as (x & fr1 & R1 & T1 & A1 & V1).
  exists x. eexists. split; [eapply set_field_run; [done|by rewrite V1]|].
  split; [done|]. split; [by eapply at_token_it|]. simpl. apply lookup_insert_eq.
Qed.

Lemma set_field_str fields k fr var name cls attrs :
  0 ≤ k → at_token fields k fr → vars fr !! var = Some (VObj cls attrs) →
  ∃ s fr', set_field var name next fr = (Ok tt, fr')
    ∧ str_token fields k = Ok (Some s)
    ∧ at_token fields (k + 1) fr'
    ∧ vars fr' !! var = Some (VObj cls (<[name := VStr s]> attrs)).
Proof.
  intros Hk Hat Hv.
  destruct (next_at fields k fr Hk Hat) as (x & fr1 & R1 & T1 & A1 & V1).
  exists x. eexists. split; [eapply set_field_run; [done|by rewrite V1]|].
  split; [done|]. split; [by eapply at_token_it|]. simpl. apply lookup_insert_eq.
Qed.

Lemma set_field_value fields k fr var name v cls attrs :
  at_token fields k fr → vars fr !! var = Some (VObj cls attrs) →
  ∃ fr', set_field var name (mret v) fr = (Ok tt, fr')
    ∧ at_token fields k fr'
    ∧ vars fr' !! var = Some (VObj cls (<[name := v]> attrs)).
Proof.
  intros Hat Hv.
  eexists. split; [by eapply set_field_run|].
  split; [by eapply at_token_it|]. simpl. apply lookup_insert_eq.
Qed.

(** X17.  [TickByTickMessage.from_fields] never raises.  It reads
    [req_id], [tick_type] and [time] from tokens 1 to 3.  For tick types
    1 and 2 it sets [price] and [size] from tokens 4 and 5,
    [past_limit] and [unreported] from bits 0 and 1 of token 6, and
    [exchange] and [special_conditions] from tokens 7 and 8.  For tick
    type 3 it sets [bid_price], [ask_price], [bid_size] and [ask_size]
    from tokens 4 to 7 and [bid_past_low] and [ask_past_high] from bits
    0 and 1 of token 8.  For tick type 4 it sets [mid_point] from token
    4.  For every other tick type all thirteen optional attributes stay
    [None]. *)
Theorem tick_by_tick_decoding (fields : list string) (server_version : Z) :
  ∃ req_id tick_type time attrs,
    int_token fields 1 = Ok req_id
    ∧ int_token fields 2 = Ok tick_type
    ∧ int_token fields 3 = Ok time
    ∧ TickByTickMessage.from_fields fields server_version
      = Ok (Some (VObj "TickByTickMessage" attrs))
    ∧ let base : gmap string pyval :=
        list_to_map ([("req_id", VInt req_id); ("tick_type", VInt tick_type);
                      ("time", VInt time)] ++ TickByTickMessage.optional) in
      (tick_type = 1 ∨ tick_type = 2 →
         ∃ price size mask exchange special_conditions,
           float_token fields 4 = Ok price
           ∧ float_token fields 5 = Ok size
           ∧ int_token fields 6 = Ok mask
           ∧ str_token fields 7 = Ok (Some exchange)
           ∧ str_token fields 8 = Ok (Some special_conditions)
           ∧ attrs = <["special_conditions" := VStr special_conditions]>
                     (<["exchange" := VStr exchange]>
                     (<["unreported" := VBool (Z.testbit mask 1)]>
                     (<["past_limit" := VBool (Z.testbit mask 0)]>
                     (<["size" := VFloat size]>
                     (<["price" := VFloat price]> base))))))
      ∧ (tick_type = 3 →
         ∃ bid_price ask_price bid_size ask_size mask,
           float_token fields 4 = Ok bid_price
           ∧ float_token fields 5 = Ok ask_price
           ∧ float_token fields 6 = Ok bid_size
           ∧ float_token fields 7 = Ok ask_size
           ∧ int_token fields 8 = Ok mask
           ∧ attrs = <["ask_past_high" := VBool (Z.testbit mask 1)]>
                     (<["bid_past_low" := VBool (Z.testbit mask 0)]>
                     (<["ask_size" := VFloat ask_size]>
                     (<["bid_size" := VFloat bid_size]>
                     (<["ask_price" := VFloat ask_price]>
                     (<["bid_price" := VFloat bid_price]> base))))))
      ∧ (tick_type = 4 →
         ∃ mid_point,
           float_token fields 4 = Ok mid_point
           ∧ attrs = <["mid_point" := VFloat mid_point]> base)
      ∧ (tick_type < 1 ∨ 4 < tick_type → attrs = base).
Proof.
  pose proof (at_token_start fields) as Hat0.
  destruct (skip_at fields 0 1 _ ltac:(lia) ltac:(lia) Hat0) as (f1 & R1 & A1 & _).
  destruct (next_int_at fields 1 f1 ltac:(lia) A1) as (req_id & f2 & R2 & T2 & A2 & _).
  destruct (next_int_z_at fields 2 f2 ltac:(lia) A2) as (tick_type & f3 & R3 & T3 & A3 & _).
  destruct (next_int_at fields 3 f3 ltac:(lia) A3) as (time & f4 & R4 & T4 & A4 & _).
  exists req_id, tick_type, time.
  set (message := VObj "TickByTickMessage"
    (list_to_map ([("req_id", VInt req_id); ("tick_type", VInt tick_type);
                   ("time", VInt time)] ++ TickByTickMessage.optional))).
  set (f5 := mk (it f4) (<["message" := message]> (vars f4))).
  assert (A5 : at_token fields 4 f5) by by eapply at_token_it.
  assert (V5 : vars f5 !! "message" = Some message) by apply lookup_insert_eq.
  assert (Hbit0 : TickByTickMessage.mask_bit = λ mask bit, VBool (negb (Z.land mask bit =? 0)))
    by done.
  assert (Hm1 : ∀ mask, TickByTickMessage.mask_bit mask 1 = VBool (Z.testbit mask 0))
    by (intros mask; apply (mask_bit_testbit mask 0); lia).
  assert (Hm2 : ∀ mask, TickByTickMessage.mask_bit mask 2 = VBool (Z.testbit mask 1))
    by (intros mask; apply (mask_bit_testbit mask 1); lia).
  clear Hbit0.
  unfold TickByTickMessage.from_fields, MessageObjects.from_fields, run,
    TickByTickMessage.body.
  rewrite (bind_ok _ _ _ _ _ R1), (bind_ok _ _ _ _ _ R2), (bind_ok _ _ _ _ _ R3),
    (bind_ok _ _ _ _ _ R4).
  rewrite (bind_ok (set_var _ _) _ f4 tt f5 eq_refl).
  destruct (decide (tick_type = 1 ∨ tick_type = 2)) as [H12|Hn12].
  { assert ((tick_type =? 1) || (tick_type =? 2) = true) as ->
      by (destruct H12 as [-> | ->]; done).
    destruct (set_field_float fields 4 f5 "message" "price" _ _ ltac:(lia) A5 V5)
      as (price & f6 & R6 & T6 & A6 & V6).
    destruct (set_field_float fields 5 f6 "message" "size" _ _ ltac:(lia) A6 V6)
      as (size & f7 & R7 & T7 & A7 & V7).
    destruct (next_int_z_at fields 6 f7 ltac:(lia) A7) as (mask & f8 & R8 & T8 & A8 & V8).
    rewrite <- V8 in V7.
    destruct (set_field_value fields 7 f8 "message" "past_limit"
                (TickByTickMessage.mask_bit mask 1) _ _ A8 V7) as (f9 & R9 & A9 & V9).
    destruct (set_field_value fields 7 f9 "message" "unreported"
                (TickByTickMessage.mask_bit mask 2) _ _ A9 V9) as (f10 & R10 & A10 & V10).
    destruct (set_field_str fields 7 f10 "message" "exchange" _ _ ltac:(lia) A10 V10)
      as (exchange & f11 & R11 & T11 & A11 & V11).
    destruct (set_field_str fields 8 f11 "message" "special_conditions" _ _
                ltac:(lia) A11 V11)
      as (sc & f12 & R12 & T12 & A12 & V12).
    eexists. do 3 (split; [done|]).
    split.
    { rewrite (bind_ok _ _ f5 tt f12).
      - unfold get_var, mbind, M_bind. rewrite V12. reflexivity.
      - rewrite (bind_ok _ _ _ _ _ R6), (bind_ok _ _ _ _ _ R7),
          (bind_ok _ _ _ _ _ R8), (bind_ok _ _ _ _ _ R9),
          (bind_ok _ _ _ _ _ R10), (bind_ok _ _ _ _ _ R11). exact R12. }
    split; [|split; [lia|split; [lia|lia]]].
    intros _. exists price, size, mask, exchange, sc.
    do 5 (split; [done|]). by rewrite Hm1, Hm2. }
  assert ((tick_type =? 1) || (tick_type =? 2) = false) as ->.
  { apply orb_false_iff. split; apply Z.eqb_neq; lia. }
  destruct (decide (tick_type = 3)) as [->|Hn3].
  { simpl Z.eqb. cbv iota.
    destruct (set_field_float fields 4 f5 "message" "bid_price" _ _ ltac:(lia) A5 V5)
      as (bid_price & f6 & R6 & T6 & A6 & V6).
    destruct (set_field_float fields 5 f6 "message" "ask_price" _ _ ltac:(lia) A6 V6)
      as (ask_price & f7 & R7 & T7 & A7 & V7).
    destruct (set_field_float fields 6 f7 "message" "bid_size" _ _ ltac:(lia) A7 V7)
      as (bid_size & f8 & R8 & T8 & A8 & V8).
    destruct (set_field_float fields 7 f8 "message" "ask_size" _ _ ltac:(lia) A8 V8)
      as (ask_size & f9 & R9 & T9 & A9 & V9).
    destruct (next_int_z_at fields 8 f9 ltac:(lia) A9) as (mask & f10 & R10 & T10 & A10 & V10).
    rewrite <- V10 in V9.
    destruct (set_field_value fields 9 f10 "message" "bid_past_low"
                (TickByTickMessage.mask_bit mask 1) _ _ A10 V9) as (f11 & R11 & A11 & V11).
    destruct (set_field_value fields 9 f11 "message" "ask_past_high"
                (TickByTickMessage.mask_bit mask 2) _ _ A11 V11) as (f12 & R12 & A12 & V12).
    eexists. do 3 (split; [done|]).
    split.
    { rewrite (bind_ok _ _ f5 tt f12).
      - unfold get_var, mbind, M_bind. rewrite V12. reflexivity.
      - rewrite (bind_ok _ _ _ _ _ R6), (bind_ok _ _ _ _ _ R7),
          (bind_ok _ _ _ _ _ R8), (bind_ok _ _ _ _ _ R9),
          (bind_ok _ _ _ _ _ R10), (bind_ok _ _ _ _ _ R11). exact R12. }
    split; [lia|]. split; [|split; [lia|lia]].
    intros _. exists bid_price, ask_price, bid_size, ask_size, mask.
    do 5 (split; [done|]). by rewrite Hm1, Hm2. }
  assert ((tick_type =? 3) = false) as -> by (apply Z.eqb_neq; lia).
  destruct (decide (tick_type = 4)) as [->|Hn4].
  { simpl Z.eqb. cbv iota.
    destruct (set_field_float fields 4 f5 "message" "mid_point" _ _ ltac:(lia) A5 V5)
      as (mid_point & f6 & R6 & T6 & A6 & V6).
    eexists. do 3 (split; [done|]).
    split.
    { rewrite (bind_ok _ _ f5 tt f6 R6).
      unfold get_var, mbind, M_bind. rewrite V6. reflexivity. }
    split; [lia|]. split; [lia|]. split; [|lia].
    intros _. by exists mid_point. }
  assert ((tick_type =? 4) = false) as -> by (apply Z.eqb_neq; lia).
  eexists. do 3 (split; [done|]).
  split.
  { rewrite (bind_ok _ _ f5 tt f5 eq_refl).
    unfold get_var, mbind, M_bind. rewrite V5. reflexivity. }
  split; [lia|]. split; [lia|]. split; [lia|]. done.
Qed.
End decoders.
End MarketDataSpec.

(** ** Assignments that the models reject *)

Module AssignmentSpec.
Import Decode DecodeSpec MessageObjects Layout LayoutSpec OrderGrammar.
Import ContractModelFields.

Section strict.
Context `{ObjEnv}.
Implicit Types (fr : frame) (fields : list string).

Lemma bind_raise {S A B} (m : M S A) (f : A → M S B) (s : S) (e : exn) (s' : S) :
  m s = (Raise e, s') → (m ≫= f) s = (Raise e, s').
Proof. intros Hm. unfold mbind, M_bind. by rewrite Hm. Qed.

Lemma fails_bind_l P {A B} (m : M frame A) (f : A → M frame B) :
  fails_from P m → fails_from P (m ≫= f).
Proof.
  intros Hm fr HP. destruct (Hm fr HP) as (e & fr' & Hr).
  exists e, fr'. by apply bind_raise.
Qed.

Lemma fails_bind_r P Q {A B} (m : M frame A) (f : A → M frame B) :
  (∀ fr a fr', P fr → m fr = (Ok a, fr') → Q fr') →
  (∀ a, fails_from Q (f a)) → fails_from P (m ≫= f).
Proof.
  intros Hm Hf fr HP. unfold mbind, M_bind.
  destruct (m fr) as [[a|e] fr1] eqn:E; [|by eexists _, _].
  eapply Hf, Hm; done.
Qed.

Lemma on_it_vars {A} (m : M FieldIterator.t A) fr r fr' :
  on_it m fr = (r, fr') → vars fr' = vars fr.
Proof. unfold on_it. destruct (m (it fr)). by intros [= <- <-]. Qed.

Lemma fmap_vars {A B} (g : A → B) (m : M frame A) :
  (∀ fr r fr', m fr = (r, fr') → vars fr' = vars fr) →
  ∀ fr r fr', (g <$> m) fr = (r, fr') → vars fr' = vars fr.
Proof.
  intros Hm fr r fr'. unfold fmap, M_fmap.
  destruct (m fr) as [[a|e] fr1] eqn:E; intros [= <- <-]; by eapply Hm.
Qed.

Lemma pure_next : pure_reader next.
Proof. intros fr r fr'. apply on_it_vars. Qed.
Lemma pure_next_int : pure_reader next_int.
Proof. unfold pure_reader. apply fmap_vars. intros fr r fr'. apply on_it_vars. Qed.
Lemma pure_next_float : pure_reader next_float.
Proof. intros fr r fr'. apply on_it_vars. Qed.
Lemma pure_next_bool : pure_reader next_bool.
Proof. unfold pure_reader. apply fmap_vars. intros fr r fr'. apply on_it_vars. Qed.

(** An assignment to an attribute that the class does not declare. *)
Lemma setattr_undeclared var cls fields name v :
  pydantic_models → (cls, fields) ∈ models → name ∉ fields →
  fails_from (holds var cls) (setattr var name v).
Proof.
  intros Hpyd Hcls Hname fr [attrs Hv].
  destruct (Hpyd cls fields Hcls) as [_ Hset].
  destruct (Hset name v Hname) as [e He].
  exists e, fr. unfold setattr, get_var, lift, mbind, M_bind.
  by rewrite Hv, He.
Qed.

Lemma store_undeclared var cls fields name rdr :
  pydantic_models → (cls, fields) ∈ models → name ∉ fields →
  pure_reader rdr →
  fails_from (holds var cls) (store var name rdr).
Proof.
  intros Hpyd Hcls Hname Hpure. unfold store.
  apply (fails_bind_r _ (holds var cls)).
  - intros fr a fr' [attrs Hv] Hr. exists attrs. by rewrite (Hpure _ _ _ Hr).
  - intros v. by eapply setattr_undeclared.
Qed.

(** What a statement leaves in a variable it does not assign to. *)
Lemma new_other var cls args other cls' fr r fr' :
  var ≠ other → holds other cls' fr → new var cls args fr = (r, fr') →
  holds other cls' fr'.
Proof.
  intros Hne [attrs Hv]. unfold new, lift, set_var, modify, mbind, M_bind.
  destruct (new_object cls args); intros [= <- <-]; exists attrs; simpl;
    by rewrite ?lookup_insert_ne.
Qed.

Lemma new_holds var cls fields args fr fr' :
  pydantic_models → (cls, fields) ∈ models →
  new var cls args fr = (Ok tt, fr') → holds var cls fr'.
Proof.
  intros Hpyd Hcls. destruct (Hpyd cls fields Hcls) as [Hnew _].
  unfold new, lift, set_var, modify, mbind, M_bind.
  destruct (new_object cls args) as [o|e] eqn:E; [|done].
  intros [= <-]. destruct (Hnew args o E) as [attrs ->].
  exists attrs. simpl. apply lookup_insert_eq.
Qed.

Lemma setattr_other var name v other cls' fr r fr' :
  var ≠ other → holds other cls' fr → setattr var name v fr = (r, fr') →
  holds other cls' fr'.
Proof.
  intros Hne [attrs Hv].
  unfold setattr, get_var, lift, set_var, modify, raise, mbind, M_bind.
  destruct (vars fr !! var) as [[]|]; simpl; try (intros [= <- <-]; by exists attrs).
  destruct (setattr_check _ _ _); simpl; intros [= <- <-]; exists attrs; simpl;
    by rewrite ?lookup_insert_ne.
Qed.

Lemma setattr_same var name v cls fr fr' :
  holds var cls fr → setattr var name v fr = (Ok tt, fr') → holds var cls fr'.
Proof.
  intros [attrs Hv].
  unfold setattr, get_var, lift, set_var, modify, raise, mbind, M_bind.
  rewrite Hv. destruct (setattr_check _ _ _); simpl; [|done].
  intros [= <-]. eexists. simpl. apply lookup_insert_eq.
Qed.

Lemma store_other var name rdr other cls' fr r fr' :
  var ≠ other → pure_reader rdr → holds other cls' fr →
  store var name rdr fr = (r, fr') → holds other cls' fr'.
Proof.
  intros Hne Hpure Hh. unfold store, mbind, M_bind.
  destruct (rdr fr) as [[v|e] fr1] eqn:E.
  - apply setattr_other; [done|]. destruct Hh as [attrs Hv].
    exists attrs. by rewrite (Hpure _ _ _ E).
  - intros [= <- <-]. destruct Hh as [attrs Hv].
    exists attrs. by rewrite (Hpure _ _ _ E).
Qed.

Lemma Contract_model : ("Contract", Contract) ∈ models.
Proof. apply (list_elem_of_lookup_2 _ 0%nat). done. Qed.
Lemma DeltaNeutralContract_model : ("DeltaNeutralContract", DeltaNeutralContract) ∈ models.
Proof. apply (list_elem_of_lookup_2 _ 1%nat). done. Qed.
Lemma ContractDetails_model : ("ContractDetails", ContractDetails) ∈ models.
Proof. apply (list_elem_of_lookup_2 _ 2%nat). done. Qed.

Lemma not_declared (name : string) (fields : list string) :
  bool_decide (name ∈ fields) = false → name ∉ fields.
Proof. apply bool_decide_eq_false_1. Qed.

(** [contract.conId = it.next_int()], the first statement of the common
    contract block, on a pydantic [Contract]. *)
Lemma contract_fields_fail :
  pydantic_models → fails_from (holds "contract" "Contract") contract_fields.
Proof.
  intros Hpyd. unfold contract_fields. apply fails_bind_l.
  eapply store_undeclared; [done|apply Contract_model| |apply pure_next_int].
  by apply not_declared.
Qed.

Lemma store_same var name rdr cls fr fr' :
  pure_reader rdr → holds var cls fr →
  store var name rdr fr = (Ok tt, fr') → holds var cls fr'.
Proof.
  intros Hpure Hh. unfold store, mbind, M_bind.
  destruct (rdr fr) as [[v|e] fr1] eqn:E; [|done].
  apply setattr_same. destruct Hh as [attrs Hv].
  exists attrs. by rewrite (Hpure _ _ _ E).
Qed.

Lemma fails_anywhere {A} (P : frame → Prop) (m : M frame A) :
  fails_from (λ _, True) m → fails_from P m.
Proof. intros Hm fr _. by apply Hm. Qed.

(** X18.  With classes that behave as pydantic models (an
    instance of [Contract] takes no attribute that the class does not
    declare), [OpenOrderMessage.from_fields] and
    [CompletedOrderMessage.from_fields] raise on every record and every
    server version: after [Contract()] they assign [contract.conId],
    and [Contract] declares [contract_id], not [conId]. *)
Theorem order_decoders_reject_contract_attributes
    (fields : list string) (server_version : Z) :
  pydantic_models →
  (∃ e, OpenOrderMessage.from_fields fields server_version = Raise e)
  ∧ (∃ e, CompletedOrderMessage.from_fields fields server_version = Raise e).
Proof.
  intros Hpyd.
  assert (Hopen : fails_from (λ _, True) (OpenOrderMessage.body server_version)).
  { unfold OpenOrderMessage.body, OpenOrderMessage.before_min_trade,
      OpenOrderMessage.before_hedge.
    do 2 apply fails_bind_l.
    apply (fails_bind_r _ (λ _, True)); [done|intros _].
    apply (fails_bind_r _ (λ _, True)); [done|intros _].
    apply (fails_bind_r _ (holds "contract" "Contract")); [|intros _].
    { intros fr [] fr' _. apply new_holds with ContractModelFields.Contract;
        [done|apply Contract_model]. }
    apply (fails_bind_r _ (holds "contract" "Contract")); [|intros _].
    { intros fr [] fr' Hh. by apply new_other. }
    apply (fails_bind_r _ (holds "contract" "Contract")); [|intros _].
    { intros fr [] fr' Hh. apply store_other; [done|apply pure_next_int|done]. }
    apply fails_bind_l. by apply contract_fields_fail. }
  assert (Hdone : fails_from (λ _, True) (CompletedOrderMessage.body server_version)).
  { unfold CompletedOrderMessage.body, CompletedOrderMessage.before_min_trade,
      CompletedOrderMessage.before_hedge.
    do 2 apply fails_bind_l.
    apply (fails_bind_r _ (λ _, True)); [done|intros _].
    apply (fails_bind_r _ (holds "contract" "Contract")); [|intros _].
    { intros fr [] fr' _. apply new_holds with ContractModelFields.Contract;
        [done|apply Contract_model]. }
    apply (fails_bind_r _ (holds "contract" "Contract")); [|intros _].
    { intros fr [] fr' Hh. by apply new_other. }
    apply (fails_bind_r _ (holds "contract" "Contract")); [|intros _].
    { intros fr [] fr' Hh. by apply new_other. }
    apply fails_bind_l. by apply contract_fields_fail. }
  split.
  - destruct (Hopen (start fields) I) as (e & fr' & Hr). exists e.
    unfold OpenOrderMessage.from_fields, run. by rewrite Hr.
  - destruct (Hdone (start fields) I) as (e & fr' & Hr). exists e.
    unfold CompletedOrderMessage.from_fields, run. by rewrite Hr.
Qed.

(** X19.  [FieldParser.parse_order] and
    [FieldParser.parse_order_state] raise [NameError] on every cursor,
    before they read a token: [Order] and [OrderState] are imported
    under [if TYPE_CHECKING:] only, so the names are not bound when the
    methods call them. *)
Theorem parse_order_names_are_unbound (server_version : Z) (fr : frame) :
  FieldParserOrders.parse_order server_version fr
  = (Raise (OtherError "NameError"), fr)
  ∧ FieldParserOrders.parse_order_state fr = (Raise (OtherError "NameError"), fr).
Proof. done. Qed.
End strict.

Section details.
Context `{ObjEnv} `{!PydanticEnv}.
Implicit Types (fr : frame) (fields : list string).

Lemma pure_read_fields names data :
  pure_reader (ParseableModel.read_fields names data).
Proof.
  revert data. induction names as [|name names IH]; intros data fr r fr'; simpl.
  - by intros [= <- <-].
  - unfold mbind, M_bind. destruct (next fr) as [[v|e] fr1] eqn:E.
    + intros Hr. rewrite (IH _ _ _ _ Hr). by eapply pure_next.
    + intros [= <- <-]. by eapply pure_next.
Qed.

Lemma pure_parse_contract : pure_reader FieldParser.parse_contract.
Proof.
  intros fr r fr'. unfold FieldParser.parse_contract, ParseableModel.parse,
    lift, mbind, M_bind.
  destruct (ParseableModel.read_fields _ _ fr) as [[data|e] fr1] eqn:E;
    intros [= <- <-]; by eapply pure_read_fields.
Qed.

(** X20.  With classes that behave as pydantic models,
    [FieldParser.parse_contract_details] raises on every cursor and
    every server version: it assigns [details.marketName], and
    [ContractDetails] declares [market_name], not [marketName].  And
    [DeltaNeutralValidationMessage.from_fields] raises on every record:
    it assigns [dnc.conId], and [DeltaNeutralContract] declares
    [contract_id], not [conId]. *)
Theorem details_and_delta_neutral_reject_attributes :
  pydantic_models →
  (∀ server_version fr,
     ∃ e fr', FieldParser.parse_contract_details server_version fr = (Raise e, fr'))
  ∧ (∀ fields server_version,
       ∃ e, DeltaNeutralValidationMessage.from_fields fields server_version = Raise e).
Proof.
  intros Hpyd. split.
  - intros server_version fr.
    assert (Hbody : fails_from (λ _, True)
                      (FieldParser.parse_contract_details server_version)).
    { unfold FieldParser.parse_contract_details, FieldParser.before_size_fields.
      apply fails_bind_l.
      apply (fails_bind_r _ (holds "details" "ContractDetails")); [|intros _].
      { intros fr0 [] fr' _.
        apply new_holds with ContractModelFields.ContractDetails;
          [done|apply ContractDetails_model]. }
      apply (fails_bind_r _ (holds "details" "ContractDetails")); [|intros _].
      { intros fr0 [] fr' Hh. apply store_same; [apply pure_parse_contract|done]. }
      apply fails_bind_l.
      eapply store_undeclared; [done|apply ContractDetails_model| |apply pure_next].
      by apply not_declared. }
    exact (Hbody fr I).
  - intros fields server_version.
    assert (Hbody : fails_from (λ _, True)
                      (DeltaNeutralValidationMessage.body server_version)).
    { unfold DeltaNeutralValidationMessage.body.
      do 5 (apply (fails_bind_r _ (λ _, True)); [done|intros ?]).
      apply (fails_bind_r _ (holds "dnc" "DeltaNeutralContract")); [|intros _].
      { intros fr [] fr' _.
        apply new_holds with ContractModelFields.DeltaNeutralContract;
          [done|apply DeltaNeutralContract_model]. }
      apply fails_bind_l.
      eapply setattr_undeclared; [done|apply DeltaNeutralContract_model|].
      by apply not_declared. }
    destruct (Hbody (start fields) I) as (e & fr' & Hr). exists e.
    unfold DeltaNeutralValidationMessage.from_fields, MessageObjects.from_fields, run.
    by rewrite Hr.
Qed.
End details.
End AssignmentSpec.

(** ** [FieldParser.parse_tag_values] *)

Module FieldParserSpec.
Import Decode DecodeSpec MessageObjects Layout LayoutSpec MarketDataSpec.

Section parser.
Context `{ObjEnv} `{!PydanticEnv}.
Implicit Types (fr : frame) (fields : list string).

Lemma next_tag_value_at fields k fr :
  0 ≤ k → at_token fields k fr →
  ∃ tag value fr',
    next_tag_value fr = (Ok (VTuple [VStr tag; VStr value]), fr')
    ∧ str_token fields k = Ok (Some tag)
    ∧ str_token fields (k + 1) = Ok (Some value)
    ∧ at_token fields (k + 2) fr'
    ∧ vars fr' = vars fr.
Proof.
  intros Hk Hat.
  destruct (next_at fields k fr Hk Hat) as (tag & fr1 & R1 & T1 & A1 & V1).
  destruct (next_at fields (k + 1) fr1 ltac:(lia) A1) as (value & fr2 & R2 & T2 & A2 & V2).
  exists tag, value, fr2. unfold next_tag_value.
  rewrite (bind_ok _ _ _ _ _ R1), (bind_ok _ _ _ _ _ R2).
  split; [done|]. split; [done|]. split; [done|].
  split; [by replace (k + 2) with (k + 1 + 1) by lia|]. by rewrite V2.
Qed.

(** The loop of [parse_tag_values], run [n] times from token [k]. *)
Lemma tag_values_loop fields (n : nat) :
  ∀ k fr acc,
    0 ≤ k → at_token fields k fr →
    vars fr !! "tag_values" = Some (VList acc) →
    ∃ fr' pairs,
      repeat_m n (tv ← next_tag_value;
                  tvs ← get_var "tag_values";
                  match tvs with
                  | VList items => set_var "tag_values" (VList (items ++ [tv]))
                  | _ => raise AttributeError
                  end) fr = (Ok tt, fr')
      ∧ at_token fields (k + 2 * Z.of_nat n) fr'
      ∧ vars fr' !! "tag_values" = Some (VList (acc ++ pairs))
      ∧ List.length pairs = n
      ∧ ∀ (i : nat) p, pairs !! i = Some p →
          ∃ tag value, p = VTuple [VStr tag; VStr value]
                 ∧ str_token fields (k + 2 * Z.of_nat i) = Ok (Some tag)
                 ∧ str_token fields (k + 2 * Z.of_nat i + 1) = Ok (Some value).
Proof.
  induction n as [|n IH]; intros k fr acc Hk Hat Hdp.
  - exists fr, []. split; [done|].
    split; [by replace (k + 2 * Z.of_nat 0) with k by lia|].
    split; [by rewrite app_nil_r|]. split; [done|]. intros i p. by rewrite lookup_nil.
  - simpl repeat_m.
    destruct (next_tag_value_at fields k fr Hk Hat)
      as (tag & value & fr1 & R1 & T1 & T2 & A1 & V1).
    erewrite (bind_ok _ _ fr tt
      (mk (it fr1) (<["tag_values" := VList (acc ++ [VTuple [VStr tag; VStr value]])]>
                      (vars fr1)))).
    2:{ rewrite (bind_ok _ _ _ _ _ R1).
        unfold get_var, set_var, modify, mbind, M_bind.
        assert (Hdp1 : vars fr1 !! "tag_values" = Some (VList acc)) by by rewrite V1.
        by rewrite Hdp1. }
    destruct (IH (k + 2) (mk (it fr1)
                (<["tag_values" := VList (acc ++ [VTuple [VStr tag; VStr value]])]>
                   (vars fr1))) (acc ++ [VTuple [VStr tag; VStr value]]))
      as (fr' & pairs & Hrun & Hat' & Hdp' & Hlen & Hpairs).
    + lia.
    + by eapply at_token_it.
    + simpl. apply lookup_insert_eq.
    + exists fr', (VTuple [VStr tag; VStr value] :: pairs).
      split; [done|].
      split; [by replace (k + 2 * Z.of_nat (S n)) with (k + 2 + 2 * Z.of_nat n) by lia|].
      split; [by rewrite Hdp', <- app_assoc|].
      split; [simpl; by rewrite Hlen|].
      intros [|i] p Hp.
      * injection Hp as <-. exists tag, value. split; [done|].
        replace (k + 2 * Z.of_nat 0) with k by lia. done.
      * destruct (Hpairs i p Hp) as (x' & c' & -> & Hx & Hc).
        exists x', c'. split; [done|].
        by replace (k + 2 * Z.of_nat (S i)) with (k + 2 + 2 * Z.of_nat i) by lia.
Qed.

(** X21.  [FieldParser.parse_tag_values(fields, count)] never
    raises.  On a cursor at position [k >= 0] it returns [count] pairs
    (none when [count] is negative), the [i]-th being tokens [k + 2i]
    and [k + 2i + 1] as [next()] reads them (the empty string past the
    end of the record), and it leaves the cursor [2 count] tokens
    further, or at the end of the record. *)
Theorem parse_tag_values_reads_count_pairs
    (fields : list string) (k count : Z) (fr : frame) :
  0 ≤ k → at_token fields k fr →
  ∃ pairs fr',
    FieldParser.parse_tag_values count fr = (Ok (VList pairs), fr')
    ∧ at_token fields (k + 2 * Z.max 0 count) fr'
    ∧ List.length pairs = Z.to_nat count
    ∧ ∀ (i : nat) p, pairs !! i = Some p →
        ∃ tag value, p = VTuple [VStr tag; VStr value]
               ∧ str_token fields (k + 2 * Z.of_nat i) = Ok (Some tag)
               ∧ str_token fields (k + 2 * Z.of_nat i + 1) = Ok (Some value).
Proof.
  intros Hk Hat.
  destruct (tag_values_loop fields (Z.to_nat count) k
              (mk (it fr) (<["tag_values" := VList []]> (vars fr))) [])
    as (fr' & pairs & Hrun & Hat' & Hdp & Hlen & Hpairs);
    [done|by eapply at_token_it|apply lookup_insert_eq|].
  exists pairs, fr'. split; [|split; [|done]].
  - unfold FieldParser.parse_tag_values, for_range.
    rewrite (bind_ok (set_var _ _) _ fr tt _ eq_refl).
    rewrite (bind_ok _ _ _ _ _ Hrun).
    unfold get_var. by rewrite Hdp.
  - by replace (Z.max 0 count) with (Z.of_nat (Z.to_nat count)) by lia.
Qed.
End parser.
End FieldParserSpec.

(** ** The order decoders and [parse_contract_details] on the models of
    [ib_insync.contract] *)

Module OrderDecodersSpec.
Import Decode DecodeSpec MessageObjects Layout LayoutSpec MarketDataSpec.
Import OrderGrammar OrderDecoders ContractModelFields AssignmentSpec.

Section failures.
Context `{ObjEnv} `{!PydanticEnv}.
Implicit Types (fr : frame) (fields : list string).

Lemma stops_bind_l P E {A B} (m : M frame A) (f : A → M frame B) :
  stops_in P m E → stops_in P (m ≫= f) E.
Proof.
  intros Hm fr HP. destruct (Hm fr HP) as (e & fr' & Hr & HE).
  exists e, fr'. split; [by apply bind_raise|done].
Qed.

Lemma stops_bind_r P Q E {A B} (m : M frame A) (f : A → M frame B) :
  (∀ fr r fr', P fr → m fr = (r, fr') →
     match r with Ok _ => Q fr' | Raise _ => E fr' end) →
  (∀ a, stops_in Q (f a) E) → stops_in P (m ≫= f) E.
Proof.
  intros Hm Hf fr HP. unfold mbind, M_bind.
  destruct (m fr) as [[a|e] fr1] eqn:Em.
  - apply Hf. exact (Hm fr (Ok a) fr1 HP Em).
  - exists e, fr1. split; [done|]. exact (Hm fr (Raise e) fr1 HP Em).
Qed.

Lemma alike_bind_l P {A1 A2 B1 B2} (m1 : M frame A1) (m2 : M frame A2)
    (f1 : A1 → M frame B1) (f2 : A2 → M frame B2) :
  fail_alike P m1 m2 → fail_alike P (m1 ≫= f1) (m2 ≫= f2).
Proof.
  intros Hm fr HP. destruct (Hm fr HP) as (e & fr' & Hr1 & Hr2).
  exists e, fr'. split; by apply bind_raise.
Qed.

Lemma alike_bind_r P Q {A B1 B2} (m : M frame A)
    (f1 : A → M frame B1) (f2 : A → M frame B2) :
  (∀ fr a fr', P fr → m fr = (Ok a, fr') → Q fr') →
  (∀ a, fail_alike Q (f1 a) (f2 a)) → fail_alike P (m ≫= f1) (m ≫= f2).
Proof.
  intros Hm Hf fr HP. unfold mbind, M_bind.
  destruct (m fr) as [[a|e] fr1] eqn:Em; [|by exists e, fr1].
  eapply Hf, Hm; done.
Qed.

Lemma alike_fails P {A B1 B2} (m : M frame A)
    (f1 : A → M frame B1) (f2 : A → M frame B2) :
  fails_from P m → fail_alike P (m ≫= f1) (m ≫= f2).
Proof.
  intros Hm fr HP. destruct (Hm fr HP) as (e & fr' & Hr).
  exists e, fr'. split; by apply bind_raise.
Qed.

(** Where the statements before the first assignment to the contract
    leave the cursor, whether they return or raise. *)
Lemma at_token_at_most fields k bound fr :
  k ≤ bound → at_token fields k fr → read_at_most fields bound fr.
Proof. intros Hk [Hok Hpos]. split; [done|]. lia. Qed.

Lemma skip_one_at fields k fr r fr' :
  0 ≤ k → at_token fields k fr → skip 1 fr = (r, fr') →
  r = Ok tt ∧ at_token fields (k + 1) fr'.
Proof.
  intros Hk Hat Hr.
  destruct (skip_at fields k 1 fr) as (fr1 & Hs & Hat1 & _); [lia|lia|done|].
  rewrite Hs in Hr. by injection Hr as <- <-.
Qed.

Lemma new_at fields k var cls args fr r fr' :
  at_token fields k fr → new var cls args fr = (r, fr') → at_token fields k fr'.
Proof.
  intros Hat Hr. apply (at_token_it fields k fr); [done|]. revert Hr.
  unfold new, lift, set_var, modify, mbind, M_bind.
  destruct (new_object cls args); by intros [= <- <-].
Qed.

Lemma store_int_at fields k var name fr r fr' :
  0 ≤ k → at_token fields k fr → store var name next_int fr = (r, fr') →
  at_token fields (k + 1) fr'.
Proof.
  intros Hk Hat. unfold store, mbind, M_bind.
  destruct (next_int_at fields k fr Hk Hat) as (a & fr1 & -> & _ & Hat1 & _).
  intros Hs. apply setattr_it in Hs. by apply (at_token_it fields (k + 1) fr1).
Qed.

(** [contract.conId = it.next_int()]: the token is read, and the
    assignment raises. *)
Lemma contract_fields_stop fields k :
  pydantic_models → 0 ≤ k →
  stops_in (λ fr, at_token fields k fr ∧ holds "contract" "Contract" fr)
    contract_fields (read_at_most fields (k + 1)).
Proof.
  intros Hpyd Hk fr [Hat Hh].
  assert (Hs : fails_from (holds "contract" "Contract")
                 (store "contract" "conId" next_int)).
  { eapply store_undeclared; [done|apply Contract_model| |apply pure_next_int].
    by apply not_declared. }
  destruct (Hs fr Hh) as (e & fr' & Hr). exists e, fr'. split.
  - unfold contract_fields. by apply bind_raise.
  - apply at_token_at_most with (k + 1); [lia|]. by eapply store_int_at.
Qed.

Lemma open_order_stops fields sv :
  pydantic_models →
  stops_in (at_token fields 0) (OpenOrderMessage.before_hedge sv)
    (read_at_most fields 3).
Proof.
  intros Hpyd. unfold OpenOrderMessage.before_hedge.
  apply (stops_bind_r _ (at_token fields 1)); [|intros _].
  { intros fr r fr' Hat Hr.
    destruct (skip_one_at fields 0 fr r fr' ltac:(lia) Hat Hr) as [-> Hat'].
    done. }
  apply (stops_bind_r _ (at_token fields 1)); [|intros _].
  { intros fr r fr' Hat Hr. pose proof (new_at _ _ _ _ _ _ _ _ Hat Hr) as Hat'.
    destruct r; [done|]. by apply at_token_at_most with 1. }
  apply (stops_bind_r _ (λ fr, at_token fields 1 fr
                               ∧ holds "contract" "Contract" fr)); [|intros _].
  { intros fr r fr' Hat Hr. pose proof (new_at _ _ _ _ _ _ _ _ Hat Hr) as Hat'.
    destruct r as [[]|e]; [|by apply at_token_at_most with 1].
    split; [done|]. by eapply new_holds; [|apply Contract_model|]. }
  apply (stops_bind_r _ (λ fr, at_token fields 1 fr
                               ∧ holds "contract" "Contract" fr)); [|intros _].
  { intros fr r fr' [Hat Hh] Hr.
    pose proof (new_at _ _ _ _ _ _ _ _ Hat Hr) as Hat'.
    destruct r; [|by apply at_token_at_most with 1].
    split; [done|]. by eapply new_other; [| |exact Hr]. }
  apply (stops_bind_r _ (λ fr, at_token fields 2 fr
                               ∧ holds "contract" "Contract" fr)); [|intros _].
  { intros fr r fr' [Hat Hh] Hr.
    pose proof (store_int_at _ 1 _ _ _ _ _ ltac:(lia) Hat Hr) as Hat'.
    destruct r; [|by apply at_token_at_most with 2].
    split; [done|]. by eapply store_other; [|apply pure_next_int| |exact Hr]. }
  apply stops_bind_l. by apply (contract_fields_stop fields 2).
Qed.

Lemma completed_order_stops fields sv :
  pydantic_models →
  stops_in (at_token fields 0) (CompletedOrderMessage.before_hedge sv)
    (read_at_most fields 2).
Proof.
  intros Hpyd. unfold CompletedOrderMessage.before_hedge.
  apply (stops_bind_r _ (at_token fields 1)); [|intros _].
  { intros fr r fr' Hat Hr.
    destruct (skip_one_at fields 0 fr r fr' ltac:(lia) Hat Hr) as [-> Hat'].
    done. }
  apply (stops_bind_r _ (λ fr, at_token fields 1 fr
                               ∧ holds "contract" "Contract" fr)); [|intros _].
  { intros fr r fr' Hat Hr. pose proof (new_at _ _ _ _ _ _ _ _ Hat Hr) as Hat'.
    destruct r as [[]|e]; [|by apply at_token_at_most with 1].
    split; [done|]. by eapply new_holds; [|apply Contract_model|]. }
  apply (stops_bind_r _ (λ fr, at_token fields 1 fr
                               ∧ holds "contract" "Contract" fr)); [|intros _].
  { intros fr r fr' [Hat Hh] Hr.
    pose proof (new_at _ _ _ _ _ _ _ _ Hat Hr) as Hat'.
    destruct r; [|by apply at_token_at_most with 1].
    split; [done|]. by eapply new_other; [| |exact Hr]. }
  apply (stops_bind_r _ (λ fr, at_token fields 1 fr
                               ∧ holds "contract" "Contract" fr)); [|intros _].
  { intros fr r fr' [Hat Hh] Hr.
    pose proof (new_at _ _ _ _ _ _ _ _ Hat Hr) as Hat'.
    destruct r; [|by apply at_token_at_most with 1].
    split; [done|]. by eapply new_other; [| |exact Hr]. }
  apply stops_bind_l. by apply (contract_fields_stop fields 1).
Qed.

(** C6, on the code as it is.  The classes being the pydantic models of
    [ib_insync.contract], the decoders of open orders and of completed
    orders never reach their hedge block.  On every record and for every
    server version the statements before the block raise:
    [contract.conId = it.next_int()] assigns an attribute that [Contract]
    does not declare.  The cursor has then moved past three tokens at
    most (two in the decoder of completed orders), so neither the hedge
    type nor the hedge parameter is consumed, and [from_fields] raises
    that exception. *)
Theorem hedge_block_is_never_reached (fields : list string) (server_version : Z) :
  pydantic_models →
  (∃ e fr',
     OpenOrderMessage.before_hedge server_version (start fields) = (Raise e, fr')
     ∧ cursor_ok fields fr' ∧ position fr' ≤ 3
     ∧ OpenOrderMessage.from_fields fields server_version = Raise e)
  ∧ (∃ e fr',
       CompletedOrderMessage.before_hedge server_version (start fields)
       = (Raise e, fr')
       ∧ cursor_ok fields fr' ∧ position fr' ≤ 2
       ∧ CompletedOrderMessage.from_fields fields server_version = Raise e).
Proof.
  intros Hpyd. split.
  - destruct (open_order_stops fields server_version Hpyd (start fields)
                (at_token_start fields)) as (e & fr' & Hr & Hok & Hpos).
    exists e, fr'. split; [exact Hr|]. split; [exact Hok|]. split; [exact Hpos|].
    assert (Hb : OpenOrderMessage.body server_version (start fields)
                 = (Raise e, fr')).
    { unfold OpenOrderMessage.body, OpenOrderMessage.before_min_trade.
      do 2 apply bind_raise. exact Hr. }
    unfold OpenOrderMessage.from_fields, run. by rewrite Hb.
  - destruct (completed_order_stops fields server_version Hpyd (start fields)
                (at_token_start fields)) as (e & fr' & Hr & Hok & Hpos).
    exists e, fr'. split; [exact Hr|]. split; [exact Hok|]. split; [exact Hpos|].
    assert (Hb : CompletedOrderMessage.body server_version (start fields)
                 = (Raise e, fr')).
    { unfold CompletedOrderMessage.body, CompletedOrderMessage.before_min_trade.
      do 2 apply bind_raise. exact Hr. }
    unfold CompletedOrderMessage.from_fields, run. by rewrite Hb.
Qed.

(** The runs for two server versions *)
Lemma before_size_fields_fails :
  pydantic_models → fails_from (λ _, True) FieldParser.before_size_fields.
Proof.
  intros Hpyd. unfold FieldParser.before_size_fields.
  apply (fails_bind_r _ (holds "details" "ContractDetails")); [|intros _].
  { intros fr0 [] fr' _.
    apply new_holds with ContractModelFields.ContractDetails;
      [done|apply ContractDetails_model]. }
  apply (fails_bind_r _ (holds "details" "ContractDetails")); [|intros _].
  { intros fr0 [] fr' Hh. apply store_same; [apply pure_parse_contract|done]. }
  apply fails_bind_l.
  eapply store_undeclared; [done|apply ContractDetails_model| |apply pure_next].
  by apply not_declared.
Qed.

Lemma open_order_alike sv1 sv2 :
  pydantic_models →
  fail_alike (λ _, True) (OpenOrderMessage.body sv1) (OpenOrderMessage.body sv2).
Proof.
  intros Hpyd.
  unfold OpenOrderMessage.body, OpenOrderMessage.before_min_trade,
    OpenOrderMessage.before_hedge.
  do 2 apply alike_bind_l.
  apply (alike_bind_r _ (λ _, True)); [done|intros _].
  apply (alike_bind_r _ (λ _, True)); [done|intros _].
  apply (alike_bind_r _ (holds "contract" "Contract")); [|intros _].
  { intros fr [] fr' _. apply new_holds with ContractModelFields.Contract;
      [done|apply Contract_model]. }
  apply (alike_bind_r _ (holds "contract" "Contract")); [|intros _].
  { intros fr [] fr' Hh. by apply new_other. }
  apply (alike_bind_r _ (holds "contract" "Contract")); [|intros _].
  { intros fr [] fr' Hh. apply store_other; [done|apply pure_next_int|done]. }
  apply alike_fails. by apply contract_fields_fail.
Qed.

Lemma completed_order_alike sv1 sv2 :
  pydantic_models →
  fail_alike (λ _, True) (CompletedOrderMessage.body sv1)
    (CompletedOrderMessage.body sv2).
Proof.
  intros Hpyd.
  unfold CompletedOrderMessage.body, CompletedOrderMessage.before_min_trade,
    CompletedOrderMessage.before_hedge.
  do 2 apply alike_bind_l.
  apply (alike_bind_r _ (λ _, True)); [done|intros _].
  apply (alike_bind_r _ (holds "contract" "Contract")); [|intros _].
  { intros fr [] fr' _. apply new_holds with ContractModelFields.Contract;
      [done|apply Contract_model]. }
  apply (alike_bind_r _ (holds "contract" "Contract")); [|intros _].
  { intros fr [] fr' Hh. by apply new_other. }
  apply (alike_bind_r _ (holds "contract" "Contract")); [|intros _].
  { intros fr [] fr' Hh. by apply new_other. }
  apply alike_fails. by apply contract_fields_fail.
Qed.

Lemma alike_for_every_version {A} (m : Z → M frame A) (fr : frame) :
  (∀ sv1 sv2, fail_alike (λ _, True) (m sv1) (m sv2)) →
  ∃ e fr', ∀ sv, m sv fr = (Raise e, fr').
Proof.
  intros Hm. destruct (Hm 0 0 fr I) as (e & fr' & Hr0 & _).
  exists e, fr'. intros sv.
  destruct (Hm 0 sv fr I) as (e1 & fr1 & Hr1 & Hr2).
  rewrite Hr0 in Hr1. by injection Hr1 as <- <-.
Qed.

(** C7, on the code as it is.  The classes being the pydantic models of
    [ib_insync.contract], no version-gated block is ever reached, and the
    server version makes no difference to a run.  From every cursor
    [parse_contract_details] raises the same exception and leaves the
    same cursor and variables for every server version, so that it
    consumes as many tokens for version 164 as for version 163:
    [details.marketName = fields.next()] assigns an attribute that
    [ContractDetails] does not declare, before the gated size fields.
    Likewise, on every record, the decoders of open orders and of
    completed orders raise at [contract.conId] in the same state for
    every server version, before any gated field and before the fields
    from [minTradeQty] on. *)
Theorem version_gates_are_never_reached :
  pydantic_models →
  (∀ fr, ∃ e fr', ∀ server_version,
     FieldParser.parse_contract_details server_version fr = (Raise e, fr'))
  ∧ (∀ d fields, ∃ e fr', ∀ server_version,
       OrderDecoders.body d server_version (start fields) = (Raise e, fr'))
  ∧ (∀ fields, ∃ e, ∀ server_version,
       OpenOrderMessage.from_fields fields server_version = Raise e)
  ∧ (∀ fields, ∃ e, ∀ server_version,
       CompletedOrderMessage.from_fields fields server_version = Raise e).
Proof.
  intros Hpyd.
  assert (Hbody : ∀ d fields, ∃ e fr', ∀ sv,
            OrderDecoders.body d sv (start fields) = (Raise e, fr')).
  { intros d fields. apply alike_for_every_version. intros sv1 sv2.
    destruct d; [by apply open_order_alike|by apply completed_order_alike]. }
  split; [|split; [done|split]].
  - intros fr. apply alike_for_every_version. intros sv1 sv2.
    unfold FieldParser.parse_contract_details.
    apply alike_fails. by apply before_size_fields_fails.
  - intros fields. destruct (Hbody OpenOrder fields) as (e & fr' & Hr).
    exists e. intros sv. unfold OpenOrderMessage.from_fields, run.
    change (OpenOrderMessage.body sv) with (OrderDecoders.body OpenOrder sv).
    by rewrite Hr.
  - intros fields. destruct (Hbody CompletedOrder fields) as (e & fr' & Hr).
    exists e. intros sv. unfold CompletedOrderMessage.from_fields, run.
    change (CompletedOrderMessage.body sv)
      with (OrderDecoders.body CompletedOrder sv).
    by rewrite Hr.
Qed.
End failures.
End OrderDecodersSpec.

(** ** [ParseableModel.parse] and the subclasses of [ParseableModel] *)

Module ParseableModelSpec.
Import Decode DecodeSpec Layout LayoutSpec MarketDataSpec.

Section parse.
Context `{ObjEnv}.
Implicit Types (fr : frame) (fields names : list string).

(** [read_fields] from token [k]: each name gets the token at its place,
    and the names that are not read keep what they had. *)
Lemma read_fields_at fields names :
  NoDup names →
  ∀ k fr data0,
    0 ≤ k → at_token fields k fr →
    ∃ data fr',
      ParseableModel.read_fields names data0 fr = (Ok data, fr')
      ∧ at_token fields (k + Z.of_nat (List.length names)) fr'
      ∧ vars fr' = vars fr
      ∧ (∀ (i : nat) name, names !! i = Some name →
           ∃ s, str_token fields (k + Z.of_nat i) = Ok (Some s)
                ∧ data !! name = Some (VStr s))
      ∧ (∀ name, name ∉ names → data !! name = data0 !! name).
Proof.
  induction names as [|name names IH]; intros Hnd k fr data0 Hk Hat.
  - exists data0, fr. split; [done|].
    split; [by replace (k + Z.of_nat (List.length [])) with k by (simpl; lia)|].
    split; [done|]. split; [|done]. intros i name. by rewrite lookup_nil.
  - apply NoDup_cons in Hnd as [Hnotin Hnd].
    destruct (next_at fields k fr Hk Hat) as (s & fr1 & R1 & T1 & A1 & V1).
    destruct (IH Hnd (k + 1) fr1 (<[name := VStr s]> data0) ltac:(lia) A1)
      as (data & fr' & Hrun & Hat' & Hv & Hread & Hkeep).
    exists data, fr'. simpl ParseableModel.read_fields.
    rewrite (bind_ok _ _ _ _ _ R1).
    split; [done|].
    split; [by replace (k + Z.of_nat (List.length (name :: names)))
              with (k + 1 + Z.of_nat (List.length names)) by (simpl; lia)|].
    split; [by rewrite Hv|].
    split.
    + intros [|i] name' Hi.
      * injection Hi as <-. exists s.
        split; [by replace (k + Z.of_nat 0) with k by lia|].
        rewrite Hkeep by done. apply lookup_insert_eq.
      * destruct (Hread i name' Hi) as (s' & Hs' & Hd). exists s'.
        split; [|done].
        by replace (k + Z.of_nat (S i)) with (k + 1 + Z.of_nat i) by lia.
    + intros name' Hnot. apply not_elem_of_cons in Hnot as [Hne Hnot].
      rewrite Hkeep by done. by rewrite lookup_insert_ne.
Qed.

(** X22.  [ParseableModel.parse], for a class whose
    [_parser_fields] are distinct, on a cursor at position [k >= 0]:
    the result is [cls.model_validate(data)] where [data] maps the
    [i]-th name of [_parser_fields] to token [k + i] as [next()] reads
    it (the empty string past the end of the record) and has no other
    key; the cursor is left one token further for each name, or at the
    end of the record. *)
Theorem parse_gives_each_field_its_token
    (names : list string) (model_validate : gmap string pyval → outcome pyval)
    (fields : list string) (k : Z) (fr : frame) :
  NoDup names → 0 ≤ k → at_token fields k fr →
  ∃ data fr',
    ParseableModel.parse names model_validate fr = (model_validate data, fr')
    ∧ at_token fields (k + Z.of_nat (List.length names)) fr'
    ∧ (∀ (i : nat) name, names !! i = Some name →
         ∃ s, str_token fields (k + Z.of_nat i) = Ok (Some s)
              ∧ data !! name = Some (VStr s))
    ∧ (∀ name, name ∉ names → data !! name = None).
Proof.
  intros Hnd Hk Hat.
  destruct (read_fields_at fields names Hnd k fr ∅ Hk Hat)
    as (data & fr' & Hrun & Hat' & Hv & Hread & Hkeep).
  exists data, fr'. unfold ParseableModel.parse.
  rewrite (bind_ok _ _ _ _ _ Hrun).
  split; [done|]. split; [done|]. split; [done|].
  intros name Hnot. by rewrite Hkeep.
Qed.

(** X23.  A class statement that derives from [ParseableModel] creates
    its class exactly when [_parser_fields], as the class body assigns it
    or else as the class inherits it, is not empty; otherwise
    [__init_subclass__] raises [NotImplementedError].
    [VersionedParseableModel] does not assign [_parser_fields] and
    inherits the empty tuple of [ParseableModel]: its class statement
    raises, so the class is never created and its [parse] cannot be
    called.  [Contract] and [DeltaNeutralContract], which assign the
    name, and the classes of [contract/specialized.py], which inherit it
    from [Contract], are created. *)
Theorem versioned_model_class_is_never_created :
  (∀ own inherited,
     ParseableModelClass.__init_subclass__ own inherited = Ok tt
     ↔ ParseableModelClass.cls_parser_fields own inherited ≠ [])
  ∧ (∀ own inherited,
       ParseableModelClass.__init_subclass__ own inherited
       = Raise (OtherError "NotImplementedError")
       ↔ (own = Some [] ∨ (own = None ∧ inherited = [])))
  ∧ ParseableModelClass.VersionedParseableModel
    = Raise (OtherError "NotImplementedError")
  ∧ ParseableModelClass.Contract = Ok tt
  ∧ ParseableModelClass.DeltaNeutralContract = Ok tt
  ∧ ParseableModelClass.specialized = Ok tt.
Proof.
  split; [|split; [|by repeat split]].
  - intros own inherited. unfold ParseableModelClass.__init_subclass__.
    case_bool_decide as Hc; split; intros Hr; done.
  - intros own inherited.
    unfold ParseableModelClass.__init_subclass__,
      ParseableModelClass.cls_parser_fields.
    case_bool_decide as Hc; split.
    + intros _. destruct own as [own|]; simpl in Hc; [left|right]; by subst.
    + done.
    + done.
    + intros [->|[-> ->]]; by destruct Hc.
Qed.
End parse.
End ParseableModelSpec.

(** ** Contracts: equality, hashing and resolution *)

Module ContractMethodsSpec.
Import ContractMethods.

Section methods.
Context `{PyEnv}.
Context (py_hash : pyval → Z) (py_str : pyval → string).

Local Abbreviation __hash__ := (__hash__ py_hash).
Local Abbreviation __eq__ := (__eq__ py_hash).

(** X24.  Equal contracts have equal hashes: when [a == b] is
    [True], [hash(a)] and [hash(b)] are defined and the same.  And when
    [b] is a contract and both have a positive [contract_id], [a == b]
    holds exactly when the two [contract_id] are equal, whatever the
    other fields and the classes. *)
Theorem contract_equality_agrees_with_hash (a b : pyval) :
  (__eq__ a b = Ok true → ∃ h, __hash__ a = Ok h ∧ __hash__ b = Ok h)
  ∧ (∀ n m, is_Contract b = true →
       contract_id a = Ok n → contract_id b = Ok m → 0 < n → 0 < m →
       __eq__ a b = Ok (bool_decide (n = m))).
Proof.
  split.
  - unfold ContractMethods.__eq__, ContractMethods.__hash__, ParseableModel_eq,
      ContractMethods.__hash__, is_hashable.
    destruct (is_Contract b); simpl; [|done].
    destruct (contract_id a) as [n|e] eqn:Ha; [|done].
    destruct (0 <? n) eqn:Hn.
    + destruct (contract_id b) as [m|e] eqn:Hb; [|done].
      destruct (0 <? m) eqn:Hm.
      * intros [= Heq]. apply Z.eqb_eq in Heq as ->. by eexists.
      * destruct (is_instance_of_class_of b a); simpl; [|done].
        destruct (ParseableModel_hash py_hash b) as [h|e]; [|done].
        intros [= Heq]. apply Z.eqb_eq in Heq as ->. by eexists.
    + destruct (is_instance_of_class_of b a); simpl; [|done].
      destruct (ParseableModel_hash py_hash a) as [h1|e]; [|done].
      destruct (contract_id b) as [m|e] eqn:Hb; [|done].
      destruct (0 <? m) eqn:Hm.
      * intros [= Heq]. apply Z.eqb_eq in Heq as ->. by eexists.
      * destruct (ParseableModel_hash py_hash b) as [h2|e]; [|done].
        intros [= Heq]. apply Z.eqb_eq in Heq as ->. by eexists.
  - intros n m Hb Hn Hm Hpn Hpm.
    unfold ContractMethods.__eq__, is_hashable. rewrite Hb, Hn, Hm. simpl.
    destruct (Z.ltb_spec 0 n); [|lia]. destruct (Z.ltb_spec 0 m); [|lia].
    f_equal. destruct (Z.eqb_spec n m);
      [by rewrite bool_decide_eq_true_2|by rewrite bool_decide_eq_false_2].
Qed.
End methods.
End ContractMethodsSpec.

Module ContractAdapterMore.
Import Pydantic ContractModels ContractAdapter ContractAdapterSpec.

Section adapter.
Context `{PydanticEnv}.

Lemma validate_fields_None (fs : list field) data (f : field) :
  f ∈ fs → validate_field f data = None → validate_fields fs data = None.
Proof.
  intros Hin Hf. induction fs as [|g fs IH]; [by apply elem_of_nil in Hin|].
  apply elem_of_cons in Hin as [<-|Hin]; simpl.
  - by rewrite Hf.
  - destruct (validate_field g data); [|done]. simpl. by rewrite IH.
Qed.

Lemma validate_fields_lookup (fs : list field) data attrs :
  NoDup (fname <$> fs) → validate_fields fs data = Some attrs →
  ∀ f, f ∈ fs → attrs !! fname f = validate_field f data.
Proof.
  revert attrs. induction fs as [|g fs IH]; intros attrs Hnd Hv f Hin;
    [by apply elem_of_nil in Hin|].
  simpl in Hv. destruct (validate_field g data) as [v|] eqn:Hg; [|done].
  destruct (validate_fields fs data) as [attrs'|] eqn:Hrest; [|done].
  simpl in Hv. injection Hv as <-.
  rewrite fmap_cons in Hnd. apply NoDup_cons in Hnd as [Hnotin Hnd].
  apply elem_of_cons in Hin as [->|Hin].
  - by rewrite lookup_insert_eq.
  - rewrite lookup_insert_ne; [by apply IH|].
    intros Heq. apply Hnotin. rewrite Heq. by apply list_elem_of_fmap_2.
Qed.

Lemma Contract_names_NoDup : NoDup (fname <$> Contract).
Proof. apply (bool_decide_unpack _). by vm_compute. Qed.

(** Every member of the union redeclares [security_type] as the literal
    of its tag and has the field names of [Contract]. *)
Lemma specialized_fields tag cls fs :
  (tag, (cls, fs)) ∈ specialized →
  fs !! 2%nat = Some (literal tag) ∧ fname <$> fs = fname <$> Contract.
Proof.
  unfold specialized. intros Hin.
  repeat (apply elem_of_cons in Hin as [[= -> -> ->]|Hin]; [by split|]).
  by apply elem_of_nil in Hin.
Qed.

Lemma model_validate_attrs cls fs data obj_cls attrs :
  model_validate cls fs data = Ok (VObj obj_cls attrs) →
  obj_cls = cls
  ∧ ∃ attrs0, validate_fields fs data = Some attrs0
      ∧ ∀ name, name ≠ "combo_legs" → name ≠ "delta_neutral_contract" →
          attrs !! name = attrs0 !! name.
Proof.
  unfold model_validate.
  destruct (validate_fields fs data) as [attrs0|]; [|done].
  destruct (validate_nested data) as [[legs dnc]|]; [|done].
  destruct (_ && _); [done|]. intros [= -> <-]. split; [done|].
  exists attrs0. split; [done|]. intros name H1 H2.
  by rewrite !lookup_insert_ne.
Qed.

Lemma handle_pair_str data pr data' :
  data !! "pair" = Some (VStr pr) → handle_pair data = Ok data' →
  ∀ name, name ≠ "symbol" → name ≠ "currency" → data' !! name = data !! name.
Proof.
  intros Hp. unfold handle_pair. rewrite Hp.
  destruct (bool_decide _); [|by intros [= <-]].
  intros [= <-] name H1 H2.
  repeat match goal with |- context [if ?b then _ else _] => destruct b end;
    by rewrite ?lookup_insert_ne.
Qed.

Lemma handle_pair_none data data' :
  data !! "pair" = None → handle_pair data = Ok data' → data' = data.
Proof. intros Hp. unfold handle_pair. rewrite Hp. by intros [= <-]. Qed.

Lemma literal_validated tag (data : gmap string pyval) :
  data !! "security_type" = Some (VStr tag) →
  validate_field (literal tag) data = Some (VStr tag).
Proof.
  intros Hd. unfold validate_field, literal. simpl. rewrite Hd. simpl.
  by rewrite bool_decide_eq_true_2.
Qed.

(** The attributes of a validated member of the union. *)
Lemma member_security_type tag cls fs data obj_cls attrs :
  (tag, (cls, fs)) ∈ specialized →
  data !! "security_type" = Some (VStr tag) →
  model_validate cls fs data = Ok (VObj obj_cls attrs) →
  obj_cls = cls ∧ attrs !! "security_type" = Some (VStr tag).
Proof.
  intros Hin Hd Hv.
  destruct (specialized_fields _ _ _ Hin) as [Hlit Hnames].
  destruct (model_validate_attrs _ _ _ _ _ Hv) as (-> & attrs0 & Hfs & Hattrs).
  split; [done|]. rewrite Hattrs by done.
  assert (Hnd : NoDup (fname <$> fs)) by (rewrite Hnames; apply Contract_names_NoDup).
  assert (Hmem : literal tag ∈ fs) by by eapply list_elem_of_lookup_2.
  transitivity (validate_field (literal tag) data);
    [exact (validate_fields_lookup fs data attrs0 Hnd Hfs (literal tag) Hmem)|].
  by apply literal_validated.
Qed.

(** X25.  When [ContractAdapter.parse(data)] returns an object
    ([data['pair']], if present, being text), the object is a plain
    [Contract], or it is an instance of the specialised class that the
    union lists for the tag [data['security_type']], and its
    [security_type] is that tag. *)
Theorem parse_resolves_by_security_type
    (data : gmap string pyval) (cls : string) (attrs : gmap string pyval) :
  match data !! "pair" with
  | Some (VStr _) | None => True
  | Some _ => False
  end →
  parse data = Ok (VObj cls attrs) →
  cls = "Contract"
  ∨ (∃ tag fs,
       data !! "security_type" = Some (VStr tag)
       ∧ (tag, (cls, fs)) ∈ specialized
       ∧ attrs !! "security_type" = Some (VStr tag)).
Proof.
  intros Hpair. unfold parse, validate_python.
  assert (Hbase : ∀ data',
    model_validate "Contract" Contract data' = Ok (VObj cls attrs) →
    cls = "Contract").
  { intros data' Hv. by destruct (model_validate_attrs _ _ _ _ _ Hv) as [-> _]. }
  destruct (data !! "security_type") as [[| | | |tag| | | | |]|] eqn:Hst;
    try (intros Hv; left; by eapply Hbase).
  destruct (list_to_map specialized !! tag) as [[c fs]|] eqn:Htag;
    [|intros Hv; left; by eapply Hbase].
  apply elem_of_list_to_map_2 in Htag.
  destruct (bool_decide (c = "Forex")).
  - destruct (handle_pair data) as [data'|e] eqn:Hhp.
    + destruct (model_validate c fs data') as [obj|[]] eqn:Hv;
        try done; [|intros Hb; left; by eapply Hbase].
      intros [= ->]. right. exists tag, fs.
      assert (Hst' : data' !! "security_type" = Some (VStr tag)).
      { destruct (data !! "pair") as [[]|] eqn:Hp; try done.
        - by rewrite (handle_pair_str _ _ _ Hp Hhp).
        - by rewrite (handle_pair_none _ _ Hp Hhp). }
      destruct (member_security_type _ _ _ _ _ _ Htag Hst' Hv) as [-> Hattr].
      done.
    + destruct e; try done. intros Hb; left; by eapply Hbase.
  - destruct (model_validate c fs data) as [obj|[]] eqn:Hv;
      try done; [|intros Hb; left; by eapply Hbase].
    intros [= ->]. right. exists tag, fs.
    destruct (member_security_type _ _ _ _ _ _ Htag Hst Hv) as [-> Hattr].
    done.
Qed.

(** X26.  Data tagged [OPT] or [FOP] without a [strike] do not
    validate as [Option] or [FuturesOption], which require it, so
    [ContractAdapter.parse] falls back: its result is that of
    [Contract.model_validate(data)], and when it is an object it is a
    plain [Contract] whose [strike] is the default 0. *)
Theorem option_without_strike_is_a_plain_contract
    (data : gmap string pyval) (tag : string) :
  tag = "OPT" ∨ tag = "FOP" →
  data !! "security_type" = Some (VStr tag) →
  data !! "strike" = None →
  parse data = model_validate "Contract" Contract data
  ∧ ∀ cls attrs, parse data = Ok (VObj cls attrs) →
      cls = "Contract" ∧ attrs !! "strike" = Some (VDecimal 0).
Proof.
  intros Htag Hst Hstrike.
  assert (Hparse : parse data = model_validate "Contract" Contract data).
  { unfold parse, validate_python. rewrite Hst.
    destruct Htag as [-> | ->].
    - replace (list_to_map specialized !! "OPT")
        with (Some ("Option", subclass
          [literal "OPT"; strike_required; option_type_required;
           Field "multiplier" TInt (Some (VInt 100)) false;
           exchange_enum (Some "SMART"); currency_usd]))
        by (apply eq_sym, elem_of_list_to_map_1;
             [by apply (bool_decide_unpack _); vm_compute
             |by apply (list_elem_of_lookup_2 _ 1%nat)]).
      rewrite bool_decide_eq_false_2 by done.
      unfold model_validate.
      rewrite (validate_fields_None _ data strike_required); [done| |].
      + by apply (list_elem_of_lookup_2 _ 4%nat).
      + unfold validate_field. simpl. by rewrite Hstrike.
    - replace (list_to_map specialized !! "FOP")
        with (Some ("FuturesOption", subclass
          [literal "FOP"; strike_required; option_type_required; currency_usd]))
        by (apply eq_sym, elem_of_list_to_map_1;
             [by apply (bool_decide_unpack _); vm_compute
             |by apply (list_elem_of_lookup_2 _ 9%nat)]).
      rewrite bool_decide_eq_false_2 by done.
      unfold model_validate.
      rewrite (validate_fields_None _ data strike_required); [done| |].
      + by apply (list_elem_of_lookup_2 _ 4%nat).
      + unfold validate_field. simpl. by rewrite Hstrike. }
  split; [done|]. rewrite Hparse. intros cls attrs Hv.
  destruct (model_validate_attrs _ _ _ _ _ Hv) as (-> & attrs0 & Hfs & Hattrs).
  split; [done|]. rewrite Hattrs by done.
  transitivity (validate_field
                  (Field "strike" (TDecimal false) (Some (VDecimal 0)) false) data).
  - apply (validate_fields_lookup Contract data attrs0 Contract_names_NoDup Hfs
             (Field "strike" (TDecimal false) (Some (VDecimal 0)) false)).
    by apply (list_elem_of_lookup_2 _ 4%nat).
  - unfold validate_field. simpl. by rewrite Hstrike.
Qed.

Lemma halves_of_a_pair (pr : string) :
  String.length pr = 6%nat →
  (substring 0 3 pr ++ substring 3 3 pr)%string = pr
  ∧ substring 0 3 pr ≠ "" ∧ substring 3 3 pr ≠ "".
Proof.
  intros Hlen.
  do 6 (destruct pr as [|? pr]; [done|]). by destruct pr.
Qed.

(** X27.  For data tagged [CASH] with a [pair] of six characters
    and no [symbol] and no [currency] (absent or [None]), when
    [ContractAdapter.parse] returns a [Forex], its [symbol] is the
    first three characters of the pair, its [currency] the last three,
    and its [pair()] is the pair that was given. *)
Theorem forex_pair_round_trip
    (py_str : pyval → string)
    (data : gmap string pyval) (pr : string) (attrs : gmap string pyval) :
  data !! "security_type" = Some (VStr "CASH") →
  data !! "pair" = Some (VStr pr) →
  String.length pr = 6%nat →
  (data !! "symbol" = None ∨ data !! "symbol" = Some VNone) →
  (data !! "currency" = None ∨ data !! "currency" = Some VNone) →
  parse data = Ok (VObj "Forex" attrs) →
  attrs !! "symbol" = Some (VStr (substring 0 3 pr))
  ∧ attrs !! "currency" = Some (VStr (substring 3 3 pr))
  ∧ ContractMethods.pair py_str (VObj "Forex" attrs) = Ok pr.
Proof.
  intros Hst Hp Hlen Hsym Hcur.
  destruct (halves_of_a_pair pr Hlen) as (Hcat & Hs & Hc).
  set (data' := <["currency" := VStr (substring 3 3 pr)]>
                (<["symbol" := VStr (substring 0 3 pr)]> data)).
  assert (Hhp : handle_pair data = Ok data').
  { unfold handle_pair. rewrite Hp, bool_decide_eq_true_2 by done.
    destruct Hsym as [-> | ->]; destruct Hcur as [-> | ->]; done. }
  set (fs := subclass [literal "CASH"; exchange_enum (Some "IDEALPRO")]).
  assert (Htag : list_to_map (M := gmap string (string * list field)) specialized
                  !! "CASH" = Some ("Forex", fs)).
  { apply elem_of_list_to_map_1;
      [by apply (bool_decide_unpack _); vm_compute
      |by apply (list_elem_of_lookup_2 _ 4%nat)]. }
  unfold parse, validate_python. rewrite Hst, Htag, bool_decide_eq_true_2, Hhp by done.
  destruct (model_validate "Forex" fs data') as [obj|e] eqn:Hv.
  2:{ destruct e; try done. intros Hb.
      by destruct (model_validate_attrs _ _ _ _ _ Hb) as [[=] _]. }
  intros [= ->].
  destruct (model_validate_attrs _ _ _ _ _ Hv) as (_ & attrs0 & Hfs & Hattrs).
  assert (Hnd : NoDup (fname <$> fs)) by apply Contract_names_NoDup.
  assert (Hsymbol : attrs !! "symbol" = Some (VStr (substring 0 3 pr))).
  { rewrite Hattrs by done.
    transitivity (validate_field (Field "symbol" str_or_none (Some VNone) false) data').
    - apply (validate_fields_lookup fs data' attrs0 Hnd Hfs
               (Field "symbol" str_or_none (Some VNone) false)).
      by apply (list_elem_of_lookup_2 _ 1%nat).
    - unfold validate_field, data'. simpl.
      by rewrite lookup_insert_ne, lookup_insert_eq. }
  assert (Hcurrency : attrs !! "currency" = Some (VStr (substring 3 3 pr))).
  { rewrite Hattrs by done.
    transitivity (validate_field (Field "currency" str_or_none (Some VNone) false) data').
    - apply (validate_fields_lookup fs data' attrs0 Hnd Hfs
               (Field "currency" str_or_none (Some VNone) false)).
      by apply (list_elem_of_lookup_2 _ 9%nat).
    - unfold validate_field, data'. simpl. by rewrite lookup_insert_eq. }
  split; [done|]. split; [done|].
  unfold ContractMethods.pair, ContractMethods.attribute.
  rewrite Hsymbol, Hcurrency. simpl.
  rewrite !bool_decide_eq_false_2 by done. simpl. by rewrite Hcat.
Qed.
End adapter.
End ContractAdapterMore.

(** ** Validators *)

Module IBValidatorsSpec.
Import IBValidators.

Section validators.
Context `{PyEnv}.

(** X28.  [IBValidators.validate_ib_bool] on a text is what
    [FieldIterator.next_bool()] returns on that token, the empty token
    included: [True] exactly when the text is [1] or is [true] up to
    letter case. *)
Theorem validate_ib_bool_reads_tokens_as_next_bool (tok : string) :
  FieldIterator.next_bool false (FieldIterator.__init__ [tok] 0)
  = (Ok (validate_ib_bool (VStr tok)), FieldIterator.__init__ [tok] 1)
  ∧ (validate_ib_bool (VStr tok) = true ↔ tok = "1" ∨ eq_ignore_case tok "true").
Proof.
  split.
  - rewrite (FieldIteratorSpec.next_bool_token false _ tok); [|done|done|done].
    simpl. destruct (decide (tok = "")) as [->|Hne]; [done|].
    by rewrite bool_decide_eq_false_2.
  - simpl. rewrite orb_true_iff, !bool_decide_eq_true.
    by rewrite py_lower_true_iff.
Qed.

Lemma same_members (l1 l2 : list string) :
  Forall (λ x, x ∈ l2) l1 → Forall (λ x, x ∈ l1) l2 → ∀ v, v ∈ l1 ↔ v ∈ l2.
Proof.
  intros H12 H21 v. rewrite Forall_forall in H12. rewrite Forall_forall in H21.
  split; [apply H12|apply H21].
Qed.

Lemma sec_types_are_the_enum (v : string) :
  v ∈ valid_sec_types ↔ v ∈ ContractModels.SecurityType.
Proof.
  apply same_members; apply (bool_decide_unpack _); by vm_compute.
Qed.
End validators.

Section vocabulary.
Context `{PydanticEnv}.

(** X29.  [validate_sec_type] returns its argument or raises
    [ValueError]; it accepts exactly the empty string and the values of
    the enum [SecurityType], so that on a text that is not empty it
    accepts what pydantic accepts for [Contract.security_type].
    [validate_order_action] returns its argument or raises
    [ValueError]; it accepts the empty string, the values of the enum
    [OrderAction] and [SSHORT], which the enum does not have.
    [validate_order_type] and [validate_time_in_force] accept every
    string. *)
Theorem validator_vocabularies_and_enums (v : string) :
  (validate_sec_type v = Ok v ∨ validate_sec_type v = Raise ValueError)
  ∧ (validate_sec_type v = Ok v ↔ v = "" ∨ v ∈ ContractModels.SecurityType)
  ∧ (v ≠ "" →
     (validate_sec_type v = Ok v ↔
      Pydantic.validate
        (Pydantic.TOptional (Pydantic.TStrEnum ContractModels.SecurityType)) (VStr v)
      = Some (VStr v)))
  ∧ (validate_order_action v = Ok v ∨ validate_order_action v = Raise ValueError)
  ∧ (validate_order_action v = Ok v ↔
     v = "" ∨ v ∈ ContractModels.OrderAction ∨ v = "SSHORT")
  ∧ validate_order_type v = Ok v
  ∧ validate_time_in_force v = Ok v.
Proof.
  assert (Hsec : validate_sec_type v = Ok v ↔ v = "" ∨ v ∈ ContractModels.SecurityType).
  { unfold validate_sec_type. rewrite <- sec_types_are_the_enum.
    destruct (decide (v = "")) as [->|Hne]; [by split; [left|]|].
    rewrite (bool_decide_eq_false_2 (v = "")) by done.
    destruct (decide (v ∈ valid_sec_types)) as [Hin|Hnin].
    - rewrite bool_decide_eq_true_2 by done. simpl. by split; [right|].
    - rewrite bool_decide_eq_false_2 by done. simpl. split; [done|]. by intros [|]. }
  split; [|split; [done|split; [|split; [|split; [|split]]]]].
  - unfold validate_sec_type. destruct (_ && _); [by right|by left].
  - intros Hne. rewrite Hsec. simpl.
    destruct (decide (v ∈ ContractModels.SecurityType)) as [Hin|Hnin].
    + rewrite bool_decide_eq_true_2 by done. by split; [|right].
    + rewrite bool_decide_eq_false_2 by done. split; [by intros [|]|done].
  - unfold validate_order_action. destruct (_ && _); [by right|by left].
  - unfold validate_order_action.
    assert (Hact : v ∈ valid_actions ↔ v ∈ ContractModels.OrderAction ∨ v = "SSHORT").
    { unfold valid_actions, ContractModels.OrderAction.
      rewrite !elem_of_cons, !elem_of_nil. tauto. }
    destruct (decide (v = "")) as [->|Hne]; [by split; [left|]|].
    rewrite (bool_decide_eq_false_2 (v = "")) by done.
    destruct (decide (v ∈ valid_actions)) as [Hin|Hnin].
    + rewrite bool_decide_eq_true_2 by done. simpl. split; [|done].
      intros _. right. by apply Hact.
    + rewrite bool_decide_eq_false_2 by done. simpl. split; [done|].
      intros [?|Hor]; [done|]. by apply Hact in Hor.
  - unfold validate_order_type. by destruct (_ && _).
  - unfold validate_time_in_force. by destruct (_ && _).
Qed.
End vocabulary.

(** X30.  [IBValidators.validate_right] and
    [OptionType.from_string] agree on every string.  On the empty string
    the first returns it and the second returns [None]; they raise
    [ValueError] on the same strings; otherwise both give the same
    letter, [P] exactly when the string in upper case is [P] or [PUT]
    and [C] exactly when it is [C] or [CALL], and [validate_right]
    returns that letter unchanged when given it. *)
Theorem option_right_normalisers_agree (v : string) :
  (v = "" ∧ validate_right v = Ok "" ∧ OptionType.from_string v = Ok None)
  ∨ (v ≠ "" ∧ validate_right v = Raise ValueError
     ∧ OptionType.from_string v = Raise ValueError)
  ∨ (∃ r, v ≠ "" ∧ r ∈ ContractModels.OptionType
       ∧ validate_right v = Ok r
       ∧ OptionType.from_string v = Ok (Some r)
       ∧ validate_right r = Ok r
       ∧ (r = "P" ↔ py_upper v = "P" ∨ py_upper v = "PUT")
       ∧ (r = "C" ↔ py_upper v = "C" ∨ py_upper v = "CALL")).
Proof.
  destruct (decide (v = "")) as [->|Hne]; [by left|]. right.
  unfold validate_right, OptionType.from_string.
  rewrite !(bool_decide_eq_false_2 (v = "")) by done.
  destruct (decide (py_upper v ∈ ["P"; "PUT"])) as [HP|HnP].
  - rewrite (bool_decide_eq_true_2 _ HP).
    assert (HnC : py_upper v ∉ ["C"; "CALL"]).
    { rewrite !elem_of_cons, elem_of_nil in HP. rewrite !elem_of_cons, elem_of_nil.
      intros [|[|[]]]; destruct HP as [|[|[]]]; congruence. }
    rewrite (bool_decide_eq_false_2 _ HnC).
    right. exists "P". split; [done|]. split; [by apply (list_elem_of_lookup_2 _ 1%nat)|].
    do 3 (split; [done|]). rewrite !elem_of_cons, elem_of_nil in HP.
    rewrite !elem_of_cons, elem_of_nil in HnC. split; split; try done; tauto.
  - rewrite (bool_decide_eq_false_2 _ HnP).
    destruct (decide (py_upper v ∈ ["C"; "CALL"])) as [HC|HnC].
    + rewrite (bool_decide_eq_true_2 _ HC).
      right. exists "C". split; [done|]. split; [by apply (list_elem_of_lookup_2 _ 0%nat)|].
      do 3 (split; [done|]). rewrite !elem_of_cons, elem_of_nil in HC.
      rewrite !elem_of_cons, elem_of_nil in HnP. split; split; try done; tauto.
    + rewrite (bool_decide_eq_false_2 _ HnC). by left.
Qed.
End IBValidatorsSpec.

(** ** The added properties, run on records *)

Module MoreRuns.
Import Example_env Examples Records.
Import MessageRegistry MessageDispatcher.

Lemma three_tokens_in_order : FieldIterator.in_order three_tokens.
Proof. unfold three_tokens; split; simpl; [reflexivity|lia]. Qed.

(** X1, witness: a cursor over [a, b, c] that has read [a] is in order;
    [consume_rest()] returns [b, c] and [remaining()] is then 0. *)
Lemma consume_rest_returns_unread_tokens_witness :
  FieldIterator.in_order three_tokens
  ∧ ∃ it', FieldIterator.consume_rest three_tokens = (Ok ["b"; "c"], it')
           ∧ FieldIterator.remaining it' = (Ok 0, it').
Proof.
  split; [exact three_tokens_in_order|].
  destruct (FieldIteratorMore.consume_rest_returns_unread_tokens three_tokens
              three_tokens_in_order)
    as (rest & it' & Hc & _ & _ & _ & _ & Hr & _).
  exists it'. split; [|exact Hr].
  rewrite Hc. f_equal. f_equal.
  assert (E : (FieldIterator.consume_rest three_tokens).1 = Ok ["b"; "c"])
    by reflexivity.
  rewrite Hc in E. simpl in E. by injection E.
Defined.

(** X2, witness: on that cursor [skip(2)] ends where two calls of [next()]
    end. *)
Lemma skip_is_repeated_next_witness :
  FieldIterator.in_order three_tokens
  ∧ FieldIterator.skip 2 three_tokens
    = (Ok tt,
       FieldIterator.after_all
         [FieldIterator.CallNext false; FieldIterator.CallNext false] three_tokens).
Proof.
  split; [exact three_tokens_in_order|].
  exact (proj1 (FieldIteratorMore.skip_is_repeated_next three_tokens 2
                  three_tokens_in_order)).
Defined.

(** X3, witness: on that cursor [peek(1)] is [c] and the cursor has not
    moved. *)
Lemma peek_looks_ahead_without_moving_witness :
  FieldIterator.in_order three_tokens
  ∧ FieldIterator.peek 1 three_tokens = (Ok (Some "c"), three_tokens).
Proof.
  split; [exact three_tokens_in_order|].
  exact (proj1 (FieldIteratorMore.peek_looks_ahead_without_moving three_tokens 1
                  three_tokens_in_order)).
Defined.

(** X4, witness: on a new cursor over [a, b], after [skip(-1)] the
    position is -1 and [next()] returns [b]. *)
Lemma skip_has_no_lower_bound_witness :
  (1 ≤ 1)%nat
  ∧ let it := (FieldIterator.skip (-1) (FieldIterator.__init__ ["a"; "b"] 0)).2 in
    FieldIterator.index it = -1
    ∧ FieldIterator.next "" false it
      = (Ok (FieldIterator.Tok "b"), FieldIterator.set_index 0 it).
Proof.
  assert (Hk : (1 ≤ 1)%nat) by lia.
  split; [exact Hk|].
  destruct (FieldIteratorMore.skip_has_no_lower_bound ["a"; "b"] 1 Hk)
    as (Hi & Htok & _).
  split; [exact Hi|].
  apply (Htok "b"); [reflexivity|simpl; lia].
Defined.

(** X7, witness: on a dispatcher with a pre-processor that raises
    [ValueError], [dispatch] of the record [1] raises [ValueError]; the
    record is counted as processed and not as failed. *)
Lemma processor_exceptions_escape_dispatch_witness :
  tag_of ["1"] = Some 1
  ∧ ∃ d', MessageDispatcher.dispatch (λ _, None) (λ _ _, None) 0%Q ["1"]
            guarded_dispatcher = (Raise ValueError, d')
          ∧ messages_processed (stats d') = 1
          ∧ messages_failed (stats d') = 0.
Proof.
  assert (Htag : tag_of ["1"] = Some 1) by reflexivity.
  split; [exact Htag|].
  destruct (MessageDispatcherMore.processor_exceptions_escape_dispatch
              (λ _, None) (λ _ _, None) guarded_dispatcher 0%Q ["1"] 1 Htag)
    as (Hpre & _).
  destruct (Hpre ValueError) as (Hd & Hp & Hf & _); [reflexivity|].
  eexists. split; [exact Hd|]. split; [rewrite Hp|rewrite Hf]; reflexivity.
Defined.

(** X8, witness: on a dispatcher whose registry has [FirstMessage] under
    tag 1 with the handler [handle_first], the record [1] is decoded,
    returned and handed to [handle_first], and nothing is counted as
    failed. *)
Lemma dispatch_delivers_to_registered_handler_witness :
  tag_of ["1"] = Some 1
  ∧ get_handler number_cls (registry handled_dispatcher) = Some first_handler
  ∧ ∃ d', MessageDispatcher.dispatch (λ _, None) (λ _ _, None) 0%Q ["1"]
            handled_dispatcher = (Ok (Some 1), d')
          ∧ new_invocations handled_dispatcher d' = [Handler "handle_first" 1]
          ∧ messages_failed (stats d') = 0.
Proof.
  assert (Htag : tag_of ["1"] = Some 1) by reflexivity.
  assert (Hh : get_handler number_cls (registry handled_dispatcher)
               = Some first_handler) by reflexivity.
  split; [exact Htag|]. split; [exact Hh|].
  destruct (MessageDispatcherMore.dispatch_delivers_to_registered_handler
              (λ _, None) (λ _ _, None) handled_dispatcher 0%Q ["1"] ["1"] 1
              number_cls 1 first_handler tt Htag)
    as (d' & Hd & Hi & _ & _ & Hf & _);
    [reflexivity|reflexivity|reflexivity|exact Hh|reflexivity|reflexivity|].
  exists d'. split; [exact Hd|]. split; [exact Hi|]. rewrite Hf. reflexivity.
Defined.


(** X11, witness: [TickSizeMessage] gives [tickSize]. *)
Lemma wrapper_method_name_strips_suffix_witness :
  (nat_of_ascii "T" < 128)%nat
  ∧ wrapper_method_name "TickSizeMessage" = Ok "tickSize".
Proof.
  assert (Hc : (nat_of_ascii "T" < 128)%nat) by (apply Nat.ltb_lt; reflexivity).
  split; [exact Hc|].
  exact (proj1 (proj2 (MessageDispatcherMore.wrapper_method_name_strips_suffix
                         "T" "ickSize" Hc))).
Defined.

(** The classes of the examples behave as pydantic models. *)
Lemma example_objects_are_pydantic : ContractModelFields.pydantic_models.
Proof.
  intros cls fields Hin. split.
  - intros args o. change (plain_new cls args = Ok o → ∃ attrs, o = VObj cls attrs).
    unfold plain_new. destruct (bool_decide (cls = "Order"));
      intros [= <-]; by eexists.
  - intros name v Hname. exists ValidationError.
    change (model_setattr cls name v = Raise ValidationError).
    unfold model_setattr, ContractModelFields.models in *.
    repeat (apply elem_of_cons in Hin as [[= -> ->]|Hin]);
      [..|by apply elem_of_nil in Hin];
      match goal with
      | |- match ?l with _ => _ end = _ =>
          match type of Hname with
          | _ ∉ ?fs => replace l with (Some fs) by reflexivity
          end
      end;
      by rewrite bool_decide_false.
Qed.

(** X18, witness: the classes of the examples behave as pydantic
    models, and on them the decoder of open orders raises on a record of
    the examples. *)
Lemma order_decoders_reject_contract_attributes_witness :
  ContractModelFields.pydantic_models
  ∧ ∃ e, OpenOrderMessage.from_fields hedged_record 176 = Raise e.
Proof.
  split; [exact example_objects_are_pydantic|].
  exact (proj1 (AssignmentSpec.order_decoders_reject_contract_attributes
                  hedged_record 176 example_objects_are_pydantic)).
Defined.

(** X20, witness: on the classes of the examples the decoder of
    [DeltaNeutralValidationMessage] raises on a well-formed record. *)
Lemma details_and_delta_neutral_reject_attributes_witness :
  ContractModelFields.pydantic_models
  ∧ ∃ e, DeltaNeutralValidationMessage.from_fields
           ["56"; "1"; "7"; "265598"; "0.5"; "150.0"] 176 = Raise e.
Proof.
  split; [exact example_objects_are_pydantic|].
  exact (proj2 (AssignmentSpec.details_and_delta_neutral_reject_attributes
                  example_objects_are_pydantic) _ 176).
Defined.

(** C6, witness: on the classes of the examples, which behave as pydantic
    models, the decoder of open orders raises [ValidationError] on the
    record whose hedge type is at token 76, having moved past three
    tokens. *)
Lemma hedge_block_is_never_reached_witness :
  ContractModelFields.pydantic_models
  ∧ OpenOrderMessage.from_fields hedged_record 176 = Raise ValidationError
  ∧ Decode.position
      (OpenOrderMessage.before_hedge 176 (Decode.start hedged_record)).2 = 3
  ∧ ∃ e fr',
      OpenOrderMessage.before_hedge 176 (Decode.start hedged_record)
      = (Raise e, fr')
      ∧ Decode.position fr' ≤ 3
      ∧ OpenOrderMessage.from_fields hedged_record 176 = Raise e.
Proof.
  split; [exact example_objects_are_pydantic|].
  split; [reflexivity|].
  split; [vm_compute; reflexivity|].
  destruct (proj1 (OrderDecodersSpec.hedge_block_is_never_reached
                     hedged_record 176 example_objects_are_pydantic))
    as (e & fr' & Hr & _ & Hpos & Hf).
  exists e, fr'. split; [exact Hr|]. split; [exact Hpos|exact Hf].
Defined.

(** C7, witness: on the classes of the examples [parse_contract_details]
    raises on the tokens of a stock contract at the market name, having
    moved past twelve tokens for version 164 as for version 163, and in
    the same state for every server version. *)
Lemma version_gates_are_never_reached_witness :
  ContractModelFields.pydantic_models
  ∧ (FieldParser.parse_contract_details 164 (Decode.start details_record)).1
    = Raise ValidationError
  ∧ Decode.position
      (FieldParser.parse_contract_details 164 (Decode.start details_record)).2
    = 12
  ∧ Decode.position
      (FieldParser.parse_contract_details 163 (Decode.start details_record)).2
    = 12
  ∧ ∃ e fr', ∀ server_version,
      FieldParser.parse_contract_details server_version
        (Decode.start details_record) = (Raise e, fr').
Proof.
  split; [exact example_objects_are_pydantic|].
  split; [reflexivity|].
  split; [vm_compute; reflexivity|].
  split; [vm_compute; reflexivity|].
  exact (proj1 (OrderDecodersSpec.version_gates_are_never_reached
                  example_objects_are_pydantic) (Decode.start details_record)).
Defined.

(** X21, witness: from the start of [t1, v1, t2, v2],
    [parse_tag_values(it, 2)] returns two pairs and leaves the cursor at
    4. *)
Lemma parse_tag_values_reads_count_pairs_witness :
  0 ≤ 0
  ∧ Layout.at_token tag_value_record 0 (Decode.start tag_value_record)
  ∧ ∃ pairs fr',
      FieldParser.parse_tag_values 2 (Decode.start tag_value_record)
      = (Ok (VList pairs), fr')
      ∧ Layout.at_token tag_value_record 4 fr'
      ∧ List.length pairs = 2%nat.
Proof.
  assert (Hk : 0 ≤ 0) by lia.
  split; [exact Hk|].
  split; [exact (LayoutSpec.at_token_start tag_value_record)|].
  destruct (FieldParserSpec.parse_tag_values_reads_count_pairs tag_value_record
              0 2 (Decode.start tag_value_record) Hk
              (LayoutSpec.at_token_start tag_value_record))
    as (pairs & fr' & Hp & Hat & Hlen & _).
  exists pairs, fr'. split; [exact Hp|]. split; [exact Hat|exact Hlen].
Defined.

(** The example data resolve, whatever the conversions of the
    environment. *)
Section resolved.
Context `{PydanticEnv}.

Lemma option_data_resolves :
  ∃ attrs, ContractAdapter.parse option_data = Ok (VObj "Option" attrs).
Proof. eexists. vm_compute. reflexivity. Qed.

Lemma forex_data_resolves :
  ∃ attrs, ContractAdapter.parse forex_data = Ok (VObj "Forex" attrs).
Proof. eexists. vm_compute. reflexivity. Qed.
End resolved.

(** X25, witness: the data of an option resolve to an [Option] whose
    [security_type] is [OPT]. *)
Lemma parse_resolves_by_security_type_witness :
  ∃ attrs,
    ContractAdapter.parse option_data = Ok (VObj "Option" attrs)
    ∧ attrs !! "security_type" = Some (VStr "OPT").
Proof.
  destruct (option_data_resolves (H := env) (H0 := conversions)) as [attrs Hp].
  exists attrs. split; [exact Hp|].
  destruct (ContractAdapterMore.parse_resolves_by_security_type option_data
              "Option" attrs I Hp) as [Hc|(tag & fs & Htag & _ & Ha)].
  - discriminate Hc.
  - rewrite Ha. f_equal.
    assert (E : option_data !! "security_type" = Some (VStr "OPT")) by reflexivity.
    rewrite E in Htag. by injection Htag as <-.
Defined.

(** X26, witness: data that hold the tag [OPT] alone are parsed as
    [Contract.model_validate] parses them. *)
Lemma option_without_strike_is_a_plain_contract_witness :
  option_data_without_strike !! "security_type" = Some (VStr "OPT")
  ∧ option_data_without_strike !! "strike" = None
  ∧ ContractAdapter.parse option_data_without_strike
    = ContractModels.model_validate "Contract" ContractModels.Contract
        option_data_without_strike.
Proof.
  assert (H1 : option_data_without_strike !! "security_type" = Some (VStr "OPT"))
    by reflexivity.
  assert (H2 : option_data_without_strike !! "strike" = None) by reflexivity.
  split; [exact H1|]. split; [exact H2|].
  exact (proj1 (ContractAdapterMore.option_without_strike_is_a_plain_contract
                  option_data_without_strike "OPT" (or_introl eq_refl) H1 H2)).
Defined.

(** X27, witness: the pair [EURUSD] gives a [Forex] with symbol [EUR] and
    currency [USD] whose [pair()] is [EURUSD]. *)
Lemma forex_pair_round_trip_witness :
  ∃ attrs,
    ContractAdapter.parse forex_data = Ok (VObj "Forex" attrs)
    ∧ attrs !! "symbol" = Some (VStr "EUR")
    ∧ attrs !! "currency" = Some (VStr "USD")
    ∧ ContractMethods.pair (λ _, "") (VObj "Forex" attrs) = Ok "EURUSD".
Proof.
  destruct (forex_data_resolves (H := env) (H0 := conversions)) as [attrs Hp].
  exists attrs. split; [exact Hp|].
  exact (ContractAdapterMore.forex_pair_round_trip (λ _, "") forex_data "EURUSD"
           attrs eq_refl eq_refl eq_refl (or_introl eq_refl) (or_introl eq_refl) Hp).
Defined.

(** X22, witness: with the fields [symbol] and [exchange] on the record
    [AAPL], the data validated are [symbol: AAPL] and [exchange: '']. *)
Lemma parse_gives_each_field_its_token_witness :
  NoDup ["symbol"; "exchange"]
  ∧ 0 ≤ 0
  ∧ Layout.at_token ["AAPL"] 0 (Decode.start ["AAPL"])
  ∧ ∃ data fr',
      ParseableModel.parse ["symbol"; "exchange"] (λ data, Ok (VObj "Model" data))
        (Decode.start ["AAPL"])
      = (Ok (VObj "Model" data), fr')
      ∧ Layout.at_token ["AAPL"] 2 fr'
      ∧ data !! "symbol" = Some (VStr "AAPL")
      ∧ data !! "exchange" = Some (VStr "").
Proof.
  assert (Hnd : NoDup ["symbol"; "exchange"])
    by (apply (bool_decide_unpack _); reflexivity).
  assert (Hk : 0 ≤ 0) by lia.
  split; [exact Hnd|]. split; [exact Hk|].
  split; [exact (LayoutSpec.at_token_start ["AAPL"])|].
  destruct (ParseableModelSpec.parse_gives_each_field_its_token
              ["symbol"; "exchange"] (λ data, Ok (VObj "Model" data)) ["AAPL"] 0
              (Decode.start ["AAPL"]) Hnd Hk (LayoutSpec.at_token_start ["AAPL"]))
    as (data & fr' & Hp & Hat & Hdata & _).
  exists data, fr'. split; [exact Hp|]. split; [exact Hat|].
  split.
  - destruct (Hdata 0%nat "symbol" eq_refl) as (s & Hs & Hd).
    rewrite Hd. injection Hs as <-. reflexivity.
  - destruct (Hdata 1%nat "exchange" eq_refl) as (s & Hs & Hd).
    rewrite Hd. injection Hs as <-. reflexivity.
Defined.
End MoreRuns.
